(** * Weather dashboard: volatility scoring and date-range selection

    A shallow embedding of the two pieces of logic of the dashboard:

    - [calculateVolatility] / [calculateWeatherVolatility]
      (src/components/VolatilityIndicator/index.tsx) and the two pages that
      feed them (Analytics and Dashboard);
    - the [DateRangePicker] component (state, [applyPreset],
      [handleStartDateChange], [handleEndDateChange]) together with the part
      of the ECMAScript [Date] object it relies on: first for a zone with a
      fixed offset and one reading of the clock per handler ([JsDate],
      [DateRangePicker]), then for any time zone and with every reading of
      the clock explicit ([TimeZone], [ZonedPicker]).

    JavaScript numbers are kept abstract behind the class [JsNumber], which
    lists exactly the operations the source applies to them.  The class is
    instantiated twice: with the real numbers (exact arithmetic, in which the
    algebraic laws are stated) and with IEEE-754 binary64 (what the engine
    really computes with, used to run the code on concrete inputs and to
    settle the sign of the score). *)

From Stdlib Require Import Ascii String.
From Stdlib Require Import ZArith List Bool Lia Lra Reals Permutation.
From Stdlib Require Import Floats Uint63.
Import ListNotations.

(** ** JavaScript numbers *)

Class JsNumber (T : Type) : Type := {
  ofZ    : Z -> T;          (* an integer literal, or [xs.length] *)
  add    : T -> T -> T;     (* a + b *)
  sub    : T -> T -> T;     (* a - b *)
  mul    : T -> T -> T;     (* a * b *)
  div    : T -> T -> T;     (* a / b *)
  pow2   : T -> T;          (* Math.pow(a, 2) *)
  sqrt   : T -> T;          (* Math.sqrt(a) *)
  isNaN  : T -> bool;       (* isNaN(a) *)
  truthy : T -> bool        (* ToBoolean(a): false on 0 and NaN *)
}.

(** Decimal literals of the source: [0.4] is the number nearest to 4/10, which
    is also what the correctly rounded quotient of 4 by 10 gives. *)
Definition decimal {T} `{JsNumber T} (n : Z) : T := div (ofZ n) (ofZ 10).

(** Exact arithmetic. *)
#[export] Instance RealNumber : JsNumber R := {
  ofZ    := IZR;
  add    := Rplus;
  sub    := Rminus;
  mul    := Rmult;
  div    := Rdiv;
  pow2   := fun x => (x * x)%R;
  sqrt   := R_sqrt.sqrt;
  isNaN  := fun _ => false;
  truthy := fun x => if Req_dec_T x 0%R then false else true
}.

(** IEEE-754 binary64.  [Math.pow(x, 2)] is taken to be the correctly rounded
    [x * x], which is what the fdlibm [pow] of the engines returns for the
    exponent 2 (and what any [pow] returns when the square is representable,
    as it is for the deviations 0, 2, 5 and 10 of the runs below). *)
Definition float_ofZ (z : Z) : float :=
  match z with
  | Z0 => PrimFloat.of_uint63 0
  | Zpos _ => PrimFloat.of_uint63 (Uint63.of_Z z)
  | Zneg p => PrimFloat.opp (PrimFloat.of_uint63 (Uint63.of_Z (Zpos p)))
  end.

#[export] Instance Binary64 : JsNumber float := {
  ofZ    := float_ofZ;
  add    := PrimFloat.add;
  sub    := PrimFloat.sub;
  mul    := PrimFloat.mul;
  div    := PrimFloat.div;
  pow2   := fun x => PrimFloat.mul x x;
  sqrt   := PrimFloat.sqrt;
  isNaN  := PrimFloat.is_nan;
  truthy := fun x => negb (PrimFloat.is_zero x || PrimFloat.is_nan x)
}.

(** ** VolatilityIndicator/index.tsx *)

Module Volatility.
Section Scorer.
Context {T : Type} `{JsNumber T}.

(** [xs.reduce(f, init)] *)
Definition reduce {A B} (f : B -> A -> B) (init : B) (xs : list A) : B :=
  fold_left f xs init.

(** [xs.length] as a number *)
Definition len {A} (xs : list A) : T := ofZ (Z.of_nat (length xs)).

Definition calculateVolatility (readings : list T) : T :=
  if (length readings <? 2)%nat then ofZ 0 else
  let mean := div (reduce (fun sum val => add sum val) (ofZ 0) readings)
                  (len readings) in
  let variance :=
    div (reduce (fun sum val => add sum (pow2 (sub val mean))) (ofZ 0) readings)
        (len readings) in
  sqrt variance.

(** The argument object: each property is an array or [undefined]. *)
Record Metrics : Type := {
  temperature : option (list T);
  humidity    : option (list T);
  pressure    : option (list T);
  windSpeed   : option (list T)
}.

Record Weights : Type := {
  w_temperature : T;
  w_humidity    : T;
  w_pressure    : T;
  w_windSpeed   : T
}.

Definition weights : Weights := {|
  w_temperature := decimal 4;
  w_humidity    := decimal 2;
  w_pressure    := decimal 2;
  w_windSpeed   := decimal 2
|}.

(** One of the four blocks
    [if (metrics.m && metrics.m.length > 1) { volatilities.push(vol * w) }]. *)
Definition pushMetric (m : option (list T)) (w : T) (volatilities : list T)
  : list T :=
  match m with
  | Some xs =>
      if (1 <? length xs)%nat
      then volatilities ++ [mul (calculateVolatility xs) w]
      else volatilities
  | None => volatilities
  end.

Definition calculateWeatherVolatility (metrics : Metrics) : T :=
  let volatilities := [] in
  let volatilities :=
    pushMetric (temperature metrics) (w_temperature weights) volatilities in
  let volatilities :=
    pushMetric (humidity metrics) (w_humidity weights) volatilities in
  let volatilities :=
    pushMetric (pressure metrics) (w_pressure weights) volatilities in
  let volatilities :=
    pushMetric (windSpeed metrics) (w_windSpeed weights) volatilities in
  let totalVolatility :=
    if (0 <? length volatilities)%nat
    then reduce (fun sum vol => add sum vol) (ofZ 0) volatilities
    else ofZ 0 in
  totalVolatility.

End Scorer.
Arguments Metrics T : clear implicits.
Arguments Weights T : clear implicits.
End Volatility.

(** ** The rows the pages read, and the two pages that score them *)

Module Database.
Section Rows.
Context {T : Type}.

(** [Database['public']['Tables']['weather_readings']['Row']], restricted to
    the four nullable numeric columns the scorer is fed with. *)
Record WeatherReading : Type := {
  temperature_c    : option T;
  humidity_percent : option T;
  pressure_hpa     : option T;
  wind_speed_ms    : option T
}.

End Rows.
Arguments WeatherReading T : clear implicits.
End Database.

Module Dashboard.
Import Volatility Database.
Section Page.
Context {T : Type} `{JsNumber T}.

(** [.filter((x): x is number => x !== null && !isNaN(x))] *)
Fixpoint filterNumbers (col : list (option T)) : list T :=
  match col with
  | [] => []
  | None :: rest => filterNumbers rest
  | Some x :: rest =>
      if isNaN x then filterNumbers rest else x :: filterNumbers rest
  end.

(** [xs.length > 1 ? xs : undefined] *)
Definition orUndefined (xs : list T) : option (list T) :=
  if (1 <? length xs)%nat then Some xs else None.

(** The value [fetchWeatherData] hands to [setVolatility] once the query has
    answered [typedData] ([None] is a [null] answer). *)
Definition fetchWeatherData (typedData : option (list (WeatherReading T))) : T :=
  match typedData with
  | Some rows =>
      if (1 <? length rows)%nat then
        let temperatures := filterNumbers (map temperature_c rows) in
        let humidities   := filterNumbers (map humidity_percent rows) in
        let pressures    := filterNumbers (map pressure_hpa rows) in
        let windSpeeds   := filterNumbers (map wind_speed_ms rows) in
        if (1 <? length temperatures)%nat then
          calculateWeatherVolatility
            {| temperature := Some temperatures;
               humidity    := orUndefined humidities;
               pressure    := orUndefined pressures;
               windSpeed   := orUndefined windSpeeds |}
        else ofZ 0
      else ofZ 0
  | None => ofZ 0
  end.

End Page.
End Dashboard.

Module Analytics.
Import Volatility Database.
Section Page.
Context {T : Type} `{JsNumber T}.

(** [x || 0] on a nullable number. *)
Definition orZero (x : option T) : T :=
  match x with
  | Some v => if truthy v then v else ofZ 0
  | None => ofZ 0
  end.

(** The constant [volatility] of the Analytics page. *)
Definition volatility (weatherData : list (WeatherReading T)) : T :=
  if (0 <? length weatherData)%nat then
    calculateWeatherVolatility
      {| temperature := Some (map (fun r => orZero (temperature_c r)) weatherData);
         humidity    := Some (map (fun r => orZero (humidity_percent r)) weatherData);
         pressure    := Some (map (fun r => orZero (pressure_hpa r)) weatherData);
         windSpeed   := Some (map (fun r => orZero (wind_speed_ms r)) weatherData) |}
  else ofZ 0.

End Page.
End Analytics.

(** ** The ECMAScript [Date] object, as far as the picker uses it

    Time values are integers (milliseconds since the epoch, UTC); the
    abstract operations follow ECMA-262, section "Date Objects".  A [Date]
    whose time value is [NaN] (an Invalid Date) is [None].  In this module
    local time is UTC shifted by a fixed offset [LocalTZA]: it is the Date of
    a zone without clock changes.  The Date of a zone whose offset depends on
    the instant is in [TimeZone] below; at [TimeZone.fixed] the two agree. *)

Module JsDate.
Local Open Scope Z_scope.

Definition msPerDay    : Z := 86400000.
Definition msPerHour   : Z := 3600000.
Definition msPerMinute : Z := 60000.
Definition msPerSecond : Z := 1000.

Definition Day (t : Z) : Z := t / msPerDay.
Definition TimeWithinDay (t : Z) : Z := t mod msPerDay.

Definition DaysInYear (y : Z) : Z :=
  if negb (y mod 4 =? 0) then 365
  else if negb (y mod 100 =? 0) then 366
  else if negb (y mod 400 =? 0) then 365
  else 366.

Definition DayFromYear (y : Z) : Z :=
  365 * (y - 1970) + (y - 1969) / 4 - (y - 1901) / 100 + (y - 1601) / 400.

Definition TimeFromYear (y : Z) : Z := msPerDay * DayFromYear y.

(** "The largest integer y such that TimeFromYear(y) <= t": estimated from
    the mean length of a year, then corrected by at most one. *)
Definition YearFromTime (t : Z) : Z :=
  let d := Day t in
  let y := 1970 + (400 * d) / 146097 in
  if d <? DayFromYear y then y - 1
  else if DayFromYear (y + 1) <=? d then y + 1
  else y.

Definition InLeapYear (t : Z) : Z :=
  if DaysInYear (YearFromTime t) =? 366 then 1 else 0.

Definition DayWithinYear (t : Z) : Z := Day t - DayFromYear (YearFromTime t).

Definition MonthFromTime (t : Z) : Z :=
  let d := DayWithinYear t in
  let l := InLeapYear t in
  if d <? 31 then 0
  else if d <? 59 + l then 1
  else if d <? 90 + l then 2
  else if d <? 120 + l then 3
  else if d <? 151 + l then 4
  else if d <? 181 + l then 5
  else if d <? 212 + l then 6
  else if d <? 243 + l then 7
  else if d <? 273 + l then 8
  else if d <? 304 + l then 9
  else if d <? 334 + l then 10
  else 11.

Definition DateFromTime (t : Z) : Z :=
  let d := DayWithinYear t in
  let l := InLeapYear t in
  match MonthFromTime t with
  | 0 => d + 1
  | 1 => d - 30
  | 2 => d - 58 - l
  | 3 => d - 89 - l
  | 4 => d - 119 - l
  | 5 => d - 150 - l
  | 6 => d - 180 - l
  | 7 => d - 211 - l
  | 8 => d - 242 - l
  | 9 => d - 272 - l
  | 10 => d - 303 - l
  | _ => d - 333 - l
  end.

Definition MakeTime (hour min sec ms : Z) : Z :=
  hour * msPerHour + min * msPerMinute + sec * msPerSecond + ms.

(** Day number, within its year, of the first day of month [mn] (0..11) of
    year [ym]: the [Day(t)] of the [t] that MakeDay looks for, less
    [DayFromYear ym]. *)
Definition firstDayOfMonth (ym mn : Z) : Z :=
  let l := if DaysInYear ym =? 366 then 1 else 0 in
  match mn with
  | 0 => 0
  | 1 => 31
  | 2 => 59 + l
  | 3 => 90 + l
  | 4 => 120 + l
  | 5 => 151 + l
  | 6 => 181 + l
  | 7 => 212 + l
  | 8 => 243 + l
  | 9 => 273 + l
  | 10 => 304 + l
  | _ => 334 + l
  end.

Definition MakeDay (year month date : Z) : Z :=
  let ym := year + month / 12 in
  let mn := month mod 12 in
  DayFromYear ym + firstDayOfMonth ym mn + date - 1.

Definition MakeDate (day time : Z) : Z := day * msPerDay + time.

Definition maxTime : Z := 8640000000000000.

Definition TimeClip (time : Z) : option Z :=
  if Z.abs time <=? maxTime then Some time else None.

(** [MakeFullYear]: two-digit years are years of the twentieth century. *)
Definition MakeFullYear (y : Z) : Z :=
  if (0 <=? y) && (y <=? 99) then 1900 + y else y.

(** A Date object: its time value. *)
Definition Date : Type := option Z.

(** A number that may be [NaN], as returned by the getters. *)
Definition Num : Type := option Z.

Definition minus (a : Num) (n : Z) : Num :=
  match a with Some x => Some (x - n) | None => None end.

(** Length of month [m] (1..12) of year [y]. *)
Definition DaysInMonth (y m : Z) : Z :=
  match m with
  | 2 => if DaysInYear y =? 366 then 29 else 28
  | 4 | 6 | 9 | 11 => 30
  | _ => 31
  end.

Section Local.
Variable LocalTZA : Z.

Definition LocalTime (t : Z) : Z := t + LocalTZA.
Definition UTC (t : Z) : Z := t - LocalTZA.

(** [new Date()] when the clock reads [now]. *)
Definition Date_now (now : Z) : Date := Some now.

(** [d.getDate()] *)
Definition getDate (d : Date) : Num :=
  match d with
  | Some t => Some (DateFromTime (LocalTime t))
  | None => None
  end.

(** [d.getFullYear()] *)
Definition getFullYear (d : Date) : Num :=
  match d with
  | Some t => Some (YearFromTime (LocalTime t))
  | None => None
  end.

(** [d.setHours(hour, min, sec, ms)]; the result is the updated object. *)
Definition setHours (hour min sec ms : Z) (d : Date) : Date :=
  match d with
  | Some t =>
      let t := LocalTime t in
      let date := MakeDate (Day t) (MakeTime hour min sec ms) in
      TimeClip (UTC date)
  | None => None
  end.

(** [d.setDate(date)] *)
Definition setDate (date : Num) (d : Date) : Date :=
  match d, date with
  | Some t, Some dt =>
      let t := LocalTime t in
      let newDate :=
        MakeDate (MakeDay (YearFromTime t) (MonthFromTime t) dt)
                 (TimeWithinDay t) in
      TimeClip (UTC newDate)
  | _, _ => None
  end.

(** [new Date(year, month, date)] *)
Definition Date_ymd (year month date : Num) : Date :=
  match year, month, date with
  | Some y, Some m, Some dt =>
      let yr := MakeFullYear y in
      let finalDate := MakeDate (MakeDay yr m dt) (MakeTime 0 0 0 0) in
      TimeClip (UTC finalDate)
  | _, _, _ => None
  end.

End Local.

(** A decimal digit, and a run of them. *)
Definition digit (c : Ascii.ascii) : option Z :=
  let n := Z.of_nat (Ascii.nat_of_ascii c) in
  if (48 <=? n) && (n <=? 57) then Some (n - 48) else None.

Definition number (ds : list Ascii.ascii) : option Z :=
  fold_left
    (fun acc c =>
       match acc, digit c with
       | Some n, Some k => Some (10 * n + k)
       | _, _ => None
       end)
    ds (Some 0).

(** [new Date(value)] on the empty string and on the valid date strings
    [YYYY-MM-DD] with a four-digit year (month 01 to 12 and a day that month
    has), which is what an [<input type="date">] holds for the years 0 to
    9999: the empty string is no date, and the date-only form is read as UTC
    midnight.  On every other string the answer [None] only marks the string
    as not covered: the engines differ there (V8 reads [2024-02-30] as 1 March
    and [10000-01-01] as a date), and no property below rests on it. *)
Definition Date_parse (value : string) : Date :=
  match list_ascii_of_string value with
  | [y1; y2; y3; y4; dash1; m1; m2; dash2; d1; d2] =>
      if (Ascii.eqb dash1 "-"%char && Ascii.eqb dash2 "-"%char)%bool then
        match number [y1; y2; y3; y4], number [m1; m2], number [d1; d2] with
        | Some y, Some m, Some d =>
            if (1 <=? m) && (m <=? 12) && (1 <=? d) && (d <=? DaysInMonth y m)
            then TimeClip (MakeDate (MakeDay y (m - 1) d) (MakeTime 0 0 0 0))
            else None
        | _, _, _ => None
        end
      else None
  | _ => None
  end.

End JsDate.

(** ** The DateRangePicker component (src/components/ui/Tooltip.tsx) *)

Module DateRangePicker.
Import JsDate.
Local Open Scope string_scope.

(** The three [useState] cells. *)
Record State : Type := {
  startDate   : Date;
  endDate     : Date;
  rangePreset : string
}.

(** A call [onChange(start, end)] of the property, if the handler made one. *)
Definition Emitted : Type := option (Date * Date).

(** Default of the property [defaultRange]. *)
Definition defaultRange_default : string := "last7days".

(** [value]s of the buttons rendered from [presets]. *)
Definition presets : list (string * string) :=
  [ ("Last 7 Days", "last7days");
    ("Last 30 Days", "last30days");
    ("Last 90 Days", "last90days");
    ("Year to Date", "ytd") ].

Section Component.
Variable LocalTZA : Z.

(** The state of the first render, the clock reading [now]. *)
Definition initialState (now : Z) (defaultRange : string) : State :=
  {| startDate :=
       (let date := Date_now now in
        setDate LocalTZA (minus (getDate LocalTZA date) 7) date);
     endDate := Date_now now;
     rangePreset := defaultRange |}.

(** [applyPreset] when both [new Date()] of its body return the same time
    value [now]; the body with its two readings of the clock is
    [ZonedPicker.applyPreset]. *)
Definition applyPreset (now : Z) (preset : string) (s : State)
  : State * Emitted :=
  let today := Date_now now in
  let today := setHours LocalTZA 23 59 59 999 today in
  let start := Date_now now in
  let start := setHours LocalTZA 0 0 0 0 start in
  let finish (start : Date) : State * Emitted :=
    ({| startDate := start; endDate := today; rangePreset := preset |},
     Some (start, today)) in
  if preset =? "last7days" then
    finish (setDate LocalTZA (minus (getDate LocalTZA today) 7) start)
  else if preset =? "last30days" then
    finish (setDate LocalTZA (minus (getDate LocalTZA today) 30) start)
  else if preset =? "last90days" then
    finish (setDate LocalTZA (minus (getDate LocalTZA today) 90) start)
  else if preset =? "ytd" then
    finish (Date_ymd LocalTZA (getFullYear LocalTZA today) (Some 0%Z) (Some 1%Z))
  else (s, None).

Definition handleStartDateChange (value : string) (s : State)
  : State * Emitted :=
  let newStartDate := Date_parse value in
  let newStartDate := setHours LocalTZA 0 0 0 0 newStartDate in
  ({| startDate := newStartDate;
      endDate := endDate s;
      rangePreset := "custom" |},
   Some (newStartDate, endDate s)).

Definition handleEndDateChange (value : string) (s : State)
  : State * Emitted :=
  let newEndDate := Date_parse value in
  let newEndDate := setHours LocalTZA 23 59 59 999 newEndDate in
  ({| startDate := startDate s;
      endDate := newEndDate;
      rangePreset := "custom" |},
   Some (startDate s, newEndDate)).

(** The effect run once after the first render: [applyPreset(defaultRange)]. *)
Definition mount (now : Z) (defaultRange : string) : State * Emitted :=
  applyPreset now defaultRange (initialState now defaultRange).

(** What the user can do afterwards: press one of the preset buttons (the
    clock reading [now]), or edit one of the two date inputs. *)
Inductive Event : Type :=
  | PresetClick (now : Z) (value : string)
  | StartInput (value : string)
  | EndInput (value : string).

Definition step (s : State) (e : Event) : State * Emitted :=
  match e with
  | PresetClick now value => applyPreset now value s
  | StartInput value => handleStartDateChange value s
  | EndInput value => handleEndDateChange value s
  end.

End Component.
End DateRangePicker.

(** ** The statistic the specification names

    Written from the specification's words, to be compared with the code:
    the population standard deviation is the square root of the mean of the
    squared deviations from the arithmetic mean, dividing by N. *)

Module Spec.
Local Open Scope R_scope.

Fixpoint total (xs : list R) : R :=
  match xs with
  | [] => 0
  | x :: rest => x + total rest
  end.

Definition arithmeticMean (xs : list R) : R := total xs / INR (length xs).

Definition populationVariance (xs : list R) : R :=
  total (map (fun x => Rsqr (x - arithmeticMean xs)) xs) / INR (length xs).

Definition populationStdDev (xs : list R) : R :=
  R_sqrt.sqrt (populationVariance xs).

(** What one metric adds to the score: its weighted deviation when it has at
    least two samples, zero when it is absent or shorter. *)
Definition contribution (w : R) (m : option (list R)) : R :=
  match m with
  | Some xs => if (2 <=? length xs)%nat then w * populationStdDev xs else 0
  | None => 0
  end.

(** A metric that is absent or has fewer than two samples. *)
Definition sparse {T} (m : option (list T)) : bool :=
  match m with
  | Some xs => (length xs <? 2)%nat
  | None => true
  end.

(** Two argument objects whose arrays are, metric by metric, reorderings of
    each other (an absent metric stays absent). *)
Definition reordered {A} (a b : option (list A)) : Prop :=
  match a, b with
  | Some xs, Some ys => Permutation xs ys
  | None, None => True
  | _, _ => False
  end.

End Spec.

(** Argument objects with a single metric populated. *)
Module Only.
Import Volatility.
Section Build.
Context {T : Type}.

Definition temperature (xs : list T) : Metrics T :=
  {| Volatility.temperature := Some xs; humidity := None;
     pressure := None; windSpeed := None |}.

Definition humidity (xs : list T) : Metrics T :=
  {| Volatility.temperature := None; Volatility.humidity := Some xs;
     pressure := None; windSpeed := None |}.

Definition pressure (xs : list T) : Metrics T :=
  {| Volatility.temperature := None; Volatility.humidity := None;
     Volatility.pressure := Some xs; windSpeed := None |}.

Definition windSpeed (xs : list T) : Metrics T :=
  {| Volatility.temperature := None; Volatility.humidity := None;
     Volatility.pressure := None; Volatility.windSpeed := Some xs |}.

End Build.
End Only.

(** Concrete binary64 samples used to run the code. *)
Module Samples.
Import Volatility Database.

(** 2^53, from which on consecutive doubles are 2 apart. *)
Definition two53 : float := ofZ 9007199254740992.
Definition two53plus2 : float := add two53 (ofZ 2).

Definition ascending : list float :=
  [two53; two53plus2; two53plus2; two53plus2; two53plus2].
Definition descending : list float :=
  [two53plus2; two53plus2; two53plus2; two53plus2; two53].

(** [4.0, 2.8, 2.5] and [4.0, 2.5, 2.8] *)
Definition mild : list float := [ofZ 4; decimal 28; decimal 25].
Definition mild' : list float := [ofZ 4; decimal 25; decimal 28].

(** A row with only its temperature column given. *)
Definition temperatureRow {T} (t : option T) : WeatherReading T :=
  {| temperature_c := t; humidity_percent := None;
     pressure_hpa := None; wind_speed_ms := None |}.

(** A row with only its humidity column given. *)
Definition humidityRow {T} (h : option T) : WeatherReading T :=
  {| temperature_c := None; humidity_percent := h;
     pressure_hpa := None; wind_speed_ms := None |}.

(** Three readings, the middle one without a temperature. *)
Definition gappy {T} `{JsNumber T} : list (WeatherReading T) :=
  [temperatureRow (Some (ofZ 10)); temperatureRow None;
   temperatureRow (Some (ofZ 10))].

(** Two readings with humidity 40 and 60 and no temperature. *)
Definition humidOnly {T} `{JsNumber T} : list (WeatherReading T) :=
  [humidityRow (Some (ofZ 40)); humidityRow (Some (ofZ 60))].


(** [0.1, 0.1, 0.1] *)
Definition tenths : list float := [decimal 1; decimal 1; decimal 1].

(** [1e200] (the double the literal denotes) and its opposite. *)
Definition huge : float := 0x1.4e718d7d7625ap+664%float.
Definition opposite : list float := [huge; PrimFloat.opp huge].

End Samples.

(** Vocabulary for the sign of a binary64 score. *)
Module Binary64Spec.
Import Volatility.

(** [Number.isFinite(x)]: neither NaN nor an infinity. *)
Definition finite (x : float) : bool := PrimFloat.is_finite x.

(** [0 <= x], which is false on NaN. *)
Definition nonNegative (x : float) : bool := PrimFloat.leb (ofZ 0) x.

(** An array of finite numbers; an Array has at most 2^32 - 1 elements. *)
Definition finiteArray (xs : list float) : Prop :=
  (Z.of_nat (length xs) <= 4294967295)%Z /\
  Forall (fun x => finite x = true) xs.

Definition finiteMetric (m : option (list float)) : Prop :=
  match m with
  | Some xs => finiteArray xs
  | None => True
  end.

Definition finiteMetrics (m : Metrics float) : Prop :=
  finiteMetric (temperature m) /\ finiteMetric (humidity m) /\
  finiteMetric (pressure m) /\ finiteMetric (windSpeed m).

(** Classes of binary64 values, read on their IEEE-754 decomposition
    (sign, mantissa, exponent). *)
Definition notNaN (x : spec_float) : bool :=
  match x with S754_nan => false | _ => true end.

Definition zeroOrFinite (x : spec_float) : bool :=
  match x with S754_zero _ | S754_finite _ _ _ => true | _ => false end.

(** A zero of either sign, a positive finite number, or +Infinity. *)
Definition zeroOrPositive (x : spec_float) : bool :=
  match x with
  | S754_zero _ | S754_finite false _ _ | S754_infinity false => true
  | _ => false
  end.

Definition positiveFinite (x : spec_float) : bool :=
  match x with S754_finite false _ _ => true | _ => false end.

(** What a rounding that carries the sign [s] can return. *)
Definition signed (s : bool) (x : spec_float) : Prop :=
  x = S754_zero s \/ (exists m e, x = S754_finite s m e) \/ x = S754_infinity s.

End Binary64Spec.


(** Vocabulary of the specification for date ranges. *)
Module RangeSpec.
Import JsDate.
Local Open Scope Z_scope.

(** Offsets of local time from UTC are less than a day. *)
Definition validOffset (tza : Z) : Prop := - msPerDay < tza < msPerDay.

(** A clock reading: not before the epoch, and at least a day before the
    last time value a Date can hold. *)
Definition wallClock (now : Z) : Prop := 0 <= now <= maxTime - msPerDay.

(** The local calendar day an instant falls on. *)
Definition localDay (tza t : Z) : Z := Day (LocalTime tza t).

(** 00:00:00.000 local *)
Definition startOfDay (tza t : Z) : Prop :=
  TimeWithinDay (LocalTime tza t) = MakeTime 0 0 0 0.

(** 23:59:59.999 local *)
Definition endOfDay (tza t : Z) : Prop :=
  TimeWithinDay (LocalTime tza t) = MakeTime 23 59 59 999.

(** January 1 of the local year of [now]. *)
Definition newYearsDayOf (tza now t : Z) : Prop :=
  YearFromTime (LocalTime tza t) = YearFromTime (LocalTime tza now) /\
  MonthFromTime (LocalTime tza t) = 0 /\
  DateFromTime (LocalTime tza t) = 1.

(** The range ends on the local day of [now], at its last millisecond. *)
Definition endsToday (tza now e : Z) : Prop :=
  localDay tza e = localDay tza now /\ endOfDay tza e.

(** The range starts at the first millisecond of the local day [n] calendar
    days before the one of [now]. *)
Definition startsDaysBefore (tza now n st : Z) : Prop :=
  localDay tza st = localDay tza now - n /\ startOfDay tza st.

(** [applyPreset] stored the range [st, e] under [preset] and announced it. *)
Definition resolved (tza now : Z) (preset : string)
           (s : DateRangePicker.State) (st e : Z) : Prop :=
  DateRangePicker.applyPreset tza now preset s
  = ({| DateRangePicker.startDate := Some st;
        DateRangePicker.endDate := Some e;
        DateRangePicker.rangePreset := preset |},
     Some (Some st, Some e)).

End RangeSpec.

(** ** Local time under a time zone

    ECMA-262 leaves the offset of local time from UTC to the implementation:
    [LocalTZA(t, isUTC)] is the offset in force at the instant [t] when
    [isUTC] is true, and the offset by which the local time value [t] is to
    be read when [isUTC] is false.  The operations below are those of
    [JsDate] with the offset looked up where ECMA-262 looks it up; with the
    zone [fixed tza] they are the operations of [JsDate] at [tza]. *)

Module TimeZone.
Import JsDate.
Local Open Scope Z_scope.

Section Zone.
Variable LocalTZA : Z -> bool -> Z.

Definition LocalTime (t : Z) : Z := t + LocalTZA t true.
Definition UTC (t : Z) : Z := t - LocalTZA t false.

(** [d.getDate()] *)
Definition getDate (d : Date) : Num :=
  match d with
  | Some t => Some (DateFromTime (LocalTime t))
  | None => None
  end.

(** [d.getFullYear()] *)
Definition getFullYear (d : Date) : Num :=
  match d with
  | Some t => Some (YearFromTime (LocalTime t))
  | None => None
  end.

(** [d.setHours(hour, min, sec, ms)]; the result is the updated object. *)
Definition setHours (hour min sec ms : Z) (d : Date) : Date :=
  match d with
  | Some t =>
      let t := LocalTime t in
      let date := MakeDate (Day t) (MakeTime hour min sec ms) in
      TimeClip (UTC date)
  | None => None
  end.

(** [d.setDate(date)] *)
Definition setDate (date : Num) (d : Date) : Date :=
  match d, date with
  | Some t, Some dt =>
      let t := LocalTime t in
      let newDate :=
        MakeDate (MakeDay (YearFromTime t) (MonthFromTime t) dt)
                 (TimeWithinDay t) in
      TimeClip (UTC newDate)
  | _, _ => None
  end.

(** [new Date(year, month, date)] *)
Definition Date_ymd (year month date : Num) : Date :=
  match year, month, date with
  | Some y, Some m, Some dt =>
      let yr := MakeFullYear y in
      let finalDate := MakeDate (MakeDay yr m dt) (MakeTime 0 0 0 0) in
      TimeClip (UTC finalDate)
  | _, _, _ => None
  end.

End Zone.

(** A zone without clock changes. *)
Definition fixed (tza : Z) : Z -> bool -> Z := fun _ _ => tza.

(** A zone whose clocks change once, at the instant [change], from the
    offset [before] to the offset [after].  A local time that the change
    skips or repeats is read with the offset before the change, as ECMA-262
    prescribes. *)
Definition oneChange (change before after : Z) : Z -> bool -> Z :=
  fun t isUTC =>
    if isUTC
    then (if t <? change then before else after)
    else (if t <? change + Z.max before after then before else after).

(** America/New_York between November 2023 and November 2024: clocks go
    from 02:00 EST to 03:00 EDT on 10 March 2024, at 07:00 UTC. *)
Definition newYork2024 : Z -> bool -> Z :=
  oneChange 1710054000000 (-18000000) (-14400000).

(** America/Havana between November 2023 and November 2024: clocks go from
    00:00 CST to 01:00 CDT on 10 March 2024, at 05:00 UTC, so that day has
    no local midnight. *)
Definition havana2024 : Z -> bool -> Z :=
  oneChange 1710046800000 (-18000000) (-14400000).

End TimeZone.

(** ** [applyPreset] with its two readings of the clock

    The body of [applyPreset] calls [new Date()] twice, once for [today] and
    once for [start]; [DateRangePicker.applyPreset] is the case where both
    calls return the same time value and the zone is [fixed]. *)

Module ZonedPicker.
Import JsDate DateRangePicker.
Local Open Scope string_scope.

Section Component.
Variable LocalTZA : Z -> bool -> Z.

Definition applyPreset (nowToday nowStart : Z) (preset : string) (s : State)
  : State * Emitted :=
  let today := Date_now nowToday in
  let today := TimeZone.setHours LocalTZA 23 59 59 999 today in
  let start := Date_now nowStart in
  let start := TimeZone.setHours LocalTZA 0 0 0 0 start in
  let finish (start : Date) : State * Emitted :=
    ({| startDate := start; endDate := today; rangePreset := preset |},
     Some (start, today)) in
  if preset =? "last7days" then
    finish (TimeZone.setDate LocalTZA
              (minus (TimeZone.getDate LocalTZA today) 7) start)
  else if preset =? "last30days" then
    finish (TimeZone.setDate LocalTZA
              (minus (TimeZone.getDate LocalTZA today) 30) start)
  else if preset =? "last90days" then
    finish (TimeZone.setDate LocalTZA
              (minus (TimeZone.getDate LocalTZA today) 90) start)
  else if preset =? "ytd" then
    finish (TimeZone.Date_ymd LocalTZA
              (TimeZone.getFullYear LocalTZA today) (Some 0%Z) (Some 1%Z))
  else (s, None).

End Component.
End ZonedPicker.

(** Vocabulary of the specification for date ranges, under a time zone. *)
Module ZoneSpec.
Import JsDate.
Local Open Scope Z_scope.

Section Zone.
Variable LocalTZA : Z -> bool -> Z.

(** Offsets are less than a day, and so is the difference of any two of
    them. *)
Definition validZone : Prop :=
  forall t u isUTC isUTC',
    - msPerDay < LocalTZA t isUTC < msPerDay /\
    LocalTZA t isUTC - LocalTZA u isUTC' < msPerDay.

(** A reading of the clock: not before the epoch, and at least three days
    before the last time value a Date can hold. *)
Definition clockReading (now : Z) : Prop := 0 <= now <= maxTime - 3 * msPerDay.

(** The local calendar day an instant falls on. *)
Definition localDay (t : Z) : Z := Day (TimeZone.LocalTime LocalTZA t).


(** The instant at which the local time value [t] is read falls on the
    calendar day of [t] (as it does when [t] is on the clock). *)
Definition keepsDay (t : Z) : Prop :=
  Day (TimeZone.LocalTime LocalTZA (TimeZone.UTC LocalTZA t)) = Day t.


(** [applyPreset] stored the range [st, e] under [preset] and announced it. *)
Definition resolved (nowToday nowStart : Z) (preset : string)
           (s : DateRangePicker.State) (st e : Z) : Prop :=
  ZonedPicker.applyPreset LocalTZA nowToday nowStart preset s
  = ({| DateRangePicker.startDate := Some st;
        DateRangePicker.endDate := Some e;
        DateRangePicker.rangePreset := preset |},
     Some (Some st, Some e)).

End Zone.
End ZoneSpec.

(** Vocabulary for the further properties of the scorer. *)
Module ScorerSpec.
Import Volatility Database.
Local Open Scope R_scope.

(** Every sample of the metric, when it is given, lies in one interval of
    width at most [W]. *)
Definition withinWidth (W : R) (m : option (list R)) : Prop :=
  match m with
  | Some xs =>
      exists lo hi, lo <= hi /\ hi - lo <= W /\
                    Forall (fun x => lo <= x <= hi) xs
  | None => True
  end.

(** A row none of whose four scored columns is null. *)
Definition complete {T} (r : WeatherReading T) : Prop :=
  temperature_c r <> None /\ humidity_percent r <> None /\
  pressure_hpa r <> None /\ wind_speed_ms r <> None.

End ScorerSpec.

(** ** Plain objects used as dictionaries

    An object literal [{}] indexed by strings: its own properties, in front
    of the properties every object inherits from [Object.prototype]. *)

Module JsObject.
Local Open Scope string_scope.

(** The property names of [Object.prototype]. *)
Definition inherited : list string :=
  [ "constructor"; "hasOwnProperty"; "isPrototypeOf"; "propertyIsEnumerable";
    "toLocaleString"; "toString"; "valueOf"; "__proto__";
    "__defineGetter__"; "__defineSetter__";
    "__lookupGetter__"; "__lookupSetter__" ].

Section Obj.
Context {V : Type}.

(** Own properties, in insertion order. *)
Definition Obj : Type := list (string * V).

Fixpoint own (o : Obj) (k : string) : option V :=
  match o with
  | [] => None
  | (k', v) :: rest => if k' =? k then Some v else own rest k
  end.

(** [o[k] = v] *)
Fixpoint assign (o : Obj) (k : string) (v : V) : Obj :=
  match o with
  | [] => [(k, v)]
  | (k', v') :: rest =>
      if k' =? k then (k', v) :: rest else (k', v') :: assign rest k v
  end.

(** What [o[k]] evaluates to. *)
Inductive Got : Type :=
  | Own (v : V)     (* a value stored by the program *)
  | Proto           (* a member of [Object.prototype]: truthy, not an array *)
  | Undefined.

Definition get (o : Obj) (k : string) : Got :=
  match own o k with
  | Some v => Own v
  | None => if existsb (String.eqb k) inherited then Proto else Undefined
  end.

End Obj.
Arguments Obj V : clear implicits.
Arguments Got V : clear implicits.
End JsObject.

(** ** The rest of the Dashboard page (and the statistics of WeatherData) *)

Module DashboardView.
Import Volatility Database JsObject.
Local Open Scope string_scope.

Section View.
Context {T : Type} `{JsNumber T}.

(** [WeatherReadingWithLocation], with the columns the page reads: the four
    scored ones, the precipitation, and the name of the joined location
    ([None] when [locations] is null). *)
Record Row : Type := {
  reading          : WeatherReading T;
  precipitation_mm : option T;
  locations        : option string
}.

(** [rows.reduce((sum, r) => sum + (r.col || 0), 0)] *)
Definition sumOf (col : Row -> option T) (rows : list Row) : T :=
  reduce (fun sum r => add sum (Analytics.orZero (col r))) (ofZ 0) rows.

(** [rows.length > 0 ? rows.reduce(...) / rows.length : 0] *)
Definition averageOf (col : Row -> option T) (rows : list Row) : T :=
  if (0 <? length rows)%nat then div (sumOf col rows) (len rows) else ofZ 0.

Record Metrics : Type := {
  temperature   : T;
  humidity      : T;
  pressure      : T;
  precipitation : T;
  windSpeed     : T
}.

(** The constant [metrics] of the Dashboard. *)
Definition metrics (weatherReadings : list Row) : Metrics := {|
  temperature   := averageOf (fun r => temperature_c (reading r)) weatherReadings;
  humidity      := averageOf (fun r => humidity_percent (reading r)) weatherReadings;
  pressure      := averageOf (fun r => pressure_hpa (reading r)) weatherReadings;
  precipitation := sumOf precipitation_mm weatherReadings;
  windSpeed     := averageOf (fun r => wind_speed_ms (reading r)) weatherReadings
|}.

Record Statistics : Type := {
  avgTemp            : T;
  avgHumidity        : T;
  totalPrecipitation : T
}.

(** The constant [statistics] of the WeatherData page. *)
Definition statistics (weatherReadings : list Row) : Statistics := {|
  avgTemp            := averageOf (fun r => temperature_c (reading r)) weatherReadings;
  avgHumidity        := averageOf (fun r => humidity_percent (reading r)) weatherReadings;
  totalPrecipitation := sumOf precipitation_mm weatherReadings
|}.

(** [reading.locations?.name || 'Unknown'] *)
Definition locationName (r : Row) : string :=
  match locations r with
  | Some name => if name =? "" then "Unknown" else name
  | None => "Unknown"
  end.

(** One round of the reducer of [readingsByLocation]; [None] when it throws a
    TypeError because [acc[locationName]] is not an array. *)
Definition reducer (acc : option (Obj (list Row))) (reading : Row)
  : option (Obj (list Row)) :=
  match acc with
  | Some acc =>
      let locationName := locationName reading in
      let acc :=
        match get acc locationName with
        | Undefined => assign acc locationName []
        | _ => acc
        end in
      match get acc locationName with
      | Own group => Some (assign acc locationName (group ++ [reading])%list)
      | _ => None
      end
  | None => None
  end.

(** The constant [readingsByLocation]. *)
Definition readingsByLocation (weatherReadings : list Row)
  : option (Obj (list Row)) :=
  reduce reducer (Some []) weatherReadings.

(** The rows of a station, in the order fetched; [None] when there is none. *)
Definition rowsOf (name : string) (rows : list Row) : option (list Row) :=
  match filter (fun r => locationName r =? name) rows with
  | [] => None
  | group => Some group
  end.

(** [(readingsByLocation[name] || [])[0]], the [lastReading] of a station
    card; [None] is [undefined]. *)
Definition lastReading (byLocation : Obj (list Row)) (name : string)
  : option Row :=
  match get byLocation name with
  | Own group => nth_error group 0
  | Proto => None
  | Undefined => nth_error [] 0
  end.

End View.
Arguments Row T : clear implicits.
Arguments Metrics T : clear implicits.
Arguments Statistics T : clear implicits.
End DashboardView.

(** ** What the picker renders, and the other date ranges of the pages *)

Module DatePickerView.
Import JsDate DateRangePicker.
Local Open Scope Z_scope.

Definition HourFromTime (t : Z) : Z := (t / msPerHour) mod 24.
Definition MinFromTime (t : Z) : Z := (t / msPerMinute) mod 60.
Definition SecFromTime (t : Z) : Z := (t / msPerSecond) mod 60.
Definition msFromTime (t : Z) : Z := t mod msPerSecond.

(** The decimal digit [k] as a character. *)
Definition digitChar (k : Z) : ascii := ascii_of_nat (Z.to_nat (48 + k)).

(** [n] in [width] decimal digits, zero padded. *)
Fixpoint pad (width : nat) (n : Z) : list ascii :=
  match width with
  | O => []
  | S w => pad w (n / 10) ++ [digitChar (n mod 10)]
  end.

(** The year of the Date Time String Format: four digits from 0 to 9999,
    otherwise a sign and six digits. *)
Definition yearDigits (y : Z) : list ascii :=
  if (0 <=? y) && (y <=? 9999) then pad 4 y
  else (if y <? 0 then "-"%char else "+"%char) :: pad 6 (Z.abs y).

(** [d.toISOString()]; [None] is the RangeError thrown on an Invalid Date. *)
Definition toISOString (d : Date) : option string :=
  match d with
  | Some t =>
      Some (string_of_list_ascii
              (yearDigits (YearFromTime t) ++ ["-"%char]
               ++ pad 2 (MonthFromTime t + 1) ++ ["-"%char]
               ++ pad 2 (DateFromTime t) ++ ["T"%char]
               ++ pad 2 (HourFromTime t) ++ [":"%char]
               ++ pad 2 (MinFromTime t) ++ [":"%char]
               ++ pad 2 (SecFromTime t) ++ ["."%char]
               ++ pad 3 (msFromTime t) ++ ["Z"%char]))
  | None => None
  end.

(** The date part of the ISO string. *)
Definition datePart (t : Z) : list ascii :=
  yearDigits (YearFromTime t) ++ ["-"%char]
  ++ pad 2 (MonthFromTime t + 1) ++ ["-"%char] ++ pad 2 (DateFromTime t).

(** [s.split('T')[0]] *)
Fixpoint beforeT (s : string) : string :=
  match s with
  | EmptyString => EmptyString
  | String c rest =>
      if Ascii.eqb c "T" then EmptyString else String c (beforeT rest)
  end.

Definition formatDateForInput (date : Date) : option string :=
  match toISOString date with
  | Some iso => Some (beforeT iso)
  | None => None
  end.

(** The attributes of the two date inputs and whether the "Custom range
    selected" note is shown. *)
Record Rendered : Type := {
  startValue : string;
  startMax   : string;
  endValue   : string;
  endMin     : string;
  endMax     : string;
  customNote : bool
}.

(** One render of the component, the clock reading [now]; [None] when it
    throws. *)
Definition render (now : Z) (s : State) : option Rendered :=
  match formatDateForInput (startDate s),
        formatDateForInput (endDate s),
        formatDateForInput (Date_now now) with
  | Some start, Some end_, Some today =>
      Some {| startValue := start; startMax := end_;
              endValue := end_; endMin := start; endMax := today;
              customNote := String.eqb (rangePreset s) "custom" |}
  | _, _, _ => None
  end.

End DatePickerView.

(** ** Date ranges the pages build themselves *)

Module PageRanges.
Import JsDate.
Local Open Scope Z_scope.

Record DateRange : Type := { start : Date; end_ : Date }.

Section Ranges.
Variable LocalTZA : Z.


(** [parseInt] on a string of decimal digits, as the option values are. *)
Definition parseInt (value : string) : Num :=
  match list_ascii_of_string value with
  | [] => None
  | ds => number ds
  end.

(** The [onChange] of the "Data Range" select of WeatherData; the clock is
    read for [end] and again for [start]. *)
Definition selectDataRange (nowEnd nowStart : Z) (value : string)
  : DateRange :=
  let days := parseInt value in
  let end_ := Date_now nowEnd in
  let start := Date_now nowStart in
  let start :=
    setDate LocalTZA
      (match getDate LocalTZA start, days with
       | Some d, Some n => Some (d - n)
       | _, _ => None
       end) start in
  {| start := start; end_ := end_ |}.

(** The [timeRange] of the Analytics page. *)
Inductive TimeRange : Type := week | month | year.

Definition isWeek (r : TimeRange) : bool :=
  match r with week => true | _ => false end.
Definition isMonth (r : TimeRange) : bool :=
  match r with month => true | _ => false end.
Definition isYear (r : TimeRange) : bool :=
  match r with year => true | _ => false end.

(** The bounds [fetchAnalyticsData] queries between; the clock is read for
    [startDate] and again for the upper bound. *)
Definition fetchAnalyticsData (nowStart nowEnd : Z) (timeRange : TimeRange)
  : DateRange :=
  let startDate := Date_now nowStart in
  let startDate :=
    if isWeek timeRange
    then setDate LocalTZA (minus (getDate LocalTZA startDate) 7) startDate
    else startDate in
  let startDate :=
    if isMonth timeRange
    then setDate LocalTZA (minus (getDate LocalTZA startDate) 30) startDate
    else startDate in
  let startDate :=
    if isYear timeRange
    then setDate LocalTZA (minus (getDate LocalTZA startDate) 365) startDate
    else startDate in
  {| start := startDate; end_ := Date_now nowEnd |}.

End Ranges.
End PageRanges.

(** ** The Tooltip component and the timers it sets *)

Module Tooltip.
Section Component.
Context {T : Type} `{JsNumber T}.

(** A [DOMRect], as [getBoundingClientRect] returns it. *)
Record Rect : Type := {
  left   : T;
  top    : T;
  width  : T;
  height : T
}.

(** The two [useState] cells and [timeoutRef.current]. *)
Record State : Type := {
  isVisible  : bool;
  coords     : T * T;
  timeoutRef : option nat
}.

(** The timers of the page: the handles still to fire, and the next handle
    [setTimeout] will return (handles are greater than zero). *)
Record Timers : Type := {
  pending : list nat;
  next    : nat
}.

Record World : Type := {
  state  : State;
  timers : Timers
}.

Definition initial : World :=
  {| state := {| isVisible := false; coords := (ofZ 0, ofZ 0);
                 timeoutRef := None |};
     timers := {| pending := []; next := 1 |} |}.

Definition clearTimeout (id : nat) (tm : Timers) : Timers :=
  {| pending := List.remove Nat.eq_dec id (pending tm); next := next tm |}.

Definition setTimeout (tm : Timers) : nat * Timers :=
  (next tm, {| pending := pending tm ++ [next tm]; next := S (next tm) |}).

(** [if (timeoutRef.current) clearTimeout(timeoutRef.current)] *)
Definition clearRef (ref : option nat) (tm : Timers) : Timers :=
  match ref with
  | Some id => if (id =? 0)%nat then tm else clearTimeout id tm
  | None => tm
  end.

Definition showTooltip (w : World) : World :=
  let tm := clearRef (timeoutRef (state w)) (timers w) in
  let '(id, tm) := setTimeout tm in
  {| state := {| isVisible := isVisible (state w);
                 coords := coords (state w);
                 timeoutRef := Some id |};
     timers := tm |}.

Definition hideTooltip (w : World) : World :=
  let tm := clearRef (timeoutRef (state w)) (timers w) in
  let ref :=
    match timeoutRef (state w) with
    | Some id => if (id =? 0)%nat then Some id else None
    | None => None
    end in
  {| state := {| isVisible := false;
                 coords := coords (state w);
                 timeoutRef := ref |};
     timers := tm |}.

(** The callback handed to [setTimeout] runs: the timer [id] was pending.
    [rect] is what [e.currentTarget.getBoundingClientRect()] returns then;
    [None] when that expression throws, which ends the callback. *)
Definition fire (id : nat) (rect : option Rect) (w : World) : option World :=
  if existsb (Nat.eqb id) (pending (timers w)) then
    let tm := {| pending := List.remove Nat.eq_dec id (pending (timers w));
                 next := next (timers w) |} in
    match rect with
    | Some rect =>
        Some {| state :=
                  {| isVisible := true;
                     coords := (add (left rect) (div (width rect) (ofZ 2)),
                                add (top rect) (div (height rect) (ofZ 2)));
                     timeoutRef := timeoutRef (state w) |};
                timers := tm |}
    | None => Some {| state := state w; timers := tm |}
    end
  else None.

(** The cleanup of the effect, at unmount. *)
Definition unmount (w : World) : World :=
  {| state := state w;
     timers := clearRef (timeoutRef (state w)) (timers w) |}.

Inductive Event : Type :=
  | Show                                   (* mouse enter, focus *)
  | Hide                                   (* mouse leave, blur, click outside *)
  | Fire (id : nat) (rect : option Rect)   (* a timer comes due *)
  | Unmount.

Definition step (w : World) (e : Event) : option World :=
  match e with
  | Show => Some (showTooltip w)
  | Hide => Some (hideTooltip w)
  | Fire id rect => fire id rect w
  | Unmount => Some (unmount w)
  end.

Fixpoint run (w : World) (es : list Event) : option World :=
  match es with
  | [] => Some w
  | e :: es =>
      match step w e with
      | Some w' => run w' es
      | None => None
      end
  end.

(** No timer is pending, or only the one whose handle the ref holds. *)
Definition tidy (w : World) : Prop :=
  (0 < next (timers w))%nat /\
  (pending (timers w) = [] \/
   exists id, pending (timers w) = [id] /\
              timeoutRef (state w) = Some id /\
              (0 < id < next (timers w))%nat).

(** No timer pending and the tooltip hidden. *)
Definition quiet (w : World) : Prop :=
  pending (timers w) = [] /\ isVisible (state w) = false.

Definition isShow (e : Event) : bool :=
  match e with Show => true | _ => false end.

End Component.
Arguments Rect T : clear implicits.
Arguments State T : clear implicits.
Arguments World T : clear implicits.
Arguments Event T : clear implicits.
End Tooltip.

(** ** The theme of the application (src/main.tsx, [App]) *)

Module App.
Local Open Scope string_scope.

(** What the page keeps outside React: the class list of the document
    element, the [theme] entry of [localStorage], and the answer of
    [matchMedia('(prefers-color-scheme: dark)')]. *)
Record Env : Type := {
  classDark   : bool;
  theme       : option string;
  prefersDark : bool
}.

Record World : Type := {
  isDarkMode : bool;
  env        : Env
}.

(** A page load: the state is initial, the document has no [dark] class. *)
Definition load (saved : option string) (prefers : bool) : World :=
  {| isDarkMode := false;
     env := {| classDark := false; theme := saved; prefersDark := prefers |} |}.

(** [!savedTheme] *)
Definition falsy (s : option string) : bool :=
  match s with
  | Some v => v =? ""
  | None => true
  end.

(** The theme part of the mount effect. *)
Definition mountEffect (w : World) : World :=
  let savedTheme := theme (env w) in
  let prefersDark := prefersDark (env w) in
  if (match savedTheme with Some v => v =? "dark" | None => false end)
     || (falsy savedTheme && prefersDark)
  then {| isDarkMode := true;
          env := {| classDark := true; theme := theme (env w);
                    prefersDark := prefersDark |} |}
  else w.

Definition toggleDarkMode (w : World) : World :=
  let newDarkMode := negb (isDarkMode w) in
  if newDarkMode
  then {| isDarkMode := newDarkMode;
          env := {| classDark := true; theme := Some "dark";
                    prefersDark := prefersDark (env w) |} |}
  else {| isDarkMode := newDarkMode;
          env := {| classDark := false; theme := Some "light";
                    prefersDark := prefersDark (env w) |} |}.

(** [n] presses of the toggle. *)
Fixpoint toggles (n : nat) (w : World) : World :=
  match n with
  | O => w
  | S n => toggles n (toggleDarkMode w)
  end.

(** The class of the document follows the state, and the stored theme names
    it. *)
Definition settled (w : World) : Prop :=
  classDark (env w) = isDarkMode w /\
  theme (env w) = Some (if isDarkMode w then "dark" else "light").

End App.

(** ** The breadcrumb trail (src/components/Header_Nav/Breadcrumbs.tsx) *)

Module Breadcrumbs.
Local Open Scope string_scope.

Record BreadcrumbItem : Type := {
  label     : string;
  href      : string;
  isCurrent : bool
}.

(** [s.split('/')] *)
Fixpoint split (s : string) : list string :=
  match s with
  | EmptyString => [EmptyString]
  | String c rest =>
      if Ascii.eqb c "/" then EmptyString :: split rest
      else match split rest with
           | piece :: pieces => String c piece :: pieces
           | [] => [String c EmptyString]
           end
  end.

(** [Boolean(s)] on a string *)
Definition nonEmpty (s : string) : bool :=
  match s with EmptyString => false | _ => true end.

(** [s.charAt(0)] and [s.slice(1)] *)
Definition charAt0 (s : string) : string :=
  match s with EmptyString => EmptyString | String c _ => String c EmptyString end.
Definition slice1 (s : string) : string :=
  match s with EmptyString => EmptyString | String _ rest => rest end.

(** [s.replace(/-/g, ' ')] *)
Fixpoint replaceDashes (s : string) : string :=
  match s with
  | EmptyString => EmptyString
  | String c rest =>
      String (if Ascii.eqb c "-" then " "%char else c) (replaceDashes rest)
  end.

Section Trail.
(** [String.prototype.toUpperCase], which the engine supplies. *)
Variable toUpperCase : string -> string.

(** The body of the [forEach]: the state is [accumulatedPath] and the array
    [breadcrumbs]. *)
Definition pushSegment (count : nat)
           (acc : string * list BreadcrumbItem) (entry : string * nat)
  : string * list BreadcrumbItem :=
  let '(accumulatedPath, breadcrumbs) := acc in
  let '(segment, index) := entry in
  let accumulatedPath := accumulatedPath ++ "/" ++ segment in
  let isLast := (index =? count - 1)%nat in
  let label := toUpperCase (charAt0 segment) ++ replaceDashes (slice1 segment) in
  (accumulatedPath,
   (breadcrumbs ++ [{| label := label; href := accumulatedPath;
                       isCurrent := isLast |}])%list).

Definition generateBreadcrumbs (pathname : string) : list BreadcrumbItem :=
  let pathSegments := filter nonEmpty (split pathname) in
  let breadcrumbs :=
    [{| label := "Home"; href := "/"; isCurrent := pathname =? "/" |}] in
  snd (fold_left (pushSegment (length pathSegments))
                 (combine pathSegments (seq 0 (length pathSegments)))
                 ("", breadcrumbs)).

(** What the component returns: [None] is [null], otherwise the crumbs of
    the list it renders. *)
Definition render (pathname : string) : option (list BreadcrumbItem) :=
  let breadcrumbs := generateBreadcrumbs pathname in
  if (length breadcrumbs <=? 1)%nat then None else Some breadcrumbs.

End Trail.

(** The pathname with its empty segments dropped: ["/" ++ segment] for each
    segment in turn. *)
Fixpoint normalized (segments : list string) : string :=
  match segments with
  | [] => ""
  | segment :: rest => "/" ++ segment ++ normalized rest
  end.

End Breadcrumbs.

(** ** The Settings page *)

Module Settings.
Local Open Scope string_scope.

Inductive Key : Type :=
  | emailNotifications | volatilityAlerts | dailyReports | darkMode
  | temperatureUnit | language.

Definition Key_eqb (a b : Key) : bool :=
  match a, b with
  | emailNotifications, emailNotifications
  | volatilityAlerts, volatilityAlerts
  | dailyReports, dailyReports
  | darkMode, darkMode
  | temperatureUnit, temperatureUnit
  | language, language => true
  | _, _ => false
  end.

(** The values the object holds: booleans and strings. *)
Inductive Value : Type :=
  | Bool (b : bool)
  | Str (s : string).

(** [!v] *)
Definition not (v : Value) : bool :=
  match v with
  | Bool b => negb b
  | Str s => s =? ""
  end.

(** The [settings] object: a value under each of its six keys. *)
Definition SettingsObject : Type := Key -> Value.

Definition initial : SettingsObject :=
  fun key =>
    match key with
    | emailNotifications => Bool true
    | volatilityAlerts => Bool true
    | dailyReports => Bool false
    | darkMode => Bool false
    | temperatureUnit => Str "celsius"
    | language => Str "english"
    end.

(** [{ ...prev, [key]: v }] *)
Definition spread (prev : SettingsObject) (key : Key) (v : Value)
  : SettingsObject :=
  fun k => if Key_eqb k key then v else prev k.

Definition handleToggle (key : Key) (prev : SettingsObject) : SettingsObject :=
  spread prev key (Bool (not (prev key))).

Definition handleSelectChange (key : Key) (value : string)
           (prev : SettingsObject) : SettingsObject :=
  spread prev key (Str value).

(** What the page lets the user do: three switches and two selects. *)
Inductive Event : Type :=
  | SwitchEmail | SwitchAlerts | SwitchReports
  | SelectUnit (value : string)
  | SelectLanguage (value : string).

Definition step (s : SettingsObject) (e : Event) : SettingsObject :=
  match e with
  | SwitchEmail => handleToggle emailNotifications s
  | SwitchAlerts => handleToggle volatilityAlerts s
  | SwitchReports => handleToggle dailyReports s
  | SelectUnit value => handleSelectChange temperatureUnit value s
  | SelectLanguage value => handleSelectChange language value s
  end.

Definition run (es : list Event) : SettingsObject := fold_left step es initial.

(** The switches hold booleans, the dark mode is off. *)
Definition wellFormed (s : SettingsObject) : Prop :=
  (exists b, s emailNotifications = Bool b) /\
  (exists b, s volatilityAlerts = Bool b) /\
  (exists b, s dailyReports = Bool b) /\
  s darkMode = Bool false /\
  (exists v, s temperatureUnit = Str v) /\
  (exists v, s language = Str v).

End Settings.

(** * Properties *)

(** ** The scorer in exact arithmetic *)

Module VolatilityFacts.
Import Volatility Spec.
Local Open Scope R_scope.

Lemma reduce_add_total (f : R -> R) (xs : list R) (a : R) :
  reduce (fun sum val => add sum (f val)) a xs = a + total (map f xs).
Proof.
  unfold reduce. revert a.
  induction xs as [| x xs IH]; intro a; simpl.
  - lra.
  - rewrite IH. lra.
Qed.

Lemma len_INR {A} (xs : list A) : len (T := R) xs = INR (length xs).
Proof. unfold len. simpl. symmetry. apply INR_IZR_INZ. Qed.

Lemma calculateVolatility_real (xs : list R) :
  calculateVolatility xs =
  if (length xs <? 2)%nat then 0 else populationStdDev xs.
Proof.
  unfold calculateVolatility.
  destruct (length xs <? 2)%nat; [reflexivity |].
  cbv zeta. unfold populationStdDev, populationVariance, arithmeticMean.
  rewrite !len_INR.
  change (fun sum val : R => add sum val)
    with (fun sum val : R => add sum ((fun v => v) val)).
  rewrite (reduce_add_total (fun v => v)), map_id.
  rewrite (reduce_add_total
             (fun val => pow2 (sub val (div (ofZ 0 + total xs) (INR (length xs)))))).
  simpl. rewrite !Rplus_0_l. reflexivity.
Qed.

(** The guard [volatilities.length > 0] changes nothing: reducing the empty
    array answers the initial value.  Holds for every number type. *)
Lemma total_guard {T} `{JsNumber T} (vols : list T) :
  (if (0 <? length vols)%nat
   then reduce (fun sum vol => add sum vol) (ofZ 0) vols
   else ofZ 0)
  = reduce (fun sum vol => add sum vol) (ofZ 0) vols.
Proof. destruct vols; reflexivity. Qed.

Lemma reduce_pushMetric (m : option (list R)) (w : R) (vols : list R) :
  reduce (fun sum vol => add sum vol) 0 (pushMetric m w vols)
  = reduce (fun sum vol => add sum vol) 0 vols + contribution w m.
Proof.
  unfold pushMetric, contribution.
  destruct m as [xs |]; [| lra].
  rewrite calculateVolatility_real.
  destruct xs as [| x [| y xs]]; simpl; try lra.
  unfold reduce. rewrite fold_left_app. simpl. lra.
Qed.

Lemma weights_real :
  w_temperature (T := R) weights = 0.4 /\ w_humidity (T := R) weights = 0.2 /\
  w_pressure (T := R) weights = 0.2 /\ w_windSpeed (T := R) weights = 0.2.
Proof. unfold weights, decimal; simpl. repeat split; lra. Qed.

(** The score is the sum of the four contributions. *)
Lemma score_decomposition (m : Metrics R) :
  calculateWeatherVolatility m
  = contribution 0.4 (temperature m) + contribution 0.2 (humidity m)
    + contribution 0.2 (pressure m) + contribution 0.2 (windSpeed m).
Proof.
  unfold calculateWeatherVolatility. cbv zeta.
  rewrite total_guard. simpl (ofZ 0).
  rewrite !reduce_pushMetric.
  destruct weights_real as (-> & -> & -> & ->).
  unfold reduce; simpl. lra.
Qed.

Lemma populationStdDev_nonneg (xs : list R) : 0 <= populationStdDev xs.
Proof. apply sqrt_pos. Qed.

Lemma contribution_nonneg (w : R) (m : option (list R)) :
  0 <= w -> 0 <= contribution w m.
Proof.
  intro Hw. unfold contribution.
  destruct m as [xs |]; [| lra].
  destruct (2 <=? length xs)%nat; [| lra].
  apply Rmult_le_pos; [assumption | apply populationStdDev_nonneg].
Qed.

Lemma total_Permutation (xs ys : list R) :
  Permutation xs ys -> total xs = total ys.
Proof.
  induction 1; simpl; try lra.
Qed.

Lemma populationStdDev_Permutation (xs ys : list R) :
  Permutation xs ys -> populationStdDev xs = populationStdDev ys.
Proof.
  intro P.
  unfold populationStdDev, populationVariance, arithmeticMean.
  rewrite <- (Permutation_length P), <- (total_Permutation _ _ P).
  f_equal. f_equal.
  apply total_Permutation, Permutation_map, P.
Qed.

Lemma contribution_reordered (w : R) (a b : option (list R)) :
  reordered a b -> contribution w a = contribution w b.
Proof.
  destruct a as [xs |], b as [ys |]; simpl; try tauto.
  intro P. rewrite (Permutation_length P), (populationStdDev_Permutation _ _ P).
  reflexivity.
Qed.


Lemma pushMetric_sparse {T} `{JsNumber T} (m : option (list T)) (w : T)
      (vols : list T) :
  sparse m = true -> pushMetric m w vols = vols.
Proof.
  unfold pushMetric, sparse.
  destruct m as [xs |]; [| reflexivity].
  destruct xs as [| x [| y xs]]; simpl; intro E;
    [reflexivity | reflexivity | discriminate E].
Qed.

(** C1, as amended.  In exact arithmetic, a call with a single metric populated by at
    least two samples [s] answers that metric's weight (0.4 for temperature,
    0.2 for humidity, pressure and wind speed) times the population standard
    deviation of [s]. *)
Theorem single_metric_score (s : list R) :
  (2 <= length s)%nat ->
  calculateWeatherVolatility (Only.temperature s) = 0.4 * populationStdDev s /\
  calculateWeatherVolatility (Only.humidity s) = 0.2 * populationStdDev s /\
  calculateWeatherVolatility (Only.pressure s) = 0.2 * populationStdDev s /\
  calculateWeatherVolatility (Only.windSpeed s) = 0.2 * populationStdDev s.
Proof.
  intro Hlen. apply Nat.leb_le in Hlen.
  unfold Only.temperature, Only.humidity, Only.pressure, Only.windSpeed.
  repeat split; rewrite score_decomposition;
    cbn [contribution temperature humidity pressure windSpeed];
    rewrite Hlen; lra.
Qed.

Lemma single_metric_score_witness :
  calculateWeatherVolatility (Only.temperature [10; 20]) =
  0.4 * populationStdDev [10; 20].
Proof.
  apply (single_metric_score [10; 20]). simpl. lia.
Defined.

(** C3.  The scorer is a total function.  In exact arithmetic its answer is
    the sum of four contributions, and the contribution of a metric that is
    absent or has fewer than two samples is exactly 0; for every number type,
    when all four metrics are absent or that short the answer is the literal
    0, in particular on the object without any metric and on the one with
    four empty arrays. *)
Theorem sparse_metrics_contribute_zero :
  (forall m : Metrics R,
      calculateWeatherVolatility m
      = contribution 0.4 (temperature m) + contribution 0.2 (humidity m)
        + contribution 0.2 (pressure m) + contribution 0.2 (windSpeed m)) /\
  (forall w : R, contribution w None = 0) /\
  (forall (w : R) (xs : list R),
      (length xs < 2)%nat -> contribution w (Some xs) = 0) /\
  (forall (T : Type) (N : JsNumber T) (m : Metrics T),
      sparse (temperature m) = true -> sparse (humidity m) = true ->
      sparse (pressure m) = true -> sparse (windSpeed m) = true ->
      calculateWeatherVolatility m = ofZ 0).
Proof.
  split; [exact score_decomposition |].
  split; [reflexivity |].
  split.
  - intros w xs Hlen. unfold contribution.
    destruct (Nat.leb_spec 2 (length xs)); [lia | reflexivity].
  - intros T N m Ht Hh Hp Hw.
    unfold calculateWeatherVolatility. cbv zeta.
    rewrite (pushMetric_sparse _ _ _ Ht), (pushMetric_sparse _ _ _ Hh),
      (pushMetric_sparse _ _ _ Hp), (pushMetric_sparse _ _ _ Hw).
    reflexivity.
Qed.

Lemma sparse_metrics_contribute_zero_witness :
  contribution 0.4 (Some [21]) = 0 /\
  calculateWeatherVolatility
    {| temperature := Some [21]; humidity := None;
       pressure := Some []; windSpeed := None |} = 0 /\
  calculateWeatherVolatility (T := float)
    {| temperature := None; humidity := None;
       pressure := None; windSpeed := None |} = ofZ 0 /\
  calculateWeatherVolatility (T := float)
    {| temperature := Some []; humidity := Some [];
       pressure := Some []; windSpeed := Some [] |} = ofZ 0.
Proof.
  destruct sparse_metrics_contribute_zero as (_ & _ & Hshort & Hall).
  split; [apply Hshort; simpl; lia |].
  split; [apply (Hall R RealNumber); reflexivity |].
  split; apply (Hall float Binary64); reflexivity.
Defined.

Lemma populationStdDev_0_100 : populationStdDev [0; 100] = 50.
Proof.
  unfold populationStdDev, populationVariance, arithmeticMean. simpl.
  replace ((Rsqr (0 - (0 + (100 + 0)) / (1 + 1))
            + (Rsqr (100 - (0 + (100 + 0)) / (1 + 1)) + 0)) / (1 + 1))
    with (50 * 50) by (unfold Rsqr; field).
  apply sqrt_square. lra.
Qed.

(** In exact arithmetic the score is never negative, and it is not
    confined to a 0-10 scale: temperatures [0, 100] alone score 20. *)
Theorem score_nonneg_unbounded :
  (forall m : Metrics R, 0 <= calculateWeatherVolatility m) /\
  (exists m : Metrics R, 10 < calculateWeatherVolatility m).
Proof.
  split.
  - intro m. rewrite score_decomposition.
    assert (0 <= contribution 0.4 (temperature m))
      by (apply contribution_nonneg; lra).
    assert (0 <= contribution 0.2 (humidity m))
      by (apply contribution_nonneg; lra).
    assert (0 <= contribution 0.2 (pressure m))
      by (apply contribution_nonneg; lra).
    assert (0 <= contribution 0.2 (windSpeed m))
      by (apply contribution_nonneg; lra).
    lra.
  - exists (Only.temperature [0; 100]).
    rewrite score_decomposition. simpl.
    rewrite populationStdDev_0_100. lra.
Qed.

(** C8, as amended.  In exact arithmetic the score does not depend on the
    order of the samples inside any metric's array. *)
Theorem score_reorder_exact (m m' : Metrics R) :
  reordered (temperature m) (temperature m') ->
  reordered (humidity m) (humidity m') ->
  reordered (pressure m) (pressure m') ->
  reordered (windSpeed m) (windSpeed m') ->
  calculateWeatherVolatility m = calculateWeatherVolatility m'.
Proof.
  intros Ht Hh Hp Hw. rewrite !score_decomposition.
  rewrite (contribution_reordered _ _ _ Ht), (contribution_reordered _ _ _ Hh),
    (contribution_reordered _ _ _ Hp), (contribution_reordered _ _ _ Hw).
  reflexivity.
Qed.

Lemma score_reorder_exact_witness :
  calculateWeatherVolatility (Only.temperature [4; 2.8; 2.5]) =
  calculateWeatherVolatility (Only.temperature [4; 2.5; 2.8]).
Proof.
  apply score_reorder_exact; simpl; try exact I.
  apply perm_skip, perm_swap.
Defined.

End VolatilityFacts.

(** ** The two pages *)

Module PagesFacts.
Import Volatility Database Spec Samples VolatilityFacts.
Local Open Scope R_scope.

Lemma filterNumbers_length {T} `{JsNumber T} (col : list (option T)) :
  (length (Dashboard.filterNumbers col) <= length col)%nat.
Proof.
  induction col as [| [x |] col IH]; simpl; [lia | | lia].
  destruct (isNaN x); simpl; lia.
Qed.

(** What the Dashboard keeps of a column are its non-null entries. *)
Lemma filterNumbers_In {T} `{JsNumber T} (col : list (option T)) (x : T) :
  In x (Dashboard.filterNumbers col) -> In (Some x) col /\ isNaN x = false.
Proof.
  induction col as [| [y |] col IH]; simpl; [tauto | | tauto].
  destruct (isNaN y) eqn:E; simpl.
  - intro Hin. destruct (IH Hin). tauto.
  - intros [-> | Hin]; [tauto |]. destruct (IH Hin). tauto.
Qed.

Lemma orZero_real (x : option R) :
  Analytics.orZero x = match x with Some v => v | None => 0 end.
Proof.
  destruct x as [v |]; simpl; [| reflexivity].
  destruct (Req_dec_T v 0); [symmetry; assumption | reflexivity].
Qed.

Lemma populationStdDev_constant3 (c : R) : populationStdDev [c; c; c] = 0.
Proof.
  unfold populationStdDev, populationVariance, arithmeticMean. simpl.
  replace ((Rsqr (c - (c + (c + (c + 0))) / (1 + 1 + 1))
            + (Rsqr (c - (c + (c + (c + 0))) / (1 + 1 + 1))
               + (Rsqr (c - (c + (c + (c + 0))) / (1 + 1 + 1)) + 0)))
           / (1 + 1 + 1))
    with 0 by (unfold Rsqr; field).
  apply sqrt_0.
Qed.

Lemma populationStdDev_constant2 (c : R) : populationStdDev [c; c] = 0.
Proof.
  unfold populationStdDev, populationVariance, arithmeticMean. simpl.
  replace ((Rsqr (c - (c + (c + 0)) / (1 + 1))
            + (Rsqr (c - (c + (c + 0)) / (1 + 1)) + 0)) / (1 + 1))
    with 0 by (unfold Rsqr; field).
  apply sqrt_0.
Qed.

Lemma populationStdDev_10_0_10 : 0 < populationStdDev [10; 0; 10].
Proof.
  unfold populationStdDev, populationVariance, arithmeticMean. simpl.
  apply sqrt_lt_R0.
  replace ((Rsqr (10 - (10 + (0 + (10 + 0))) / (1 + 1 + 1))
            + (Rsqr (0 - (10 + (0 + (10 + 0))) / (1 + 1 + 1))
               + (Rsqr (10 - (10 + (0 + (10 + 0))) / (1 + 1 + 1)) + 0)))
           / (1 + 1 + 1))
    with (200 / 9) by (unfold Rsqr; field).
  lra.
Qed.

Lemma populationStdDev_40_60 : populationStdDev [40; 60] = 10.
Proof.
  unfold populationStdDev, populationVariance, arithmeticMean. simpl.
  replace ((Rsqr (40 - (40 + (60 + 0)) / (1 + 1))
            + (Rsqr (60 - (40 + (60 + 0)) / (1 + 1)) + 0)) / (1 + 1))
    with (10 * 10) by (unfold Rsqr; field).
  apply sqrt_square. lra.
Qed.

(** C6.  The Analytics page does not drop missing samples: on three readings
    whose middle temperature is null it scores the temperatures [10, 0, 10],
    a positive volatility, where the Dashboard, which filters nulls out,
    scores the same readings 0. *)
Theorem analytics_scores_null_as_zero :
  Analytics.volatility (T := R) gappy = 0.4 * populationStdDev [10; 0; 10] /\
  0 < Analytics.volatility (T := R) gappy /\
  Dashboard.fetchWeatherData (T := R) (Some gappy) = 0.
Proof.
  assert (E : Analytics.volatility (T := R) gappy
              = 0.4 * populationStdDev [10; 0; 10]).
  { unfold Analytics.volatility, gappy. simpl length.
    change (0 <? 3)%nat with true. cbv iota.
    rewrite score_decomposition.
    cbn [temperature humidity pressure windSpeed map temperatureRow
         temperature_c humidity_percent pressure_hpa wind_speed_ms].
    rewrite !orZero_real. simpl (ofZ _).
    unfold contribution. simpl length. cbv iota beta.
    change (2 <=? 3)%nat with true. cbv iota.
    rewrite (populationStdDev_constant3 0). lra. }
  split; [exact E |].
  split.
  - rewrite E. generalize populationStdDev_10_0_10. lra.
  - unfold Dashboard.fetchWeatherData, gappy.
    cbn [length map temperatureRow Dashboard.filterNumbers
         temperature_c humidity_percent pressure_hpa wind_speed_ms isNaN
         RealNumber Nat.ltb Nat.leb Dashboard.orUndefined].
    rewrite score_decomposition.
    cbn [temperature humidity pressure windSpeed contribution length Nat.leb].
    simpl (ofZ _). rewrite (populationStdDev_constant2 10). lra.
Qed.

(** C10.  For every number type, the Dashboard sets the volatility to the
    literal 0 whenever fewer than two temperature samples survive the filter,
    and calls the scorer only otherwise; so two readings with humidity 40 and
    60 and no temperature are displayed as 0, although the scorer, given the
    same filtered columns, answers 2. *)
Theorem dashboard_needs_temperature :
  (forall (T : Type) (N : JsNumber T) (rows : list (WeatherReading T)),
      (length (Dashboard.filterNumbers (map temperature_c rows)) < 2)%nat ->
      Dashboard.fetchWeatherData (Some rows) = ofZ 0) /\
  (forall (T : Type) (N : JsNumber T) (rows : list (WeatherReading T)),
      (2 <= length (Dashboard.filterNumbers (map temperature_c rows)))%nat ->
      Dashboard.fetchWeatherData (Some rows) =
      calculateWeatherVolatility
        {| temperature :=
             Some (Dashboard.filterNumbers (map temperature_c rows));
           humidity :=
             Dashboard.orUndefined
               (Dashboard.filterNumbers (map humidity_percent rows));
           pressure :=
             Dashboard.orUndefined
               (Dashboard.filterNumbers (map pressure_hpa rows));
           windSpeed :=
             Dashboard.orUndefined
               (Dashboard.filterNumbers (map wind_speed_ms rows)) |}) /\
  (Dashboard.filterNumbers (map humidity_percent (humidOnly (T := R)))
   = [40; 60] /\
   Dashboard.filterNumbers (map temperature_c (humidOnly (T := R))) = [] /\
   Dashboard.fetchWeatherData (T := R) (Some humidOnly) = 0 /\
   calculateWeatherVolatility
     {| temperature :=
          Some (Dashboard.filterNumbers (map temperature_c (humidOnly (T := R))));
        humidity :=
          Some (Dashboard.filterNumbers (map humidity_percent (humidOnly (T := R))));
        pressure :=
          Some (Dashboard.filterNumbers (map pressure_hpa (humidOnly (T := R))));
        windSpeed :=
          Some (Dashboard.filterNumbers (map wind_speed_ms (humidOnly (T := R)))) |}
   = 2).
Proof.
  split; [| split].
  - intros T N rows Hlen. unfold Dashboard.fetchWeatherData.
    destruct (1 <? length rows)%nat; [| reflexivity].
    cbv zeta.
    destruct (Nat.ltb_spec 1
                (length (Dashboard.filterNumbers (map temperature_c rows))));
      [lia | reflexivity].
  - intros T N rows Hlen. unfold Dashboard.fetchWeatherData.
    assert (H1 : (1 < length rows)%nat).
    { generalize (filterNumbers_length (map temperature_c rows)).
      rewrite length_map. lia. }
    apply Nat.ltb_lt in H1. rewrite H1. cbv zeta.
    assert (H2 : (1 < length (Dashboard.filterNumbers (map temperature_c rows)))%nat)
      by lia.
    apply Nat.ltb_lt in H2. rewrite H2. reflexivity.
  - split; [reflexivity |]. split; [reflexivity |]. split; [reflexivity |].
    rewrite score_decomposition.
    cbn [temperature humidity pressure windSpeed humidOnly map humidityRow
         Dashboard.filterNumbers temperature_c humidity_percent pressure_hpa
         wind_speed_ms isNaN RealNumber contribution length Nat.leb].
    simpl (ofZ _). rewrite populationStdDev_40_60. lra.
Qed.

Lemma dashboard_needs_temperature_witness :
  Dashboard.fetchWeatherData (T := float)
    (Some [humidityRow (Some (ofZ 40)); temperatureRow (Some (ofZ 7));
           humidityRow (Some (ofZ 60))]) = ofZ 0.
Proof.
  apply (proj1 dashboard_needs_temperature float Binary64).
  vm_compute. lia.
Defined.

End PagesFacts.

(** ** The scorer in binary64 *)

Module Binary64Facts.
Import Volatility Database Samples.

(** The scenarios of the specification, run on doubles. *)
Example scenario_temperature_10_20 :
  calculateWeatherVolatility (Only.temperature [ofZ 10; ofZ 20]) = ofZ 2.
Proof. vm_compute. reflexivity. Qed.

Example scenario_flat_temperature_and_humidity :
  calculateWeatherVolatility
    {| temperature := Some [ofZ 20; ofZ 20; ofZ 20];
       humidity := Some [ofZ 40; ofZ 60];
       pressure := None; windSpeed := None |} = ofZ 2.
Proof. vm_compute. reflexivity. Qed.

Example scenario_no_metrics :
  calculateWeatherVolatility (T := float)
    {| temperature := None; humidity := None;
       pressure := None; windSpeed := None |} = ofZ 0.
Proof. vm_compute. reflexivity. Qed.

(** The readings with a missing temperature, on the two pages. *)
Example analytics_counts_null_binary64 :
  PrimFloat.ltb (decimal 18) (Analytics.volatility (T := float) gappy) = true /\
  Dashboard.fetchWeatherData (T := float) (Some gappy) = ofZ 0.
Proof. split; vm_compute; reflexivity. Qed.

(** C8 as stated fails on doubles: [ascending] and [descending] hold the
    same five samples, the first sums to a mean of 2^53 and the second to a
    mean of 2^53 + 2, and the two scores differ. *)
Lemma score_reorder_binary64 :
  Permutation ascending descending /\
  calculateWeatherVolatility (Only.temperature ascending) <>
  calculateWeatherVolatility (Only.temperature descending).
Proof.
  split.
  - apply (Permutation_cons_append
             [two53plus2; two53plus2; two53plus2; two53plus2] two53).
  - intro Heq.
    apply (f_equal
             (fun x => PrimFloat.ltb
                         (calculateWeatherVolatility (Only.temperature descending))
                         x)) in Heq.
    vm_compute in Heq. discriminate Heq.
Qed.

(** The two runs, step by step: the sums round differently, so do the means,
    and with them every deviation. *)
Example ascending_mean :
  div (reduce (fun sum val => add sum val) (ofZ 0) ascending) (len ascending)
  = two53.
Proof. vm_compute. reflexivity. Qed.

Example descending_mean :
  div (reduce (fun sum val => add sum val) (ofZ 0) descending) (len descending)
  = two53plus2.
Proof. vm_compute. reflexivity. Qed.

Example ascending_deviation :
  calculateVolatility ascending = sqrt (div (ofZ 16) (ofZ 5)).
Proof. vm_compute. reflexivity. Qed.

Example descending_deviation :
  calculateVolatility descending = sqrt (div (ofZ 4) (ofZ 5)).
Proof. vm_compute. reflexivity. Qed.

(** There the first order scores exactly twice the second. *)
Example binary64_orders_factor_two :
  calculateWeatherVolatility (Only.temperature ascending) =
  mul (ofZ 2) (calculateWeatherVolatility (Only.temperature descending)).
Proof. vm_compute. reflexivity. Qed.

(** Everyday values show it too, in the last digits. *)
Example binary64_orders_last_digits :
  Permutation mild mild' /\
  PrimFloat.ltb (calculateWeatherVolatility (Only.temperature mild'))
                (calculateWeatherVolatility (Only.temperature mild)) = true.
Proof.
  split.
  - apply perm_skip, perm_swap.
  - vm_compute. reflexivity.
Qed.

(** C1 as stated fails on doubles: three equal readings have the population
    standard deviation 0, whatever the value read three times, and 0.4 times
    it is 0; but the mean the code computes for [0.1, 0.1, 0.1] is above 0.1
    (0.1 + 0.1 + 0.1 rounds to 0.30000000000000004), every deviation is
    -1.39e-17, and the score is 5.55e-18, not 0. *)
Lemma single_metric_score_binary64 :
  (forall c : R, (0.4 * Spec.populationStdDev [c; c; c] = 0)%R) /\
  PrimFloat.ltb (decimal 1)
    (div (reduce (fun sum val => add sum val) (ofZ 0) tenths) (len tenths))
  = true /\
  PrimFloat.ltb (ofZ 0) (calculateWeatherVolatility (Only.temperature tenths))
  = true.
Proof.
  split; [| split].
  - intro c. rewrite PagesFacts.populationStdDev_constant3. lra.
  - vm_compute. reflexivity.
  - vm_compute. reflexivity.
Qed.

End Binary64Facts.

(** ** The sign of the score in binary64

    On doubles a sum can overflow to an infinity and an operation on
    infinities can answer NaN.  The lemmas below follow the IEEE-754
    operations ([SpecFloat], to which the primitive floats are tied by
    [FloatAxioms]) through the scorer: on finite samples no operation of
    [calculateWeatherVolatility] answers NaN, and the score is a zero, a
    positive number or +Infinity. *)

Module Binary64Sign.
Import Volatility Binary64Spec Samples.
Local Open Scope Z_scope.

Lemma shr_1_nonneg (mrs : shr_record) :
  0 <= shr_m mrs -> 0 <= shr_m (shr_1 mrs).
Proof.
  destruct mrs as [m r s]. cbn [shr_m]. intro Hm. unfold shr_1.
  destruct m as [| p | p]; [cbn; lia | | lia].
  destruct p; cbn; lia.
Qed.

Lemma iter_pos_invariant {A} (P : A -> Prop) (f : A -> A) :
  (forall x, P x -> P (f x)) -> forall p x, P x -> P (iter_pos f p x).
Proof.
  intros Hf p. induction p as [p IH | p IH |]; intros x Hx; cbn [iter_pos].
  - apply IH, IH, Hf, Hx.
  - apply IH, IH, Hx.
  - apply Hf, Hx.
Qed.

Lemma shr_nonneg (mrs : shr_record) (e n : Z) :
  0 <= shr_m mrs -> 0 <= shr_m (fst (shr mrs e n)).
Proof.
  intro Hm. unfold shr. destruct n as [| p | p]; cbn [fst]; try exact Hm.
  apply (iter_pos_invariant (fun r => 0 <= shr_m r)); [apply shr_1_nonneg | exact Hm].
Qed.

Lemma shr_record_of_loc_m (m : Z) (l : location) :
  shr_m (shr_record_of_loc m l) = m.
Proof. destruct l as [| []]; reflexivity. Qed.

Lemma shr_fexp_nonneg (m e : Z) (l : location) :
  0 <= m -> 0 <= shr_m (fst (shr_fexp prec emax m e l)).
Proof.
  intro Hm. unfold shr_fexp. apply shr_nonneg.
  rewrite shr_record_of_loc_m. exact Hm.
Qed.

Lemma round_nearest_even_nonneg (m : Z) (l : location) :
  0 <= m -> 0 <= round_nearest_even m l.
Proof.
  intro Hm. unfold round_nearest_even.
  destruct l as [| []]; try destruct (Z.even m); lia.
Qed.

(** Rounding a non-negative mantissa gives a zero, a finite number or an
    infinity of the sign asked for: never NaN. *)
Lemma binary_round_aux_signed (sx : bool) (mx ex : Z) (lx : location) :
  0 <= mx -> signed sx (binary_round_aux prec emax sx mx ex lx).
Proof.
  intro Hm. unfold binary_round_aux.
  generalize (shr_fexp_nonneg mx ex lx Hm).
  destruct (shr_fexp prec emax mx ex lx) as [mrs' e']. cbn [fst]. intro H1.
  generalize (shr_fexp_nonneg
                (round_nearest_even (shr_m mrs') (loc_of_shr_record mrs'))
                e' loc_Exact (round_nearest_even_nonneg _ _ H1)).
  destruct (shr_fexp prec emax
              (round_nearest_even (shr_m mrs') (loc_of_shr_record mrs'))
              e' loc_Exact) as [mrs'' e'']. cbn [fst]. intro H2.
  destruct (shr_m mrs'') as [| p | p]; [left; reflexivity | | lia].
  destruct (e'' <=? emax - prec);
    [right; left; eexists; eexists; reflexivity | right; right; reflexivity].
Qed.

Lemma signed_notNaN (s : bool) (x : spec_float) : signed s x -> notNaN x = true.
Proof. intros [-> | [(m & e & ->) | ->]]; reflexivity. Qed.

Lemma signed_zeroOrPositive (x : spec_float) :
  signed false x -> zeroOrPositive x = true.
Proof. intros [-> | [(m & e & ->) | ->]]; reflexivity. Qed.

Lemma binary_round_signed (sx : bool) (mx : positive) (ex : Z) :
  signed sx (binary_round prec emax sx mx ex).
Proof.
  unfold binary_round.
  destruct (shl_align mx ex (fexp prec emax (Z.pos (digits2_pos mx) + ex)))
    as [mz ez].
  apply binary_round_aux_signed. lia.
Qed.

Lemma binary_normalize_notNaN (m e : Z) (s : bool) :
  notNaN (binary_normalize prec emax m e s) = true.
Proof.
  destruct m as [| p | p]; cbn [binary_normalize]; [reflexivity | |];
    apply (signed_notNaN _ _ (binary_round_signed _ _ _)).
Qed.

Lemma binary_normalize_zeroOrPositive (m e : Z) (s : bool) :
  0 <= m -> zeroOrPositive (binary_normalize prec emax m e s) = true.
Proof.
  intro Hm. destruct m as [| p | p]; cbn [binary_normalize];
    [reflexivity | | lia].
  apply signed_zeroOrPositive, binary_round_signed.
Qed.

(** *** The five operations of the scorer *)

Lemma SFadd_notNaN (x y : spec_float) :
  notNaN x = true -> zeroOrFinite y = true -> notNaN (SF64add x y) = true.
Proof.
  destruct x as [sx | sx | | sx mx ex], y as [sy | sy | | sy my ey];
    try discriminate; intros _ _; unfold SF64add, SFadd;
    try reflexivity.
  - destruct sx, sy; reflexivity.
  - apply binary_normalize_notNaN.
Qed.

Lemma SFadd_zeroOrPositive (x y : spec_float) :
  zeroOrPositive x = true -> zeroOrPositive y = true ->
  zeroOrPositive (SF64add x y) = true.
Proof.
  destruct x as [sx | [] | | [] mx ex], y as [sy | [] | | [] my ey];
    try discriminate; intros _ _; unfold SF64add, SFadd;
    try reflexivity.
  - destruct sx, sy; reflexivity.
  - apply binary_normalize_zeroOrPositive. cbn [cond_Zopp]. lia.
Qed.

Lemma SFsub_notNaN (x y : spec_float) :
  zeroOrFinite x = true -> notNaN y = true -> notNaN (SF64sub x y) = true.
Proof.
  destruct x as [sx | sx | | sx mx ex], y as [sy | sy | | sy my ey];
    try discriminate; intros _ _; unfold SF64sub, SFsub;
    try reflexivity.
  - destruct sx, sy; reflexivity.
  - apply binary_normalize_notNaN.
Qed.

Lemma SFmul_square (x : spec_float) :
  notNaN x = true -> zeroOrPositive (SF64mul x x) = true.
Proof.
  destruct x as [sx | sx | | sx mx ex]; try discriminate; intros _;
    unfold SF64mul, SFmul.
  - reflexivity.
  - destruct sx; reflexivity.
  - apply signed_zeroOrPositive.
    replace (xorb sx sx) with false by (destruct sx; reflexivity).
    apply binary_round_aux_signed. lia.
Qed.

Lemma SFmul_weight (x w : spec_float) :
  zeroOrPositive x = true -> positiveFinite w = true ->
  zeroOrPositive (SF64mul x w) = true.
Proof.
  destruct x as [sx | [] | | [] mx ex], w as [sw | sw | | [] mw ew];
    try discriminate; intros _ _; unfold SF64mul, SFmul.
  - reflexivity.
  - reflexivity.
  - apply signed_zeroOrPositive. cbn [xorb].
    apply binary_round_aux_signed. lia.
Qed.

Lemma SFdiv_core_nonneg (mx my : positive) (ex ey : Z) :
  0 <= fst (fst (SFdiv_core_binary prec emax (Z.pos mx) ex (Z.pos my) ey)).
Proof.
  unfold SFdiv_core_binary. cbv zeta.
  match goal with
  | |- context [Z.div_eucl ?a ?b] =>
      assert (Ha : 0 <= a);
      [| generalize (Z.div_pos a b Ha ltac:(lia)); unfold Z.div;
         destruct (Z.div_eucl a b) as [q r]; cbn [fst]; exact (fun H => H)]
  end.
  match goal with
  | |- context [match ?s with Z0 => _ | Zpos _ => _ | Zneg _ => _ end] =>
      destruct s
  end; [lia | apply Z.shiftl_nonneg; lia | lia].
Qed.

Lemma SFdiv_signed (sx : bool) (mx my : positive) (ex ey : Z) :
  signed sx (SF64div (S754_finite sx mx ex) (S754_finite false my ey)).
Proof.
  unfold SF64div, SFdiv.
  generalize (SFdiv_core_nonneg mx my ex ey).
  destruct (SFdiv_core_binary prec emax (Z.pos mx) ex (Z.pos my) ey)
    as [[mz ez] lz]. cbn [fst]. intro Hmz.
  replace (xorb sx false) with sx by (destruct sx; reflexivity).
  apply binary_round_aux_signed, Hmz.
Qed.

Lemma SFdiv_notNaN (x n : spec_float) :
  notNaN x = true -> positiveFinite n = true -> notNaN (SF64div x n) = true.
Proof.
  destruct x as [sx | sx | | sx mx ex], n as [sn | sn | | [] mn en];
    try discriminate; intros _ _.
  - reflexivity.
  - reflexivity.
  - apply (signed_notNaN _ _ (SFdiv_signed _ _ _ _ _)).
Qed.

Lemma SFdiv_zeroOrPositive (x n : spec_float) :
  zeroOrPositive x = true -> positiveFinite n = true ->
  zeroOrPositive (SF64div x n) = true.
Proof.
  destruct x as [sx | [] | | [] mx ex], n as [sn | sn | | [] mn en];
    try discriminate; intros _ _.
  - reflexivity.
  - reflexivity.
  - apply signed_zeroOrPositive, SFdiv_signed.
Qed.

Lemma SFsqrt_core_nonneg (mx : positive) (ex : Z) :
  0 <= fst (fst (SFsqrt_core_binary prec emax (Z.pos mx) ex)).
Proof.
  unfold SFsqrt_core_binary. cbv zeta.
  match goal with
  | |- context [Z.sqrtrem ?a] =>
      generalize (Z.sqrtrem_sqrt a), (Z.sqrt_nonneg a);
      destruct (Z.sqrtrem a) as [q r]; cbn [fst]; intros -> H; exact H
  end.
Qed.

Lemma SFsqrt_zeroOrPositive (x : spec_float) :
  zeroOrPositive x = true -> zeroOrPositive (SF64sqrt x) = true.
Proof.
  destruct x as [sx | [] | | [] mx ex]; try discriminate; intros _;
    unfold SF64sqrt, SFsqrt; try reflexivity.
  generalize (SFsqrt_core_nonneg mx ex).
  destruct (SFsqrt_core_binary prec emax (Z.pos mx) ex) as [[mz ez] lz].
  cbn [fst]. intro Hmz.
  apply signed_zeroOrPositive, binary_round_aux_signed, Hmz.
Qed.

(** *** Array lengths are exact *)

Lemma digits2_pos_size (p : positive) : digits2_pos p = Pos.size p.
Proof. induction p as [p IH | p IH |]; cbn; congruence. Qed.

Lemma digits2_pos_shift (p k : positive) :
  digits2_pos (Pos.iter xO p k) = (digits2_pos p + k)%positive.
Proof.
  induction k as [| k IH] using Pos.peano_ind.
  - cbn. lia.
  - rewrite Pos.iter_succ. cbn [digits2_pos]. rewrite IH. lia.
Qed.

Lemma digits2_pos_small (p : positive) :
  Z.pos p < 2 ^ 53 -> Z.pos (digits2_pos p) <= 53.
Proof.
  intro Hp. rewrite digits2_pos_size.
  destruct (Z.le_gt_cases (Z.pos (Pos.size p)) 53) as [H | H]; [exact H |].
  exfalso. generalize (Pos.size_le p). intro Hs.
  assert (Hz : 2 ^ Z.pos (Pos.size p) <= 2 * Z.pos p).
  { change (2 * Z.pos p) with (Z.pos p~0). rewrite <- Pos2Z.inj_pow.
    apply Pos2Z.pos_le_pos, Hs. }
  generalize (Z.pow_le_mono_r 2 54 (Z.pos (Pos.size p)) ltac:(lia) ltac:(lia)).
  change (2 ^ 54) with (2 * 2 ^ 53). lia.
Qed.

Lemma binary_round_aux_canonical (s : bool) (m : positive) (e : Z) :
  fexp prec emax (Z.pos (digits2_pos m) + e) = e -> e <= emax - prec ->
  binary_round_aux prec emax s (Z.pos m) e loc_Exact = S754_finite s m e.
Proof.
  intros He Hmax. unfold binary_round_aux, shr_fexp.
  cbn [Zdigits2 shr_record_of_loc]. rewrite He, Z.sub_diag.
  cbn [shr shr_m loc_of_shr_record round_nearest_even Zdigits2 shr_record_of_loc].
  rewrite He, Z.sub_diag. cbn [shr shr_m].
  destruct (Z.leb_spec e (emax - prec)); [reflexivity | lia].
Qed.

(** An integer below 2^53 is converted without rounding. *)
Lemma binary_round_integer (p : positive) :
  Z.pos p < 2 ^ 53 ->
  positiveFinite (binary_round prec emax false p 0) = true.
Proof.
  intro Hp. apply digits2_pos_small in Hp.
  unfold binary_round.
  assert (Hf : fexp prec emax (Z.pos (digits2_pos p) + 0)
               = Z.pos (digits2_pos p) - 53).
  { unfold fexp, SpecFloat.emin, prec, emax. lia. }
  rewrite Hf. unfold shl_align.
  destruct (Z.pos (digits2_pos p) - 53 - 0) as [| q | q] eqn:E; [| lia |].
  - rewrite binary_round_aux_canonical; [reflexivity | | unfold emax, prec; lia].
    rewrite Hf. lia.
  - rewrite binary_round_aux_canonical;
      [reflexivity | | unfold emax, prec; lia].
    rewrite digits2_pos_shift.
    unfold fexp, SpecFloat.emin, prec, emax. lia.
Qed.

Lemma ofZ_positiveFinite (n : Z) :
  0 < n < 2 ^ 53 -> positiveFinite (Prim2SF (float_ofZ n)) = true.
Proof.
  intro Hn. destruct n as [| p | p]; [lia | | lia].
  cbn [float_ofZ]. rewrite FloatAxioms.of_uint63_spec, Uint63.of_Z_spec.
  rewrite Z.mod_small
    by (change wB with (2 ^ 63); change (2 ^ 63) with (1024 * 2 ^ 53); lia).
  cbn [binary_normalize]. apply binary_round_integer. lia.
Qed.

Lemma len_positiveFinite (xs : list float) :
  (0 < length xs)%nat -> Z.of_nat (length xs) <= 4294967295 ->
  positiveFinite (Prim2SF (len xs)) = true.
Proof.
  intros H0 Hmax. unfold len. cbn [ofZ Binary64].
  apply ofZ_positiveFinite.
  change (2 ^ 53) with 9007199254740992. lia.
Qed.

(** *** Finite numbers *)

Lemma SFcompare_refl (x : spec_float) :
  notNaN x = true -> SFcompare x x = Some Eq.
Proof.
  destruct x as [s | s | | s m e]; try discriminate; intros _; cbn.
  - reflexivity.
  - destruct s; reflexivity.
  - rewrite Z.compare_refl.
    assert (Hc : Pos.compare_cont Eq m m = Eq) by apply Pos.compare_refl.
    rewrite Hc. destruct s; reflexivity.
Qed.

Lemma finite_zeroOrFinite (x : float) :
  finite x = true -> zeroOrFinite (Prim2SF x) = true.
Proof.
  unfold finite, is_finite, is_nan, is_infinity.
  rewrite !FloatAxioms.eqb_spec, FloatAxioms.abs_spec. unfold SFeqb.
  change (Prim2SF infinity) with (S754_infinity false).
  destruct (Prim2SF x) as [s | s | | s m e]; cbn; try reflexivity.
  - rewrite orb_true_r. intro H; discriminate H.
  - intro H; discriminate H.
Qed.

Lemma zeroOrFinite_notNaN (x : spec_float) :
  zeroOrFinite x = true -> notNaN x = true.
Proof. destruct x; try discriminate; reflexivity. Qed.

Lemma zeroOrPositive_notNaN (x : spec_float) :
  zeroOrPositive x = true -> notNaN x = true.
Proof. destruct x; try discriminate; reflexivity. Qed.

Lemma nonNegative_intro (x : float) :
  zeroOrPositive (Prim2SF x) = true -> nonNegative x = true.
Proof.
  unfold nonNegative. rewrite FloatAxioms.leb_spec. cbn [ofZ Binary64 float_ofZ].
  change (Prim2SF (of_uint63 0)) with (S754_zero false).
  destruct (Prim2SF x) as [s | [] | | [] m e]; try discriminate; reflexivity.
Qed.

(** *** The scorer *)

Lemma sum_notNaN (xs : list float) (acc : float) :
  notNaN (Prim2SF acc) = true -> Forall (fun x => finite x = true) xs ->
  notNaN (Prim2SF (reduce (fun sum val => add sum val) acc xs)) = true.
Proof.
  unfold reduce. revert acc.
  induction xs as [| x xs IH]; intros acc Hacc Hxs; cbn [fold_left].
  - exact Hacc.
  - inversion Hxs as [| ? ? Hx Hrest]; subst. apply IH; [| exact Hrest].
    cbn [add Binary64]. rewrite FloatAxioms.add_spec.
    apply SFadd_notNaN; [exact Hacc | apply finite_zeroOrFinite, Hx].
Qed.

Lemma squares_zeroOrPositive (mean : float) (xs : list float) (acc : float) :
  notNaN (Prim2SF mean) = true ->
  zeroOrPositive (Prim2SF acc) = true ->
  Forall (fun x => finite x = true) xs ->
  zeroOrPositive
    (Prim2SF (reduce (fun sum val => add sum (pow2 (sub val mean))) acc xs))
  = true.
Proof.
  intro Hmean. unfold reduce. revert acc.
  induction xs as [| x xs IH]; intros acc Hacc Hxs; cbn [fold_left].
  - exact Hacc.
  - inversion Hxs as [| ? ? Hx Hrest]; subst. apply IH; [| exact Hrest].
    cbn [add sub pow2 Binary64]. rewrite FloatAxioms.add_spec, FloatAxioms.mul_spec, FloatAxioms.sub_spec.
    apply SFadd_zeroOrPositive; [exact Hacc |].
    apply SFmul_square, SFsub_notNaN;
      [apply finite_zeroOrFinite, Hx | exact Hmean].
Qed.

Lemma zero_zeroOrPositive : zeroOrPositive (Prim2SF (ofZ 0)) = true.
Proof. reflexivity. Qed.

Lemma calculateVolatility_zeroOrPositive (xs : list float) :
  finiteArray xs ->
  zeroOrPositive (Prim2SF (calculateVolatility xs)) = true.
Proof.
  intros [Hlen Hfin]. unfold calculateVolatility.
  destruct (Nat.ltb_spec (length xs) 2) as [Hshort | Hlong];
    [reflexivity |].
  cbv zeta.
  assert (Hn : positiveFinite (Prim2SF (len xs)) = true)
    by (apply len_positiveFinite; [lia | exact Hlen]).
  cbn [sqrt div Binary64]. rewrite FloatAxioms.sqrt_spec, FloatAxioms.div_spec.
  apply SFsqrt_zeroOrPositive, SFdiv_zeroOrPositive; [| exact Hn].
  apply squares_zeroOrPositive; [| reflexivity | exact Hfin].
  rewrite FloatAxioms.div_spec. apply SFdiv_notNaN; [| exact Hn].
  apply sum_notNaN; [reflexivity | exact Hfin].
Qed.

Lemma weights_positiveFinite :
  positiveFinite (Prim2SF (w_temperature weights)) = true /\
  positiveFinite (Prim2SF (w_humidity weights)) = true /\
  positiveFinite (Prim2SF (w_pressure weights)) = true /\
  positiveFinite (Prim2SF (w_windSpeed weights)) = true.
Proof. repeat split; vm_compute; reflexivity. Qed.

Lemma pushMetric_zeroOrPositive (m : option (list float)) (w : float)
      (volatilities : list float) :
  finiteMetric m -> positiveFinite (Prim2SF w) = true ->
  Forall (fun v => zeroOrPositive (Prim2SF v) = true) volatilities ->
  Forall (fun v => zeroOrPositive (Prim2SF v) = true)
         (pushMetric m w volatilities).
Proof.
  intros Hm Hw Hvs. unfold pushMetric.
  destruct m as [xs |]; [| exact Hvs].
  destruct (1 <? length xs)%nat; [| exact Hvs].
  apply Forall_app. split; [exact Hvs |].
  constructor; [| constructor].
  cbn [mul Binary64]. rewrite FloatAxioms.mul_spec.
  apply SFmul_weight; [| exact Hw].
  apply calculateVolatility_zeroOrPositive, Hm.
Qed.

Lemma total_zeroOrPositive (vs : list float) (acc : float) :
  zeroOrPositive (Prim2SF acc) = true ->
  Forall (fun v => zeroOrPositive (Prim2SF v) = true) vs ->
  zeroOrPositive (Prim2SF (reduce (fun sum vol => add sum vol) acc vs)) = true.
Proof.
  unfold reduce. revert acc.
  induction vs as [| v vs IH]; intros acc Hacc Hvs; cbn [fold_left].
  - exact Hacc.
  - inversion Hvs as [| ? ? Hv Hrest]; subst. apply IH; [| exact Hrest].
    cbn [add Binary64]. rewrite FloatAxioms.add_spec.
    apply SFadd_zeroOrPositive; assumption.
Qed.

Lemma score_zeroOrPositive (m : Metrics float) :
  finiteMetrics m ->
  zeroOrPositive (Prim2SF (calculateWeatherVolatility m)) = true.
Proof.
  intros (Ht & Hh & Hp & Hw).
  destruct weights_positiveFinite as (Wt & Wh & Wp & Ww).
  unfold calculateWeatherVolatility. cbv zeta.
  match goal with
  | |- context [if ?b then _ else _] => destruct b
  end; [| reflexivity].
  apply total_zeroOrPositive; [reflexivity |].
  repeat (apply pushMetric_zeroOrPositive; [assumption | assumption |]).
  constructor.
Qed.

(** C7.  On doubles, for every argument whose arrays hold finite numbers
    the score is not NaN and not negative ([0 <= score] holds; it is
    +Infinity when the sums overflow), and it is not confined to a 0-10
    scale: temperatures [0, 100] alone score 20. *)
Theorem score_nonnegative_binary64 :
  (forall m : Metrics float,
      finiteMetrics m -> nonNegative (calculateWeatherVolatility m) = true) /\
  (exists m : Metrics float,
      finiteMetrics m /\
      PrimFloat.ltb (ofZ 10) (calculateWeatherVolatility m) = true).
Proof.
  split.
  - intros m Hm. apply nonNegative_intro, score_zeroOrPositive, Hm.
  - exists (Only.temperature [ofZ 0; ofZ 100]). split.
    + repeat split; cbn; try lia.
      repeat constructor.
    + vm_compute. reflexivity.
Qed.

Lemma score_nonnegative_binary64_witness :
  nonNegative (calculateWeatherVolatility (Only.temperature opposite)) = true.
Proof.
  apply (proj1 score_nonnegative_binary64).
  repeat split; cbn; try lia.
  repeat constructor.
Defined.

(** Finite samples can score +Infinity: the squared deviations of 1e200 and
    -1e200 from their mean 0 overflow. *)
Example score_overflows :
  finite huge = true /\ finite (PrimFloat.opp huge) = true /\
  calculateWeatherVolatility (Only.temperature opposite) = infinity.
Proof. repeat split; vm_compute; reflexivity. Qed.

End Binary64Sign.


(** ** Calendar arithmetic *)

Module JsDateFacts.
Import JsDate.
Local Open Scope Z_scope.

Ltac floors := Z.to_euclidean_division_equations; lia.

Lemma Day_bounds (t : Z) : Day t * msPerDay <= t < Day t * msPerDay + msPerDay.
Proof. unfold Day, msPerDay. floors. Qed.

Lemma YearFromTime_spec (t : Z) :
  DayFromYear (YearFromTime t) <= Day t < DayFromYear (YearFromTime t + 1).
Proof.
  unfold YearFromTime. cbv zeta. generalize (Day t) as d. intro d.
  destruct (Z.ltb_spec d (DayFromYear (1970 + 400 * d / 146097))) as [Hlt | Hge].
  - replace (1970 + 400 * d / 146097 - 1 + 1) with (1970 + 400 * d / 146097) by lia.
    split; [| assumption].
    revert Hlt. unfold DayFromYear. floors.
  - destruct (Z.leb_spec (DayFromYear (1970 + 400 * d / 146097 + 1)) d)
      as [Hle | Hgt].
    + split; [assumption |].
      revert Hle. unfold DayFromYear. floors.
    + split; assumption.
Qed.

Lemma DayFromYear_mono (y1 y2 : Z) :
  y1 <= y2 -> DayFromYear y1 <= DayFromYear y2.
Proof. unfold DayFromYear. floors. Qed.

Lemma DayFromYear_next (y : Z) :
  DayFromYear (y + 1) = DayFromYear y + DaysInYear y.
Proof.
  unfold DayFromYear, DaysInYear.
  destruct (Z.eqb_spec (y mod 4) 0); simpl negb; cbv iota;
    [destruct (Z.eqb_spec (y mod 100) 0); simpl negb; cbv iota;
     [destruct (Z.eqb_spec (y mod 400) 0); simpl negb; cbv iota |] |];
    floors.
Qed.

(** The year is determined by the day number. *)
Lemma YearFromTime_unique (t y : Z) :
  DayFromYear y <= Day t < DayFromYear (y + 1) -> YearFromTime t = y.
Proof.
  intros [Hlo Hhi]. destruct (YearFromTime_spec t) as [Hlo' Hhi'].
  destruct (Z.lt_trichotomy (YearFromTime t) y) as [Hlt | [Heq | Hgt]];
    [exfalso | assumption | exfalso].
  - generalize (DayFromYear_mono (YearFromTime t + 1) y). lia.
  - generalize (DayFromYear_mono (y + 1) (YearFromTime t)). lia.
Qed.

(** [YearFromTime] is what ECMA-262 asks for: the largest year that has
    begun by [t]. *)
Lemma YearFromTime_largest (t : Z) :
  TimeFromYear (YearFromTime t) <= t /\
  forall y, TimeFromYear y <= t -> y <= YearFromTime t.
Proof.
  destruct (YearFromTime_spec t) as [Hlo Hhi].
  generalize (Day_bounds t). intro Ht. unfold TimeFromYear.
  split; [unfold msPerDay in *; lia |].
  intros y Hy.
  destruct (Z.le_gt_cases y (YearFromTime t)) as [Hle | Hgt]; [assumption |].
  exfalso. generalize (DayFromYear_mono (YearFromTime t + 1) y).
  unfold msPerDay in *. lia.
Qed.

Lemma YearFromTime_Day (t1 t2 : Z) :
  Day t1 = Day t2 -> YearFromTime t1 = YearFromTime t2.
Proof. unfold YearFromTime. intros ->. reflexivity. Qed.

Lemma MonthFromTime_Day (t1 t2 : Z) :
  Day t1 = Day t2 -> MonthFromTime t1 = MonthFromTime t2.
Proof.
  intro E. unfold MonthFromTime, DayWithinYear, InLeapYear.
  rewrite (YearFromTime_Day _ _ E), E. reflexivity.
Qed.

Lemma DateFromTime_Day (t1 t2 : Z) :
  Day t1 = Day t2 -> DateFromTime t1 = DateFromTime t2.
Proof.
  intro E. unfold DateFromTime, DayWithinYear, InLeapYear.
  rewrite (MonthFromTime_Day _ _ E), (YearFromTime_Day _ _ E), E. reflexivity.
Qed.

Lemma MonthFromTime_range (t : Z) : 0 <= MonthFromTime t <= 11.
Proof.
  unfold MonthFromTime. cbv zeta.
  repeat match goal with
         | |- context [if ?b then _ else _] => destruct b
         end; lia.
Qed.

(** [MakeDay] undoes the split of a day number into year, month and date,
    and shifts with the date. *)
Lemma MakeDay_fields (t k : Z) :
  MakeDay (YearFromTime t) (MonthFromTime t) (DateFromTime t + k) = Day t + k.
Proof.
  unfold MakeDay. cbv zeta.
  assert (Hm := MonthFromTime_range t).
  rewrite (Z.div_small (MonthFromTime t) 12), (Z.mod_small (MonthFromTime t) 12),
    Z.add_0_r by lia.
  unfold DateFromTime, firstDayOfMonth, InLeapYear, DayWithinYear. cbv zeta.
  destruct (MonthFromTime t) as [| p | p]; [lia | | lia].
  do 4 (destruct p as [p | p |]; try lia).
Qed.

Lemma Day_MakeDate (d r : Z) :
  0 <= r < msPerDay -> Day (MakeDate d r) = d.
Proof.
  intro Hr. unfold Day, MakeDate, msPerDay in *.
  rewrite Z.add_comm, Z.div_add by lia. rewrite Z.div_small; lia.
Qed.

Lemma TimeWithinDay_MakeDate (d r : Z) :
  0 <= r < msPerDay -> TimeWithinDay (MakeDate d r) = r.
Proof.
  intro Hr. unfold TimeWithinDay, MakeDate, msPerDay in *.
  rewrite Z.add_comm, Z.mod_add by lia. apply Z.mod_small; lia.
Qed.

Lemma TimeClip_in_range (t : Z) :
  - maxTime <= t <= maxTime -> TimeClip t = Some t.
Proof.
  intro H. unfold TimeClip.
  destruct (Z.leb_spec (Z.abs t) maxTime); [reflexivity | lia].
Qed.

End JsDateFacts.

(** ** The picker *)

Module DateRangePickerFacts.
Import JsDate DateRangePicker RangeSpec JsDateFacts.
Local Open Scope Z_scope.

Section Offset.
Variable tza : Z.
Hypothesis Htza : validOffset tza.

Lemma localDay_range (now : Z) :
  wallClock now ->
  -1 <= localDay tza now /\
  now + tza - msPerDay < localDay tza now * msPerDay <= now + tza.
Proof.
  unfold wallClock, localDay, LocalTime. intro Hnow.
  generalize (Day_bounds (now + tza)). unfold validOffset in Htza.
  generalize (Day (now + tza)). unfold msPerDay, maxTime in *. intros d Hd.
  lia.
Qed.

(** [today.setHours(23, 59, 59, 999)] *)
Lemma endOfToday (now : Z) :
  wallClock now ->
  setHours tza 23 59 59 999 (Date_now now)
  = Some (MakeDate (localDay tza now) (MakeTime 23 59 59 999) - tza).
Proof.
  intro Hnow. unfold setHours, Date_now, UTC. cbv zeta.
  apply TimeClip_in_range.
  destruct (localDay_range now Hnow) as [_ Hd].
  unfold localDay in *. unfold wallClock, validOffset in *.
  unfold MakeDate, MakeTime, msPerHour, msPerMinute, msPerSecond, msPerDay,
    maxTime in *.
  lia.
Qed.

(** [start.setHours(0, 0, 0, 0)] *)
Lemma startOfToday (now : Z) :
  wallClock now ->
  setHours tza 0 0 0 0 (Date_now now)
  = Some (MakeDate (localDay tza now) 0 - tza).
Proof.
  intro Hnow. unfold setHours, Date_now, UTC. cbv zeta.
  apply TimeClip_in_range.
  destruct (localDay_range now Hnow) as [_ Hd].
  unfold localDay in *. unfold wallClock, validOffset in *.
  unfold MakeDate, MakeTime, msPerHour, msPerMinute, msPerSecond, msPerDay,
    maxTime in *.
  lia.
Qed.

Lemma LocalTime_UTC (t : Z) : LocalTime tza (t - tza) = t.
Proof. unfold LocalTime. lia. Qed.

(** [start.setDate(today.getDate() - n)] lands [n] days before today. *)
Lemma daysBeforeToday (now n : Z) :
  wallClock now -> 0 <= n <= 90 ->
  setDate tza
    (minus (getDate tza
              (Some (MakeDate (localDay tza now) (MakeTime 23 59 59 999) - tza)))
           n)
    (Some (MakeDate (localDay tza now) 0 - tza))
  = Some (MakeDate (localDay tza now - n) 0 - tza).
Proof.
  intros Hnow Hn. unfold setDate, getDate, minus. cbv zeta.
  rewrite !LocalTime_UTC.
  assert (Hday : Day (MakeDate (localDay tza now) (MakeTime 23 59 59 999))
                 = Day (MakeDate (localDay tza now) 0)).
  { rewrite !Day_MakeDate; [reflexivity | |]; vm_compute; split; congruence. }
  rewrite (DateFromTime_Day _ _ Hday).
  replace (DateFromTime (MakeDate (localDay tza now) 0) - n)
    with (DateFromTime (MakeDate (localDay tza now) 0) + - n) by lia.
  rewrite MakeDay_fields.
  rewrite Day_MakeDate, TimeWithinDay_MakeDate
    by (vm_compute; split; congruence).
  unfold UTC. replace (localDay tza now + - n) with (localDay tza now - n) by lia.
  apply TimeClip_in_range.
  destruct (localDay_range now Hnow) as [_ Hd].
  unfold wallClock, validOffset in *.
  unfold MakeDate, msPerDay, maxTime in *.
  lia.
Qed.

Lemma localYear_recent (now : Z) :
  wallClock now -> 1969 <= YearFromTime (LocalTime tza now).
Proof.
  intro Hnow. destruct (localDay_range now Hnow) as [Hd _].
  destruct (YearFromTime_spec (LocalTime tza now)) as [_ Hhi].
  unfold localDay in Hd.
  destruct (Z.le_gt_cases 1969 (YearFromTime (LocalTime tza now)))
    as [Hle | Hgt]; [assumption | exfalso].
  generalize (DayFromYear_mono (YearFromTime (LocalTime tza now) + 1) 1969).
  change (DayFromYear 1969) with (-365). lia.
Qed.

(** [new Date(today.getFullYear(), 0, 1)] *)
Lemma firstOfYear (now : Z) :
  wallClock now ->
  Date_ymd tza
    (getFullYear tza
       (Some (MakeDate (localDay tza now) (MakeTime 23 59 59 999) - tza)))
    (Some 0) (Some 1)
  = Some (MakeDate (DayFromYear (YearFromTime (LocalTime tza now))) 0 - tza).
Proof.
  intro Hnow. unfold Date_ymd, getFullYear. cbv zeta.
  rewrite LocalTime_UTC.
  assert (Hday : Day (MakeDate (localDay tza now) (MakeTime 23 59 59 999))
                 = Day (LocalTime tza now)).
  { rewrite Day_MakeDate; [reflexivity |]. vm_compute; split; congruence. }
  rewrite (YearFromTime_Day _ _ Hday).
  assert (Hy := localYear_recent now Hnow).
  unfold MakeFullYear.
  destruct (Z.leb_spec (YearFromTime (LocalTime tza now)) 99); [lia |].
  rewrite andb_false_r.
  unfold MakeDay. cbv zeta. change (0 / 12) with 0. change (0 mod 12) with 0.
  rewrite Z.add_0_r. unfold firstDayOfMonth. cbv zeta iota.
  change (MakeTime 0 0 0 0) with 0.
  replace (DayFromYear (YearFromTime (LocalTime tza now) + 0) + 1 - 1)
    with (DayFromYear (YearFromTime (LocalTime tza now)))
    by (rewrite Z.add_0_r; lia).
  unfold UTC. apply TimeClip_in_range.
  destruct (localDay_range now Hnow) as [_ Hd].
  destruct (YearFromTime_spec (LocalTime tza now)) as [Hlo Hhi].
  rewrite DayFromYear_next in Hhi.
  assert (Hdy : DaysInYear (YearFromTime (LocalTime tza now)) <= 366).
  { unfold DaysInYear.
    repeat match goal with
           | |- context [if ?b then _ else _] => destruct b
           end; lia. }
  unfold localDay in *. unfold wallClock, validOffset in *.
  unfold MakeDate, msPerDay, maxTime in *.
  lia.
Qed.

(** The four presets, resolved. *)
Lemma applyPreset_days (now n : Z) (preset : string) (s : State) :
  wallClock now ->
  (preset = "last7days"%string /\ n = 7 \/
   preset = "last30days"%string /\ n = 30 \/
   preset = "last90days"%string /\ n = 90) ->
  resolved tza now preset s
    (MakeDate (localDay tza now - n) 0 - tza)
    (MakeDate (localDay tza now) (MakeTime 23 59 59 999) - tza).
Proof.
  intros Hnow Hp. unfold resolved, applyPreset. cbv zeta.
  rewrite (endOfToday now Hnow), (startOfToday now Hnow).
  destruct Hp as [[-> ->] | [[-> ->] | [-> ->]]]; cbn [String.eqb Ascii.eqb Bool.eqb];
    rewrite daysBeforeToday by (assumption || lia); reflexivity.
Qed.

Lemma applyPreset_ytd (now : Z) (s : State) :
  wallClock now ->
  resolved tza now "ytd" s
    (MakeDate (DayFromYear (YearFromTime (LocalTime tza now))) 0 - tza)
    (MakeDate (localDay tza now) (MakeTime 23 59 59 999) - tza).
Proof.
  intros Hnow. unfold resolved, applyPreset. cbv zeta.
  rewrite (endOfToday now Hnow), (startOfToday now Hnow).
  cbn [String.eqb Ascii.eqb Bool.eqb].
  rewrite firstOfYear by assumption. reflexivity.
Qed.

Lemma endsToday_intro (now : Z) :
  endsToday tza now (MakeDate (localDay tza now) (MakeTime 23 59 59 999) - tza).
Proof.
  unfold endsToday, endOfDay, localDay at 1. rewrite LocalTime_UTC.
  rewrite Day_MakeDate, TimeWithinDay_MakeDate
    by (vm_compute; split; congruence).
  split; reflexivity.
Qed.

Lemma startsDaysBefore_intro (now n : Z) :
  startsDaysBefore tza now n (MakeDate (localDay tza now - n) 0 - tza).
Proof.
  unfold startsDaysBefore, startOfDay, localDay at 1. rewrite LocalTime_UTC.
  rewrite Day_MakeDate, TimeWithinDay_MakeDate
    by (vm_compute; split; congruence).
  split; reflexivity.
Qed.

Lemma newYearsDay_intro (now : Z) :
  startOfDay tza
    (MakeDate (DayFromYear (YearFromTime (LocalTime tza now))) 0 - tza) /\
  newYearsDayOf tza now
    (MakeDate (DayFromYear (YearFromTime (LocalTime tza now))) 0 - tza).
Proof.
  unfold startOfDay, newYearsDayOf. rewrite LocalTime_UTC.
  set (y := YearFromTime (LocalTime tza now)).
  assert (Hd : Day (MakeDate (DayFromYear y) 0) = DayFromYear y)
    by (apply Day_MakeDate; vm_compute; split; congruence).
  assert (Hy : YearFromTime (MakeDate (DayFromYear y) 0) = y).
  { apply YearFromTime_unique. rewrite Hd, DayFromYear_next.
    assert (365 <= DaysInYear y).
    { unfold DaysInYear.
      repeat match goal with
             | |- context [if ?b then _ else _] => destruct b
             end; lia. }
    lia. }
  assert (Hw : DayWithinYear (MakeDate (DayFromYear y) 0) = 0)
    by (unfold DayWithinYear; rewrite Hy, Hd; lia).
  assert (Hm : MonthFromTime (MakeDate (DayFromYear y) 0) = 0)
    by (unfold MonthFromTime; rewrite Hw; reflexivity).
  split; [apply TimeWithinDay_MakeDate; vm_compute; split; congruence |].
  split; [exact Hy |]. split; [exact Hm |].
  unfold DateFromTime. rewrite Hm, Hw. reflexivity.
Qed.

End Offset.

(** The presets run on 3 March 2024, 15:30 UTC, five hours west of
    Greenwich: seven days back crosses the leap day. *)
Example last7days_across_february :
  fst (applyPreset (-18000000) 1709479800000 "last7days"
         (initialState (-18000000) 1709479800000 "last7days"))
  = {| startDate := Some (1708837200000);
       endDate := Some (1709528399999);
       rangePreset := "last7days" |}
  /\ LocalTime (-18000000) 1708837200000 = MakeDate (MakeDay 2024 1 25) 0
  /\ LocalTime (-18000000) 1709528399999
     = MakeDate (MakeDay 2024 2 3) (MakeTime 23 59 59 999).
Proof. repeat split; vm_compute; reflexivity. Qed.

Example ytd_on_3_march :
  fst (applyPreset (-18000000) 1709479800000 "ytd"
         (initialState (-18000000) 1709479800000 "last7days"))
  = {| startDate := Some (1704085200000);
       endDate := Some (1709528399999);
       rangePreset := "ytd" |}
  /\ LocalTime (-18000000) 1704085200000 = MakeDate (MakeDay 2024 0 1) 0.
Proof. repeat split; vm_compute; reflexivity. Qed.

(** *** Custom ranges *)

Lemma digit_range (c : Ascii.ascii) (k : Z) :
  digit c = Some k -> 0 <= k <= 9.
Proof.
  unfold digit. cbv zeta.
  destruct (Z.leb_spec 48 (Z.of_nat (Ascii.nat_of_ascii c)));
    destruct (Z.leb_spec (Z.of_nat (Ascii.nat_of_ascii c)) 57);
    cbn [andb]; intro E; [| discriminate E ..].
  assert (E' : Z.of_nat (Ascii.nat_of_ascii c) - 48 = k) by congruence.
  lia.
Qed.

Lemma number4_range (a b c d : Ascii.ascii) (n : Z) :
  number [a; b; c; d] = Some n -> 0 <= n <= 9999.
Proof.
  unfold number. cbn [fold_left].
  destruct (digit a) as [ka |] eqn:Ea; [| discriminate].
  destruct (digit b) as [kb |] eqn:Eb; [| discriminate].
  destruct (digit c) as [kc |] eqn:Ec; [| discriminate].
  destruct (digit d) as [kd |] eqn:Ed; [| discriminate].
  apply digit_range in Ea, Eb, Ec, Ed.
  intro E.
  assert (E' : 10 * (10 * (10 * (10 * 0 + ka) + kb) + kc) + kd = n)
    by congruence.
  lia.
Qed.

Lemma firstDayOfMonth_range (y m : Z) : 0 <= firstDayOfMonth y m <= 335.
Proof.
  unfold firstDayOfMonth. cbv zeta.
  destruct (DaysInYear y =? 366);
    (destruct m as [| p | p]; [lia | | lia]);
    do 4 (destruct p as [p | p |]; try lia).
Qed.

Lemma DaysInMonth_le_31 (y m : Z) : DaysInMonth y m <= 31.
Proof.
  unfold DaysInMonth.
  destruct (DaysInYear y =? 366);
    (destruct m as [| p | p]; [lia | | lia]);
    do 4 (destruct p as [p | p |]; try lia).
Qed.

(** A date string denotes the UTC midnight of a day between the years 0 and
    9999. *)
Lemma Date_parse_midnight (value : string) (t : Z) :
  Date_parse value = Some t ->
  exists d, t = MakeDate d 0 /\ -719528 <= d <= 2933262.
Proof.
  unfold Date_parse.
  destruct (list_ascii_of_string value)
    as [| y1 [| y2 [| y3 [| y4 [| dash1 [| m1 [| m2 [| dash2 [| d1 [| d2 [| x rest]]]]]]]]]]];
    try discriminate.
  destruct (Ascii.eqb dash1 "-" && Ascii.eqb dash2 "-")%bool; [| discriminate].
  destruct (number [y1; y2; y3; y4]) as [y |] eqn:Ey; [| discriminate].
  destruct (number [m1; m2]) as [m |]; [| discriminate].
  destruct (number [d1; d2]) as [d |]; [| discriminate].
  destruct (Z.leb_spec 1 m); [| discriminate].
  destruct (Z.leb_spec m 12); [| discriminate].
  destruct (Z.leb_spec 1 d); [| discriminate].
  destruct (Z.leb_spec d (DaysInMonth y m)); [| discriminate].
  cbn [andb]. change (MakeTime 0 0 0 0) with 0.
  unfold TimeClip.
  destruct (Z.abs (MakeDate (MakeDay y (m - 1) d) 0) <=? maxTime);
    [| discriminate].
  intro E.
  assert (E' : MakeDate (MakeDay y (m - 1) d) 0 = t) by congruence.
  exists (MakeDay y (m - 1) d). split; [symmetry; exact E' |].
  apply number4_range in Ey.
  unfold MakeDay. cbv zeta.
  rewrite (Z.div_small (m - 1) 12), Z.add_0_r by lia.
  generalize (firstDayOfMonth_range y ((m - 1) mod 12)).
  generalize (DayFromYear_mono 0 y), (DayFromYear_mono y 9999).
  generalize (DaysInMonth_le_31 y m).
  change (DayFromYear 0) with (-719528).
  change (DayFromYear 9999) with 2932532.
  lia.
Qed.

Section Custom.
Variable tza : Z.

(** [setHours] on the midnight [MakeDate d 0] read from an input. *)
Lemma setHours_parsed (d r : Z) :
  -719528 <= d <= 2933262 -> 0 <= r < msPerDay ->
  setHours tza (r / msPerHour) (r mod msPerHour / msPerMinute)
    (r mod msPerMinute / msPerSecond) (r mod msPerSecond) (Some (MakeDate d 0))
  = Some (MakeDate (localDay tza (MakeDate d 0)) r - tza).
Proof.
  intros Hd Hr. unfold setHours. cbv zeta. fold (localDay tza (MakeDate d 0)).
  replace (MakeTime (r / msPerHour) (r mod msPerHour / msPerMinute)
             (r mod msPerMinute / msPerSecond) (r mod msPerSecond)) with r
    by (unfold MakeTime, msPerHour, msPerMinute, msPerSecond; floors).
  unfold UTC. apply TimeClip_in_range.
  generalize (Day_bounds (LocalTime tza (MakeDate d 0))).
  fold (localDay tza (MakeDate d 0)).
  unfold LocalTime, MakeDate, maxTime, msPerDay in *. lia.
Qed.

Lemma localDay_local (d r : Z) :
  0 <= r < msPerDay -> localDay tza (MakeDate d r - tza) = d.
Proof.
  intro Hr. unfold localDay. rewrite LocalTime_UTC. apply Day_MakeDate, Hr.
Qed.

Lemma timeOfDay_local (d r : Z) :
  0 <= r < msPerDay -> TimeWithinDay (LocalTime tza (MakeDate d r - tza)) = r.
Proof.
  intro Hr. rewrite LocalTime_UTC. apply TimeWithinDay_MakeDate, Hr.
Qed.

Lemma localDay_midnight (d : Z) :
  localDay tza (MakeDate d 0) = d + Day tza.
Proof.
  unfold localDay, LocalTime, MakeDate, Day, msPerDay.
  rewrite Z.add_0_r, Z.add_comm, Z.div_add; lia.
Qed.

End Custom.

(** X29.  For valid date strings and any fixed offset, editing the start
    input stores the first millisecond of a local day as the start, editing
    the end input stores the last millisecond of a local day as the end, in
    either order of the two edits; nothing compares the two, so an end input
    that is earlier than the start input leaves a range whose start is after
    its end. *)
Theorem custom_range (tza : Z) (s : State) (startInput endInput : string)
        (t1 t2 : Z) :
  Date_parse startInput = Some t1 -> Date_parse endInput = Some t2 ->
  exists st e,
    handleStartDateChange tza startInput s
    = ({| startDate := Some st; endDate := endDate s;
          rangePreset := "custom" |}, Some (Some st, endDate s)) /\
    handleEndDateChange tza endInput s
    = ({| startDate := startDate s; endDate := Some e;
          rangePreset := "custom" |}, Some (startDate s, Some e)) /\
    handleEndDateChange tza endInput
      (fst (handleStartDateChange tza startInput s))
    = ({| startDate := Some st; endDate := Some e; rangePreset := "custom" |},
       Some (Some st, Some e)) /\
    handleStartDateChange tza startInput
      (fst (handleEndDateChange tza endInput s))
    = ({| startDate := Some st; endDate := Some e; rangePreset := "custom" |},
       Some (Some st, Some e)) /\
    startOfDay tza st /\ localDay tza st = localDay tza t1 /\
    endOfDay tza e /\ localDay tza e = localDay tza t2 /\
    (t2 < t1 -> e < st).
Proof.
  intros E1 E2.
  destruct (Date_parse_midnight _ _ E1) as (d1 & -> & Hd1).
  destruct (Date_parse_midnight _ _ E2) as (d2 & -> & Hd2).
  assert (S1 : setHours tza 0 0 0 0 (Some (MakeDate d1 0))
               = Some (MakeDate (localDay tza (MakeDate d1 0)) 0 - tza)).
  { apply (setHours_parsed tza d1 0 Hd1). vm_compute; split; congruence. }
  assert (S2 : setHours tza 23 59 59 999 (Some (MakeDate d2 0))
               = Some (MakeDate (localDay tza (MakeDate d2 0))
                                (MakeTime 23 59 59 999) - tza)).
  { apply (setHours_parsed tza d2 (MakeTime 23 59 59 999) Hd2).
    vm_compute; split; congruence. }
  exists (MakeDate (localDay tza (MakeDate d1 0)) 0 - tza),
         (MakeDate (localDay tza (MakeDate d2 0)) (MakeTime 23 59 59 999) - tza).
  unfold handleStartDateChange, handleEndDateChange. cbv zeta.
  cbn [fst startDate endDate]. rewrite E1, E2, S1, S2.
  repeat (split; [reflexivity |]).
  unfold startOfDay, endOfDay.
  rewrite !timeOfDay_local, !localDay_local by (vm_compute; split; congruence).
  repeat (split; [reflexivity |]).
  rewrite !localDay_midnight.
  unfold MakeDate, MakeTime, msPerHour, msPerMinute, msPerSecond, msPerDay. lia.
Qed.

Lemma custom_range_witness :
  Date_parse "2024-03-10" = Some 1710028800000 /\
  Date_parse "2024-03-01" = Some 1709251200000 /\
  exists st e,
    handleEndDateChange (-18000000) "2024-03-01"
      (fst (handleStartDateChange (-18000000) "2024-03-10"
              (initialState (-18000000) 1710084600000 "last7days")))
    = ({| startDate := Some st; endDate := Some e; rangePreset := "custom" |},
       Some (Some st, Some e)) /\
    e < st.
Proof.
  assert (E1 : Date_parse "2024-03-10" = Some 1710028800000) by reflexivity.
  assert (E2 : Date_parse "2024-03-01" = Some 1709251200000) by reflexivity.
  split; [exact E1 |]. split; [exact E2 |].
  destruct (custom_range (-18000000)
              (initialState (-18000000) 1710084600000 "last7days")
              "2024-03-10" "2024-03-01" _ _ E1 E2)
    as (st & e & _ & _ & Hse & _ & _ & _ & _ & _ & Hinv).
  exists st, e. split; [exact Hse | apply Hinv; lia].
Defined.

(** What the two handlers store for valid date strings: the first and the
    last millisecond of the local day on which the UTC midnight of the typed
    date falls. *)
Lemma custom_stored (tza : Z) (s : State) (startInput endInput : string)
      (t1 t2 : Z) :
  Date_parse startInput = Some t1 -> Date_parse endInput = Some t2 ->
  exists st e,
    handleStartDateChange tza startInput s
    = ({| startDate := Some st; endDate := endDate s;
          rangePreset := "custom" |}, Some (Some st, endDate s)) /\
    handleEndDateChange tza endInput s
    = ({| startDate := startDate s; endDate := Some e;
          rangePreset := "custom" |}, Some (startDate s, Some e)) /\
    LocalTime tza st = MakeDate (Day t1 + Day tza) (MakeTime 0 0 0 0) /\
    LocalTime tza e = MakeDate (Day t2 + Day tza) (MakeTime 23 59 59 999).
Proof.
  intros E1 E2.
  destruct (Date_parse_midnight _ _ E1) as (d1 & -> & Hd1).
  destruct (Date_parse_midnight _ _ E2) as (d2 & -> & Hd2).
  assert (S1 : setHours tza 0 0 0 0 (Some (MakeDate d1 0))
               = Some (MakeDate (localDay tza (MakeDate d1 0)) 0 - tza)).
  { apply (setHours_parsed tza d1 0 Hd1). vm_compute; split; congruence. }
  assert (S2 : setHours tza 23 59 59 999 (Some (MakeDate d2 0))
               = Some (MakeDate (localDay tza (MakeDate d2 0))
                                (MakeTime 23 59 59 999) - tza)).
  { apply (setHours_parsed tza d2 (MakeTime 23 59 59 999) Hd2).
    vm_compute; split; congruence. }
  exists (MakeDate (localDay tza (MakeDate d1 0)) 0 - tza),
         (MakeDate (localDay tza (MakeDate d2 0)) (MakeTime 23 59 59 999) - tza).
  unfold handleStartDateChange, handleEndDateChange. cbv zeta.
  rewrite E1, E2, S1, S2.
  repeat (split; [reflexivity |]).
  rewrite !LocalTime_UTC, !localDay_midnight.
  rewrite !(Day_MakeDate _ 0) by (vm_compute; split; congruence).
  split; reflexivity.
Qed.

(** C4.  Wherever local time is behind UTC, the custom range is a day
    early: the start stored is 00:00:00.000 local time of the day before
    the date typed into the start input, and the end stored is 23:59:59.999
    local time of the day before the date typed into the end input
    ([Day t] is the day number of the typed date, [t] being its UTC
    midnight, which is what [new Date(value)] reads). *)
Theorem custom_range_day_before (tza : Z) (s : State)
        (startInput endInput : string) (t1 t2 : Z) :
  validOffset tza -> tza < 0 ->
  Date_parse startInput = Some t1 -> Date_parse endInput = Some t2 ->
  exists st e,
    handleStartDateChange tza startInput s
    = ({| startDate := Some st; endDate := endDate s;
          rangePreset := "custom" |}, Some (Some st, endDate s)) /\
    handleEndDateChange tza endInput s
    = ({| startDate := startDate s; endDate := Some e;
          rangePreset := "custom" |}, Some (startDate s, Some e)) /\
    LocalTime tza st = MakeDate (Day t1 - 1) (MakeTime 0 0 0 0) /\
    LocalTime tza e = MakeDate (Day t2 - 1) (MakeTime 23 59 59 999).
Proof.
  intros Htza Hneg E1 E2.
  destruct (custom_stored tza s startInput endInput t1 t2 E1 E2)
    as (st & e & H1 & H2 & H3 & H4).
  assert (Hday : Day tza = -1)
    by (unfold validOffset, Day, msPerDay in *; floors).
  rewrite Hday in H3, H4.
  exists st, e. repeat split; assumption.
Qed.

(** The scenario of the specification five hours west of Greenwich: 10 March
    2024 typed as the start is stored as 9 March 00:00 local time, 1 March
    typed as the end as 29 February 23:59:59.999. *)
Lemma custom_range_day_before_witness :
  Date_parse "2024-03-10" = Some (MakeDate (MakeDay 2024 2 10) 0) /\
  Date_parse "2024-03-01" = Some (MakeDate (MakeDay 2024 2 1) 0) /\
  exists st e,
    handleStartDateChange (-18000000) "2024-03-10"
      (initialState (-18000000) 1710084600000 "last7days")
    = ({| startDate := Some st;
          endDate := Some 1710084600000;
          rangePreset := "custom" |}, Some (Some st, Some 1710084600000)) /\
    handleEndDateChange (-18000000) "2024-03-01"
      (initialState (-18000000) 1710084600000 "last7days")
    = ({| startDate := Some (1710084600000 - 7 * msPerDay);
          endDate := Some e;
          rangePreset := "custom" |},
       Some (Some (1710084600000 - 7 * msPerDay), Some e)) /\
    LocalTime (-18000000) st = MakeDate (MakeDay 2024 2 9) (MakeTime 0 0 0 0) /\
    LocalTime (-18000000) e
    = MakeDate (MakeDay 2024 1 29) (MakeTime 23 59 59 999).
Proof.
  assert (E1 : Date_parse "2024-03-10" = Some (MakeDate (MakeDay 2024 2 10) 0))
    by reflexivity.
  assert (E2 : Date_parse "2024-03-01" = Some (MakeDate (MakeDay 2024 2 1) 0))
    by reflexivity.
  split; [exact E1 |]. split; [exact E2 |].
  assert (Htza : validOffset (-18000000)) by (unfold validOffset, msPerDay; lia).
  exact (custom_range_day_before (-18000000)
           (initialState (-18000000) 1710084600000 "last7days")
           "2024-03-10" "2024-03-01" _ _ Htza ltac:(lia) E1 E2).
Defined.

(** At or east of Greenwich the typed days are kept. *)
Lemma custom_range_same_day (tza : Z) (s : State)
      (startInput endInput : string) (t1 t2 : Z) :
  validOffset tza -> 0 <= tza ->
  Date_parse startInput = Some t1 -> Date_parse endInput = Some t2 ->
  exists st e,
    startDate (fst (handleStartDateChange tza startInput s)) = Some st /\
    endDate (fst (handleEndDateChange tza endInput s)) = Some e /\
    LocalTime tza st = MakeDate (Day t1) (MakeTime 0 0 0 0) /\
    LocalTime tza e = MakeDate (Day t2) (MakeTime 23 59 59 999).
Proof.
  intros Htza Hpos E1 E2.
  destruct (custom_stored tza s startInput endInput t1 t2 E1 E2)
    as (st & e & H1 & H2 & H3 & H4).
  assert (Hday : Day tza = 0)
    by (unfold validOffset, Day, msPerDay in *; floors).
  rewrite Hday, Z.add_0_r in H3, H4.
  exists st, e. rewrite H1, H2. repeat split; assumption.
Qed.

(** *** Selection mode *)

(** C9.  With the default property the component is in mode last7days after
    its first render, having announced a range; pressing a preset button
    selects that preset; editing either input selects custom; from custom the
    mode only changes when one of the four preset buttons is pressed; and
    custom is not one of the buttons: applying it is a no-op. *)
Theorem selection_mode (tza : Z) :
  (forall now,
      rangePreset (fst (mount tza now defaultRange_default)) = "last7days"%string /\
      exists range, snd (mount tza now defaultRange_default) = Some range) /\
  (forall s now value,
      In value (map snd presets) ->
      rangePreset (fst (step tza s (PresetClick now value))) = value) /\
  (forall s value,
      rangePreset (fst (step tza s (StartInput value))) = "custom"%string /\
      rangePreset (fst (step tza s (EndInput value))) = "custom"%string) /\
  (forall s e,
      rangePreset s = "custom"%string ->
      rangePreset (fst (step tza s e)) <> "custom"%string ->
      exists now value,
        e = PresetClick now value /\ In value (map snd presets) /\
        rangePreset (fst (step tza s e)) = value) /\
  (forall s now, applyPreset tza now "custom" s = (s, None)) /\
  ~ In "custom"%string (map snd presets).
Proof.
  split; [| split; [| split; [| split; [| split]]]].
  - intro now. split; [reflexivity | eexists; reflexivity].
  - intros s now value Hin. simpl in Hin.
    destruct Hin as [<- | [<- | [<- | [<- | []]]]]; reflexivity.
  - intros s value. split; reflexivity.
  - intros s e Hs Hne. destruct e as [now value | value | value].
    + exists now, value. split; [reflexivity |].
      revert Hne. simpl. unfold applyPreset. cbv zeta.
      destruct (String.eqb_spec value "last7days") as [-> | N1].
      { intros _. split; [simpl; tauto | reflexivity]. }
      destruct (String.eqb_spec value "last30days") as [-> | N2].
      { intros _. split; [simpl; tauto | reflexivity]. }
      destruct (String.eqb_spec value "last90days") as [-> | N3].
      { intros _. split; [simpl; tauto | reflexivity]. }
      destruct (String.eqb_spec value "ytd") as [-> | N4].
      { intros _. split; [simpl; tauto | reflexivity]. }
      simpl. intro Hne. contradiction.
    + simpl in Hne. contradiction.
    + simpl in Hne. contradiction.
  - intros s now. reflexivity.
  - simpl. intros [H | [H | [H | [H | []]]]]; discriminate H.
Qed.

(** Configured with [defaultRange="custom"] the effect does nothing: the
    component starts in custom mode on the unnormalised initial range. *)
Example mount_custom (tza now : Z) :
  mount tza now "custom" = (initialState tza now "custom", None).
Proof. reflexivity. Qed.

Lemma selection_mode_witness :
  rangePreset
    (fst (step 0 (fst (step 0 (fst (mount 0 1710084600000 defaultRange_default))
                         (StartInput "2024-03-01")))
               (PresetClick 1710084600000 "ytd"))) = "ytd"%string.
Proof.
  apply (proj1 (proj2 (selection_mode 0))). simpl. tauto.
Defined.

End DateRangePickerFacts.

(** ** The presets under a time zone, the clock read twice *)

Module ZonedPickerFacts.
Import JsDate DateRangePicker JsDateFacts.
Import TimeZone ZonedPicker ZoneSpec.
Local Open Scope Z_scope.

(** *** The fixed-offset operations are the zoned ones at a fixed zone *)

Lemma fixed_setHours (tza h m s ms : Z) (d : Date) :
  TimeZone.setHours (fixed tza) h m s ms d = JsDate.setHours tza h m s ms d.
Proof.
  unfold TimeZone.setHours, JsDate.setHours, TimeZone.LocalTime,
    JsDate.LocalTime, TimeZone.UTC, JsDate.UTC, fixed.
  reflexivity.
Qed.

Lemma fixed_setDate (tza : Z) (date : Num) (d : Date) :
  TimeZone.setDate (fixed tza) date d = JsDate.setDate tza date d.
Proof.
  unfold TimeZone.setDate, JsDate.setDate, TimeZone.LocalTime,
    JsDate.LocalTime, TimeZone.UTC, JsDate.UTC, fixed.
  reflexivity.
Qed.

Lemma fixed_getDate (tza : Z) (d : Date) :
  TimeZone.getDate (fixed tza) d = JsDate.getDate tza d.
Proof.
  unfold TimeZone.getDate, JsDate.getDate, TimeZone.LocalTime,
    JsDate.LocalTime, fixed.
  reflexivity.
Qed.

Lemma fixed_getFullYear (tza : Z) (d : Date) :
  TimeZone.getFullYear (fixed tza) d = JsDate.getFullYear tza d.
Proof.
  unfold TimeZone.getFullYear, JsDate.getFullYear, TimeZone.LocalTime,
    JsDate.LocalTime, fixed.
  reflexivity.
Qed.

Lemma fixed_Date_ymd (tza : Z) (y m d : Num) :
  TimeZone.Date_ymd (fixed tza) y m d = JsDate.Date_ymd tza y m d.
Proof.
  unfold TimeZone.Date_ymd, JsDate.Date_ymd, TimeZone.UTC, JsDate.UTC, fixed.
  reflexivity.
Qed.

(** With one reading of the clock and a fixed offset, [applyPreset] is the
    function of [DateRangePicker]. *)
Lemma fixed_applyPreset (tza now : Z) (preset : string) (s : State) :
  ZonedPicker.applyPreset (fixed tza) now now preset s
  = DateRangePicker.applyPreset tza now preset s.
Proof.
  unfold ZonedPicker.applyPreset, DateRangePicker.applyPreset. cbv zeta.
  rewrite !fixed_setHours, !fixed_getDate, !fixed_setDate, !fixed_getFullYear,
    !fixed_Date_ymd.
  reflexivity.
Qed.

(** So it is when the two readings fall on the same local day. *)
Lemma fixed_applyPreset_sameDay (tza nowToday nowStart : Z) (preset : string)
      (s : State) :
  localDay (fixed tza) nowStart = localDay (fixed tza) nowToday ->
  ZonedPicker.applyPreset (fixed tza) nowToday nowStart preset s
  = DateRangePicker.applyPreset tza nowToday preset s.
Proof.
  intro E. rewrite <- fixed_applyPreset.
  unfold ZonedPicker.applyPreset. cbv zeta.
  assert (S0 : TimeZone.setHours (fixed tza) 0 0 0 0 (Date_now nowStart)
               = TimeZone.setHours (fixed tza) 0 0 0 0 (Date_now nowToday)).
  { unfold TimeZone.setHours, Date_now. cbv zeta.
    unfold localDay in E. rewrite E. reflexivity. }
  rewrite S0. reflexivity.
Qed.

Lemma fixed_valid (tza : Z) :
  - msPerDay < tza < msPerDay -> validZone (fixed tza).
Proof. intros H t u b b'. unfold fixed, msPerDay in *. lia. Qed.

Lemma oneChange_valid (change before after : Z) :
  - msPerDay < before < msPerDay -> - msPerDay < after < msPerDay ->
  Z.abs (after - before) < msPerDay ->
  validZone (oneChange change before after).
Proof.
  intros Hb Ha Hd t u b b'. unfold oneChange, msPerDay in *.
  destruct b, b';
    repeat match goal with
           | |- context [if ?c then _ else _] => destruct c
           end; lia.
Qed.

(** *** The operations of [applyPreset] *)

Section Zone.
Variable z : Z -> bool -> Z.
Hypothesis Hz : validZone z.

Lemma offset_range (t : Z) (isUTC : bool) :
  - msPerDay < z t isUTC < msPerDay.
Proof. exact (proj1 (Hz t t isUTC isUTC)). Qed.

Lemma offset_variation (t u : Z) (isUTC isUTC' : bool) :
  z t isUTC - z u isUTC' < msPerDay.
Proof. exact (proj2 (Hz t u isUTC isUTC')). Qed.

Lemma zoned_localDay_range (now : Z) :
  clockReading now ->
  -1 <= localDay z now /\
  now - 2 * msPerDay < localDay z now * msPerDay < now + msPerDay.
Proof.
  unfold clockReading, localDay, LocalTime. intro Hnow.
  generalize (Day_bounds (now + z now true)), (offset_range now true).
  generalize (Day (now + z now true)). unfold msPerDay, maxTime in *.
  intros d Hd Ho. lia.
Qed.

Lemma UTC_range (t : Z) : t - msPerDay < UTC z t < t + msPerDay.
Proof. unfold UTC. generalize (offset_range t false). lia. Qed.

(** [today.setHours(23, 59, 59, 999)] *)
Lemma zoned_endOfToday (now : Z) :
  clockReading now ->
  TimeZone.setHours z 23 59 59 999 (Date_now now)
  = Some (UTC z (MakeDate (localDay z now) (MakeTime 23 59 59 999))).
Proof.
  intro Hnow. unfold TimeZone.setHours, Date_now. cbv zeta.
  fold (localDay z now). apply TimeClip_in_range.
  destruct (zoned_localDay_range now Hnow) as [_ Hd].
  generalize (UTC_range (MakeDate (localDay z now) (MakeTime 23 59 59 999))).
  unfold clockReading in Hnow.
  unfold MakeDate, MakeTime, msPerHour, msPerMinute, msPerSecond, msPerDay,
    maxTime in *.
  lia.
Qed.

(** [start.setHours(0, 0, 0, 0)] *)
Lemma zoned_startOfToday (now : Z) :
  clockReading now ->
  TimeZone.setHours z 0 0 0 0 (Date_now now)
  = Some (UTC z (MakeDate (localDay z now) 0)).
Proof.
  intro Hnow. unfold TimeZone.setHours, Date_now. cbv zeta.
  fold (localDay z now). change (MakeTime 0 0 0 0) with 0.
  apply TimeClip_in_range.
  destruct (zoned_localDay_range now Hnow) as [_ Hd].
  generalize (UTC_range (MakeDate (localDay z now) 0)).
  unfold clockReading in Hnow.
  unfold MakeDate, msPerDay, maxTime in *.
  lia.
Qed.


Lemma endOfDay_range : 0 <= MakeTime 23 59 59 999 < msPerDay.
Proof. vm_compute. split; congruence. Qed.

Lemma startOfDay_range : 0 <= 0 < msPerDay.
Proof. vm_compute. split; congruence. Qed.

(** [start.setDate(today.getDate() - n)], both dates on the local day [D]:
    [n] days before [D], at the time of day of [start]. *)
Lemma daysBefore (now D n : Z) :
  clockReading now -> D = localDay z now -> 0 <= n <= 90 ->
  keepsDay z (MakeDate D (MakeTime 23 59 59 999)) ->
  keepsDay z (MakeDate D 0) ->
  TimeZone.setDate z
    (minus (TimeZone.getDate z
              (Some (UTC z (MakeDate D (MakeTime 23 59 59 999))))) n)
    (Some (UTC z (MakeDate D 0)))
  = Some (UTC z (MakeDate (D - n)
                   (TimeWithinDay (LocalTime z (UTC z (MakeDate D 0)))))).
Proof.
  intros Hnow HD Hn Ke Ks.
  unfold TimeZone.setDate, TimeZone.getDate, minus. cbv zeta.
  unfold keepsDay in Ke, Ks.
  rewrite Day_MakeDate in Ke by exact endOfDay_range.
  rewrite Day_MakeDate in Ks by exact startOfDay_range.
  assert (Hday : Day (LocalTime z (UTC z (MakeDate D (MakeTime 23 59 59 999))))
                 = Day (LocalTime z (UTC z (MakeDate D 0))))
    by congruence.
  rewrite (DateFromTime_Day _ _ Hday).
  replace (DateFromTime (LocalTime z (UTC z (MakeDate D 0))) - n)
    with (DateFromTime (LocalTime z (UTC z (MakeDate D 0))) + - n) by lia.
  rewrite MakeDay_fields, Ks.
  replace (D + - n) with (D - n) by lia.
  apply TimeClip_in_range.
  set (r := TimeWithinDay (LocalTime z (UTC z (MakeDate D 0)))).
  assert (Hr : 0 <= r < msPerDay)
    by (unfold r, TimeWithinDay; apply Z.mod_pos_bound; reflexivity).
  destruct (zoned_localDay_range now Hnow) as [_ Hd]. rewrite <- HD in Hd.
  generalize (UTC_range (MakeDate (D - n) r)).
  unfold clockReading in Hnow.
  unfold MakeDate, msPerDay, maxTime in *.
  lia.
Qed.

Lemma zoned_localYear_recent (now : Z) :
  clockReading now -> 1969 <= YearFromTime (LocalTime z now).
Proof.
  intro Hnow. destruct (zoned_localDay_range now Hnow) as [Hd _].
  destruct (YearFromTime_spec (LocalTime z now)) as [_ Hhi].
  unfold localDay in Hd.
  destruct (Z.le_gt_cases 1969 (YearFromTime (LocalTime z now)))
    as [Hle | Hgt]; [assumption | exfalso].
  generalize (DayFromYear_mono (YearFromTime (LocalTime z now) + 1) 1969).
  change (DayFromYear 1969) with (-365). lia.
Qed.

Lemma MakeDay_newYear (y : Z) : MakeDay y 0 1 = DayFromYear y.
Proof.
  unfold MakeDay. cbv zeta. change (0 / 12) with 0. change (0 mod 12) with 0.
  unfold firstDayOfMonth. cbv zeta iota.
  replace (y + 0) with y by lia. lia.
Qed.

Lemma DaysInYear_range (y : Z) : 365 <= DaysInYear y <= 366.
Proof.
  unfold DaysInYear.
  repeat match goal with
         | |- context [if ?b then _ else _] => destruct b
         end; lia.
Qed.

(** January 1 of the local year of [now] is at most 365 days back. *)
Lemma newYear_range (now : Z) :
  localDay z now - 365
  <= MakeDay (YearFromTime (LocalTime z now)) 0 1 <= localDay z now.
Proof.
  rewrite MakeDay_newYear.
  destruct (YearFromTime_spec (LocalTime z now)) as [Hlo Hhi].
  rewrite DayFromYear_next in Hhi.
  generalize (DaysInYear_range (YearFromTime (LocalTime z now))).
  unfold localDay. lia.
Qed.

(** [new Date(today.getFullYear(), 0, 1)] *)
Lemma zoned_firstOfYear (now D : Z) :
  clockReading now -> D = localDay z now ->
  keepsDay z (MakeDate D (MakeTime 23 59 59 999)) ->
  TimeZone.Date_ymd z
    (TimeZone.getFullYear z
       (Some (UTC z (MakeDate D (MakeTime 23 59 59 999)))))
    (Some 0) (Some 1)
  = Some (UTC z (MakeDate (MakeDay (YearFromTime (LocalTime z now)) 0 1) 0)).
Proof.
  intros Hnow HD Ke. unfold TimeZone.Date_ymd, TimeZone.getFullYear. cbv zeta.
  unfold keepsDay in Ke. rewrite Day_MakeDate in Ke by exact endOfDay_range.
  assert (Hday : Day (LocalTime z (UTC z (MakeDate D (MakeTime 23 59 59 999))))
                 = Day (LocalTime z now))
    by (rewrite Ke, HD; reflexivity).
  rewrite (YearFromTime_Day _ _ Hday).
  assert (Hy := zoned_localYear_recent now Hnow).
  unfold MakeFullYear.
  destruct (Z.leb_spec (YearFromTime (LocalTime z now)) 99); [lia |].
  rewrite andb_false_r. change (MakeTime 0 0 0 0) with 0.
  apply TimeClip_in_range.
  destruct (zoned_localDay_range now Hnow) as [_ Hd].
  generalize (newYear_range now).
  generalize (UTC_range
                (MakeDate (MakeDay (YearFromTime (LocalTime z now)) 0 1) 0)).
  generalize (MakeDay (YearFromTime (LocalTime z now)) 0 1).
  unfold clockReading in Hnow.
  unfold MakeDate, msPerDay, maxTime in *.
  lia.
Qed.

(** The three day-count presets, resolved. *)
Lemma zoned_applyPreset_days (nowToday nowStart n : Z) (preset : string) (s : State) :
  clockReading nowToday -> clockReading nowStart ->
  localDay z nowStart = localDay z nowToday ->
  keepsDay z (MakeDate (localDay z nowToday) (MakeTime 23 59 59 999)) ->
  keepsDay z (MakeDate (localDay z nowToday) 0) ->
  (preset = "last7days"%string /\ n = 7 \/
   preset = "last30days"%string /\ n = 30 \/
   preset = "last90days"%string /\ n = 90) ->
  resolved z nowToday nowStart preset s
    (UTC z (MakeDate (localDay z nowToday - n)
              (TimeWithinDay
                 (LocalTime z (UTC z (MakeDate (localDay z nowToday) 0))))))
    (UTC z (MakeDate (localDay z nowToday) (MakeTime 23 59 59 999))).
Proof.
  intros Hnow Hnow' Hsame Ke Ks Hp. unfold resolved, ZonedPicker.applyPreset.
  cbv zeta.
  rewrite (zoned_endOfToday nowToday Hnow), (zoned_startOfToday nowStart Hnow'), Hsame.
  destruct Hp as [[-> ->] | [[-> ->] | [-> ->]]];
    cbn [String.eqb Ascii.eqb Bool.eqb];
    rewrite (daysBefore nowToday (localDay z nowToday))
      by (assumption || reflexivity || lia);
    reflexivity.
Qed.

Lemma zoned_applyPreset_ytd (nowToday nowStart : Z) (s : State) :
  clockReading nowToday -> clockReading nowStart ->
  keepsDay z (MakeDate (localDay z nowToday) (MakeTime 23 59 59 999)) ->
  resolved z nowToday nowStart "ytd" s
    (UTC z (MakeDate (MakeDay (YearFromTime (LocalTime z nowToday)) 0 1) 0))
    (UTC z (MakeDate (localDay z nowToday) (MakeTime 23 59 59 999))).
Proof.
  intros Hnow Hnow' Ke. unfold resolved, ZonedPicker.applyPreset. cbv zeta.
  rewrite (zoned_endOfToday nowToday Hnow), (zoned_startOfToday nowStart Hnow').
  cbn [String.eqb Ascii.eqb Bool.eqb].
  rewrite (zoned_firstOfYear nowToday (localDay z nowToday))
    by (assumption || reflexivity).
  reflexivity.
Qed.

End Zone.



(** X30.  In every time zone, whenever the two readings of the clock fall
    on the same local day, and today's first and last millisecond are read
    on today, each of the four presets resolves to a range whose start is
    not after its end. *)
Theorem preset_start_before_end_zoned (z : Z -> bool -> Z)
        (nowToday nowStart : Z) (preset : string) (s : State) :
  validZone z -> clockReading nowToday -> clockReading nowStart ->
  localDay z nowStart = localDay z nowToday ->
  keepsDay z (MakeDate (localDay z nowToday) (MakeTime 23 59 59 999)) ->
  keepsDay z (MakeDate (localDay z nowToday) (MakeTime 0 0 0 0)) ->
  In preset (map snd presets) ->
  exists st e, resolved z nowToday nowStart preset s st e /\ st <= e.
Proof.
  intros Hz Hnow Hnow' Hsame Ke Ks Hin.
  change (MakeTime 0 0 0 0) with 0 in *.
  set (r := TimeWithinDay
              (LocalTime z (UTC z (MakeDate (localDay z nowToday) 0)))).
  assert (Hr : 0 <= r < msPerDay)
    by (unfold r, TimeWithinDay; apply Z.mod_pos_bound; reflexivity).
  assert (Hdays : forall n p,
             7 <= n ->
             (p = "last7days"%string /\ n = 7 \/
              p = "last30days"%string /\ n = 30 \/
              p = "last90days"%string /\ n = 90) ->
             exists st e, resolved z nowToday nowStart p s st e /\ st <= e).
  { intros n p Hn Hp. eexists; eexists.
    split; [apply (zoned_applyPreset_days z Hz nowToday nowStart n); assumption |].
    fold r. unfold UTC.
    generalize (offset_variation z Hz
                  (MakeDate (localDay z nowToday) (MakeTime 23 59 59 999))
                  (MakeDate (localDay z nowToday - n) r) false false).
    unfold MakeDate, MakeTime, msPerHour, msPerMinute, msPerSecond,
      msPerDay in *.
    lia. }
  simpl in Hin. destruct Hin as [<- | [<- | [<- | [<- | []]]]].
  - apply (Hdays 7); [lia | tauto].
  - apply (Hdays 30); [lia | tauto].
  - apply (Hdays 90); [lia | tauto].
  - eexists; eexists.
    split; [apply (zoned_applyPreset_ytd z Hz nowToday nowStart); assumption |].
    unfold UTC.
    generalize (newYear_range z nowToday).
    generalize (offset_variation z Hz
                  (MakeDate (localDay z nowToday) (MakeTime 23 59 59 999))
                  (MakeDate (MakeDay (YearFromTime (LocalTime z nowToday)) 0 1)
                            0) false false).
    generalize (MakeDay (YearFromTime (LocalTime z nowToday)) 0 1).
    unfold MakeDate, MakeTime, msPerHour, msPerMinute, msPerSecond,
      msPerDay in *.
    lia.
Qed.

(** New York on 10 March 2024, the day the clocks go forward: the range of
    last7days runs from 3 March 00:00 EST to 10 March 23:59:59.999 EDT, eight
    calendar days that last an hour less than 8 times 24 h. *)
Example last7days_across_clock_change :
  fst (ZonedPicker.applyPreset newYork2024 1710084600000 1710084600001
         "last7days" (initialState 0 1710084600000 "last7days"))
  = {| startDate := Some 1709442000000;
       endDate := Some 1710129599999;
       rangePreset := "last7days" |}
  /\ LocalTime newYork2024 1709442000000 = MakeDate (MakeDay 2024 2 3) 0
  /\ LocalTime newYork2024 1710129599999
     = MakeDate (MakeDay 2024 2 10) (MakeTime 23 59 59 999)
  /\ 1710129599999 - 1709442000000 + 1 = 8 * msPerDay - msPerHour.
Proof. repeat split; vm_compute; reflexivity. Qed.


Lemma preset_start_before_end_zoned_witness :
  exists st e,
    resolved newYork2024 1710084600000 1710084600001 "ytd"
      (initialState 0 1710084600000 "last7days") st e /\ st <= e.
Proof.
  apply (preset_start_before_end_zoned newYork2024 1710084600000 1710084600001).
  - intros t u b b'. unfold newYork2024, oneChange, msPerDay.
    destruct b, b';
      repeat match goal with
             | |- context [if ?c then _ else _] => destruct c
             end; lia.
  - unfold clockReading, maxTime, msPerDay. lia.
  - unfold clockReading, maxTime, msPerDay. lia.
  - reflexivity.
  - reflexivity.
  - reflexivity.
  - simpl. tauto.
Defined.

(** Havana on 17 March 2024: the day seven days back has no midnight (the
    clocks go from 00:00 to 01:00 on 10 March), and last7days starts at
    01:00:00.000 of it. *)
Example last7days_onto_skipped_midnight :
  fst (ZonedPicker.applyPreset havana2024 1710691200000 1710691200000
         "last7days" (initialState 0 1710691200000 "last7days"))
  = {| startDate := Some 1710046800000;
       endDate := Some 1710734399999;
       rangePreset := "last7days" |}
  /\ localDay havana2024 1710691200000 = MakeDay 2024 2 17
  /\ LocalTime havana2024 1710046800000
     = MakeDate (MakeDay 2024 2 10) (MakeTime 1 0 0 0).
Proof. repeat split; vm_compute; reflexivity. Qed.


(** C5.  With the clock read at 23:59:59.999 for [today] and at
    00:00:00.000 for [start], either side of the midnight that ends
    31 January 2024 (UTC), last7days resolves to a range from 24 February to
    31 January and last30days to a range from 1 February to 31 January: the
    start is after the end. *)
Theorem preset_start_after_end :
  (exists st e,
      resolved (fixed 0) 1706745599999 1706745600000 "last7days"
        (initialState 0 1706745599999 "last7days") st e /\ e < st) /\
  (exists st e,
      resolved (fixed 0) 1706745599999 1706745600000 "last30days"
        (initialState 0 1706745599999 "last7days") st e /\ e < st).
Proof.
  split.
  - exists 1708732800000, 1706745599999. split; [reflexivity | lia].
  - exists 1706745600000, 1706745599999. split; [reflexivity | lia].
Qed.

End ZonedPickerFacts.

(** ** Further laws of the scorer, in exact arithmetic *)

Module ScorerLaws.
Import Volatility Database Spec ScorerSpec VolatilityFacts.
Local Open Scope R_scope.

Lemma total_affine (a b : R) (xs : list R) :
  total (map (fun x => a * x + b) xs) = a * total xs + INR (length xs) * b.
Proof.
  induction xs as [| x xs IH].
  - simpl. lra.
  - cbn [map total length]. rewrite IH, S_INR. lra.
Qed.

Lemma total_le (f g : R -> R) (xs : list R) :
  Forall (fun x => f x <= g x) xs -> total (map f xs) <= total (map g xs).
Proof.
  induction 1 as [| x xs Hx _ IH]; simpl; lra.
Qed.

Lemma total_ext (f g : R -> R) (xs : list R) :
  Forall (fun x => f x = g x) xs -> total (map f xs) = total (map g xs).
Proof.
  induction 1 as [| x xs Hx _ IH]; simpl; [reflexivity | rewrite Hx, IH; reflexivity].
Qed.

Lemma total_nonneg (xs : list R) : Forall (fun x => 0 <= x) xs -> 0 <= total xs.
Proof. induction 1; simpl; lra. Qed.

Lemma total_zero (xs : list R) :
  Forall (fun x => 0 <= x) xs -> total xs = 0 -> Forall (fun x => x = 0) xs.
Proof.
  induction 1 as [| x xs Hx Hxs IH]; simpl; intro E; constructor.
  - generalize (total_nonneg xs Hxs). lra.
  - apply IH. generalize (total_nonneg xs Hxs). lra.
Qed.

Lemma length_pos (xs : list R) : (2 <= length xs)%nat -> 0 < INR (length xs).
Proof. intro H. apply lt_0_INR. lia. Qed.

Lemma total_mean (xs : list R) :
  (2 <= length xs)%nat -> total xs = INR (length xs) * arithmeticMean xs.
Proof.
  intro H. unfold arithmeticMean. generalize (length_pos xs H). intro. field. lra.
Qed.

Lemma populationVariance_nonneg (xs : list R) :
  (2 <= length xs)%nat -> 0 <= populationVariance xs.
Proof.
  intro H. unfold populationVariance.
  apply Rmult_le_pos.
  - apply total_nonneg. apply Forall_forall. intros y Hy.
    apply in_map_iff in Hy. destruct Hy as (x & <- & _). apply Rle_0_sqr.
  - left. apply Rinv_0_lt_compat, length_pos, H.
Qed.

Lemma mean_shift (c : R) (xs : list R) :
  (2 <= length xs)%nat ->
  arithmeticMean (map (fun x => x + c) xs) = arithmeticMean xs + c.
Proof.
  intro H. unfold arithmeticMean. rewrite length_map.
  rewrite (total_ext (fun x => x + c) (fun x => 1 * x + c))
    by (apply Forall_forall; intros; lra).
  rewrite total_affine. generalize (length_pos xs H). intro. field. lra.
Qed.

Lemma mean_scale (k : R) (xs : list R) :
  (2 <= length xs)%nat ->
  arithmeticMean (map (fun x => k * x) xs) = k * arithmeticMean xs.
Proof.
  intro H. unfold arithmeticMean. rewrite length_map.
  rewrite (total_ext (fun x => k * x) (fun x => k * x + 0))
    by (apply Forall_forall; intros; lra).
  rewrite total_affine. generalize (length_pos xs H). intro. field. lra.
Qed.

(** X1.  Adding the same constant to every reading (Celsius to Kelvin, say)
    leaves [calculateVolatility] unchanged. *)
Theorem calculateVolatility_shift (c : R) (xs : list R) :
  calculateVolatility (map (fun x => x + c) xs) = calculateVolatility xs.
Proof.
  rewrite !calculateVolatility_real, length_map.
  destruct (Nat.ltb_spec (length xs) 2) as [| H]; [reflexivity |].
  unfold populationStdDev, populationVariance.
  rewrite length_map, map_map, (mean_shift c xs H).
  f_equal. f_equal. apply total_ext, Forall_forall. intros x _.
  f_equal. lra.
Qed.

(** X2.  Multiplying every reading by [k] (a change of unit) multiplies
    [calculateVolatility] by the absolute value of [k]. *)
Theorem calculateVolatility_scale (k : R) (xs : list R) :
  calculateVolatility (map (fun x => k * x) xs)
  = Rabs k * calculateVolatility xs.
Proof.
  rewrite !calculateVolatility_real, length_map.
  destruct (Nat.ltb_spec (length xs) 2) as [| H]; [lra |].
  unfold populationStdDev.
  assert (E : populationVariance (map (fun x => k * x) xs)
              = Rsqr k * populationVariance xs).
  { unfold populationVariance.
    rewrite length_map, map_map, (mean_scale k xs H).
    rewrite (total_ext (fun x => Rsqr (k * x - k * arithmeticMean xs))
                       (fun x => Rsqr k * Rsqr (x - arithmeticMean xs) + 0))
      by (apply Forall_forall; intros; unfold Rsqr; lra).
    rewrite <- (map_map (fun x => Rsqr (x - arithmeticMean xs))
                        (fun y => Rsqr k * y + 0)).
    rewrite total_affine. unfold Rdiv. lra. }
  rewrite E, sqrt_mult_alt by apply Rle_0_sqr.
  rewrite sqrt_Rsqr_abs. reflexivity.
Qed.

(** X3.  With two readings or more, [calculateVolatility] is zero exactly
    when all readings are equal. *)
Theorem calculateVolatility_zero_iff (xs : list R) :
  (2 <= length xs)%nat ->
  (calculateVolatility xs = 0 <->
   forall x y, In x xs -> In y xs -> x = y).
Proof.
  intro H. rewrite calculateVolatility_real.
  destruct (Nat.ltb_spec (length xs) 2) as [| _]; [lia |].
  unfold populationStdDev. split.
  - intro E. apply sqrt_eq_0 in E; [| apply populationVariance_nonneg, H].
    assert (Q : total (map (fun x => Rsqr (x - arithmeticMean xs)) xs) = 0).
    { unfold populationVariance in E. generalize (length_pos xs H). intro Hp.
      apply Rmult_integral in E. destruct E as [E | E]; [exact E |].
      generalize (Rinv_0_lt_compat _ Hp). lra. }
    apply total_zero in Q.
    + assert (M : forall x, In x xs -> x = arithmeticMean xs).
      { intros x Hx. rewrite Forall_forall in Q.
        specialize (Q (Rsqr (x - arithmeticMean xs))
                      (in_map (fun x => Rsqr (x - arithmeticMean xs)) xs x Hx)).
        apply Rsqr_0_uniq in Q. lra. }
      intros x y Hx Hy. rewrite (M x Hx), (M y Hy). reflexivity.
    + apply Forall_forall. intros y Hy. apply in_map_iff in Hy.
      destruct Hy as (x & <- & _). apply Rle_0_sqr.
  - intro Hall.
    destruct xs as [| c rest]; [simpl in H; lia |].
    assert (C : Forall (fun x => x = c) (c :: rest)).
    { apply Forall_forall. intros x Hx. apply Hall; [exact Hx | left; reflexivity]. }
    assert (T : total (c :: rest) = INR (length (c :: rest)) * c).
    { rewrite <- (map_id (c :: rest)) at 1.
      rewrite (total_ext (fun x => x) (fun x => 0 * x + c))
        by (revert C; apply Forall_impl; intros; lra).
      rewrite total_affine. lra. }
    assert (M : arithmeticMean (c :: rest) = c).
    { unfold arithmeticMean. rewrite T.
      generalize (length_pos (c :: rest) H). intro. field. lra. }
    unfold populationVariance. rewrite M.
    rewrite (total_ext (fun x => Rsqr (x - c)) (fun x => 0 * x + 0))
      by (revert C; apply Forall_impl; intros x ->; unfold Rsqr; lra).
    rewrite total_affine.
    replace ((0 * total (c :: rest) + INR (length (c :: rest)) * 0)
             / INR (length (c :: rest))) with 0
      by (unfold Rdiv; lra).
    apply sqrt_0.
Qed.

Lemma calculateVolatility_zero_iff_witness :
  calculateVolatility [20; 20; 20] = 0.
Proof.
  apply (proj2 (calculateVolatility_zero_iff [20; 20; 20]
                  ltac:(simpl; lia))).
  simpl. intros x y [<- | [<- | [<- | []]]] [<- | [<- | [<- | []]]]; reflexivity.
Defined.

(** Popoviciu's bound on the variance. *)
Lemma variance_half_range (lo hi : R) (xs : list R) :
  (2 <= length xs)%nat ->
  lo <= hi -> Forall (fun x => lo <= x <= hi) xs ->
  populationVariance xs <= Rsqr ((hi - lo) / 2).
Proof.
  intros H Hlh Hin.
  set (m := arithmeticMean xs). set (n := INR (length xs)).
  assert (Hn : 0 < n) by (apply length_pos, H).
  assert (Hm : lo <= m <= hi).
  { assert (Lo : total (map (fun x => 0 * x + lo) xs) <= total (map (fun x => x) xs))
      by (apply total_le; revert Hin; apply Forall_impl; intros; lra).
    assert (Hi : total (map (fun x => x) xs) <= total (map (fun x => 0 * x + hi) xs))
      by (apply total_le; revert Hin; apply Forall_impl; intros; lra).
    rewrite total_affine in Lo, Hi. rewrite map_id in Lo, Hi.
    rewrite (total_mean xs H) in Lo, Hi. fold m n in Lo, Hi.
    split; nra. }
  assert (Q : total (map (fun x => Rsqr (x - m)) xs) <= n * ((hi - m) * (m - lo))).
  { assert (P : total (map (fun x => Rsqr (x - m)) xs)
                <= total (map (fun x => (hi + lo - 2 * m) * x
                                        + (m * m - hi * lo)) xs)).
    { apply total_le. revert Hin. apply Forall_impl. intros x Hx.
      unfold Rsqr. nra. }
    rewrite total_affine, (total_mean xs H) in P. fold m n in P. nra. }
  unfold populationVariance. fold m n.
  { apply Rle_trans with ((hi - m) * (m - lo)).
    - apply Rmult_le_reg_l with n; [exact Hn |].
      replace (n * (total (map (fun x => Rsqr (x - m)) xs) / n))
        with (total (map (fun x => Rsqr (x - m)) xs)) by (field; lra).
      exact Q.
    - replace (Rsqr ((hi - lo) / 2))
        with ((hi - m) * (m - lo) + Rsqr (m - (hi + lo) / 2))
        by (unfold Rsqr; field).
      generalize (Rle_0_sqr (m - (hi + lo) / 2)). lra. }
Qed.

Lemma stdDev_half_range (lo hi : R) (xs : list R) :
  (2 <= length xs)%nat ->
  lo <= hi -> Forall (fun x => lo <= x <= hi) xs ->
  populationStdDev xs <= (hi - lo) / 2.
Proof.
  intros H Hlh Hin. unfold populationStdDev.
  rewrite <- (sqrt_Rsqr ((hi - lo) / 2)) by lra.
  apply sqrt_le_1_alt, variance_half_range; assumption.
Qed.

(** X4.  Readings that all lie between [lo] and [hi] have a
    [calculateVolatility] of at most half the width [hi - lo]. *)
Theorem calculateVolatility_half_range (lo hi : R) (xs : list R) :
  lo <= hi -> Forall (fun x => lo <= x <= hi) xs ->
  calculateVolatility xs <= (hi - lo) / 2.
Proof.
  intros Hlh Hin. rewrite calculateVolatility_real.
  destruct (Nat.ltb_spec (length xs) 2) as [| H]; [lra |].
  apply stdDev_half_range; assumption.
Qed.

Lemma calculateVolatility_half_range_witness :
  calculateVolatility [950; 1050; 1000] <= (1050 - 950) / 2.
Proof.
  apply calculateVolatility_half_range; [lra |].
  repeat constructor; lra.
Defined.

Lemma contribution_half_width (w W : R) (m : option (list R)) :
  0 <= w -> 0 <= W -> withinWidth W m -> contribution w m <= w * (W / 2).
Proof.
  intros Hw HW Hm. unfold contribution.
  destruct m as [xs |]; [| nra].
  destruct Hm as (lo & hi & Hlh & Hwd & Hin).
  destruct (Nat.leb_spec 2 (length xs)) as [H | H]; [| nra].
  generalize (stdDev_half_range lo hi xs H Hlh Hin). nra.
Qed.

(** X5.  When the samples of every metric given lie in an interval of width
    at most [W] (each metric in its own), the score is at most [W / 2]: the
    weights add up to 1. *)
Theorem score_half_width (W : R) (m : Metrics R) :
  0 <= W ->
  withinWidth W (temperature m) -> withinWidth W (humidity m) ->
  withinWidth W (pressure m) -> withinWidth W (windSpeed m) ->
  calculateWeatherVolatility m <= W / 2.
Proof.
  intros HW Ht Hh Hp Hw. rewrite score_decomposition.
  generalize (contribution_half_width 0.4 W _ ltac:(lra) HW Ht).
  generalize (contribution_half_width 0.2 W _ ltac:(lra) HW Hh).
  generalize (contribution_half_width 0.2 W _ ltac:(lra) HW Hp).
  generalize (contribution_half_width 0.2 W _ ltac:(lra) HW Hw).
  lra.
Qed.

Lemma score_half_width_witness :
  calculateWeatherVolatility
    {| temperature := Some [18; 24; 21]; humidity := Some [40; 46];
       pressure := None; windSpeed := Some [3] |} <= 6 / 2.
Proof.
  apply score_half_width; [lra | | | exact I |].
  - exists 18, 24. split; [lra |]. split; [lra |]. repeat constructor; lra.
  - exists 40, 46. split; [lra |]. split; [lra |]. repeat constructor; lra.
  - exists 3, 3. split; [lra |]. split; [lra |]. repeat constructor; lra.
Defined.

(** X6.  When all four metrics carry the same array, the score is that
    array's [calculateVolatility]: the four weights add up to 1. *)
Theorem score_of_equal_metrics (xs : list R) :
  calculateWeatherVolatility
    {| temperature := Some xs; humidity := Some xs;
       pressure := Some xs; windSpeed := Some xs |}
  = calculateVolatility xs.
Proof.
  rewrite score_decomposition, calculateVolatility_real.
  cbn [temperature humidity pressure windSpeed contribution].
  destruct (Nat.leb_spec 2 (length xs)) as [H | H];
    destruct (Nat.ltb_spec (length xs) 2) as [H' | H']; try lia; lra.
Qed.

(** X7.  Leaving a metric out never raises the score. *)
Theorem score_drop_metric (m : Metrics R) :
  calculateWeatherVolatility
    {| temperature := None; humidity := humidity m;
       pressure := pressure m; windSpeed := windSpeed m |}
  <= calculateWeatherVolatility m /\
  calculateWeatherVolatility
    {| temperature := temperature m; humidity := None;
       pressure := pressure m; windSpeed := windSpeed m |}
  <= calculateWeatherVolatility m /\
  calculateWeatherVolatility
    {| temperature := temperature m; humidity := humidity m;
       pressure := None; windSpeed := windSpeed m |}
  <= calculateWeatherVolatility m /\
  calculateWeatherVolatility
    {| temperature := temperature m; humidity := humidity m;
       pressure := pressure m; windSpeed := None |}
  <= calculateWeatherVolatility m.
Proof.
  rewrite !score_decomposition.
  cbn [temperature humidity pressure windSpeed].
  generalize (contribution_nonneg 0.4 (temperature m) ltac:(lra)).
  generalize (contribution_nonneg 0.2 (humidity m) ltac:(lra)).
  generalize (contribution_nonneg 0.2 (pressure m) ltac:(lra)).
  generalize (contribution_nonneg 0.2 (windSpeed m) ltac:(lra)).
  cbn [contribution]. lra.
Qed.

Lemma filterNumbers_complete (f : WeatherReading R -> option R)
      (rows : list (WeatherReading R)) :
  Forall (fun r => f r <> None) rows ->
  Dashboard.filterNumbers (map f rows)
  = map (fun r => Analytics.orZero (f r)) rows.
Proof.
  induction 1 as [| r rows Hr _ IH]; [reflexivity |].
  cbn [map Dashboard.filterNumbers].
  destruct (f r) as [v |] eqn:E; [| congruence].
  cbn [isNaN RealNumber]. rewrite IH. f_equal.
  rewrite PagesFacts.orZero_real. reflexivity.
Qed.

(** X8.  On rows without a null in the four scored columns, the Dashboard
    and the Analytics page compute the same volatility. *)
Theorem pages_agree_without_nulls (rows : list (WeatherReading R)) :
  Forall complete rows ->
  Dashboard.fetchWeatherData (Some rows) = Analytics.volatility rows.
Proof.
  intro Hc.
  assert (Ht : Forall (fun r => temperature_c r <> None) rows)
    by (revert Hc; apply Forall_impl; unfold complete; tauto).
  assert (Hh : Forall (fun r => humidity_percent r <> None) rows)
    by (revert Hc; apply Forall_impl; unfold complete; tauto).
  assert (Hp : Forall (fun r => pressure_hpa r <> None) rows)
    by (revert Hc; apply Forall_impl; unfold complete; tauto).
  assert (Hw : Forall (fun r => wind_speed_ms r <> None) rows)
    by (revert Hc; apply Forall_impl; unfold complete; tauto).
  unfold Dashboard.fetchWeatherData, Analytics.volatility. cbv zeta.
  rewrite (filterNumbers_complete temperature_c rows Ht),
    (filterNumbers_complete humidity_percent rows Hh),
    (filterNumbers_complete pressure_hpa rows Hp),
    (filterNumbers_complete wind_speed_ms rows Hw).
  unfold Dashboard.orUndefined. rewrite !length_map.
  destruct rows as [| r1 [| r2 rows]]; [reflexivity | | reflexivity].
  cbn [length Nat.ltb Nat.leb map].
  unfold calculateWeatherVolatility. cbv zeta.
  rewrite !pushMetric_sparse by reflexivity. reflexivity.
Qed.

Lemma pages_agree_without_nulls_witness :
  Dashboard.fetchWeatherData (T := R)
    (Some [ {| temperature_c := Some 10; humidity_percent := Some 40;
               pressure_hpa := Some 1000; wind_speed_ms := Some 0 |};
            {| temperature_c := Some 20; humidity_percent := Some 60;
               pressure_hpa := Some 1010; wind_speed_ms := Some 4 |} ])
  = Analytics.volatility
      [ {| temperature_c := Some 10; humidity_percent := Some 40;
           pressure_hpa := Some 1000; wind_speed_ms := Some 0 |};
        {| temperature_c := Some 20; humidity_percent := Some 60;
           pressure_hpa := Some 1010; wind_speed_ms := Some 4 |} ].
Proof.
  apply pages_agree_without_nulls.
  repeat constructor; simpl; discriminate.
Defined.

End ScorerLaws.

(** ** The Dashboard's averages and its grouping by station *)

Module DashboardViewFacts.
Import Volatility Database JsObject DashboardView Spec VolatilityFacts.
Local Open Scope R_scope.

Lemma reduce_add_rows {A} (f : A -> R) (rows : list A) (a : R) :
  reduce (fun sum r => add sum (f r)) a rows = a + total (map f rows).
Proof.
  unfold reduce. revert a.
  induction rows as [| r rows IH]; intro a; simpl; [lra |].
  rewrite IH. lra.
Qed.

Lemma sumOf_total (col : Row R -> option R) (rows : list (Row R)) :
  sumOf col rows = total (Dashboard.filterNumbers (map col rows)).
Proof.
  unfold sumOf.
  rewrite (reduce_add_rows (fun r => Analytics.orZero (col r))).
  simpl (ofZ 0). rewrite Rplus_0_l.
  induction rows as [| r rows IH]; [reflexivity |].
  cbn [map total Dashboard.filterNumbers]. rewrite IH.
  rewrite PagesFacts.orZero_real.
  destruct (col r) as [v |]; cbn [isNaN RealNumber total]; lra.
Qed.

(** X9.  In exact arithmetic each average the Dashboard displays is the sum
    of the values present in the column divided by the number of all rows, a
    null counting as a reading of 0; without rows it is 0.  The precipitation
    is the sum of the values present.  The statistics of the WeatherData
    page are the same numbers. *)
Theorem metrics_count_nulls_as_zero (rows : list (Row R)) :
  temperature (metrics rows)
  = (if (0 <? length rows)%nat
     then total (Dashboard.filterNumbers
                   (map (fun r => temperature_c (reading r)) rows))
          / INR (length rows)
     else 0) /\
  humidity (metrics rows)
  = (if (0 <? length rows)%nat
     then total (Dashboard.filterNumbers
                   (map (fun r => humidity_percent (reading r)) rows))
          / INR (length rows)
     else 0) /\
  pressure (metrics rows)
  = (if (0 <? length rows)%nat
     then total (Dashboard.filterNumbers
                   (map (fun r => pressure_hpa (reading r)) rows))
          / INR (length rows)
     else 0) /\
  windSpeed (metrics rows)
  = (if (0 <? length rows)%nat
     then total (Dashboard.filterNumbers
                   (map (fun r => wind_speed_ms (reading r)) rows))
          / INR (length rows)
     else 0) /\
  precipitation (metrics rows)
  = total (Dashboard.filterNumbers (map precipitation_mm rows)) /\
  avgTemp (statistics rows) = temperature (metrics rows) /\
  avgHumidity (statistics rows) = humidity (metrics rows) /\
  totalPrecipitation (statistics rows) = precipitation (metrics rows).
Proof.
  unfold statistics, metrics, averageOf.
  cbn [temperature humidity pressure windSpeed precipitation
       avgTemp avgHumidity totalPrecipitation].
  rewrite !sumOf_total, !len_INR.
  repeat split; reflexivity.
Qed.


Local Open Scope string_scope.

Section Grouping.
Context {T : Type} `{JsNumber T}.

Lemma own_assign {V} (o : Obj V) (k name : string) (v : V) :
  own (assign o k v) name = if k =? name then Some v else own o name.
Proof.
  induction o as [| [k' v'] o IH]; cbn [assign own].
  - reflexivity.
  - destruct (String.eqb_spec k' k) as [-> | Hk]; cbn [own].
    + destruct (k =? name); reflexivity.
    + rewrite IH. destruct (String.eqb_spec k' name) as [-> | Hn].
      * destruct (String.eqb_spec k name) as [-> | _]; [congruence | reflexivity].
      * reflexivity.
Qed.

Lemma get_own {V} (o : Obj V) (k : string) :
  ~ In k inherited ->
  get o k = match own o k with Some v => Own v | None => Undefined end.
Proof.
  intro Hk. unfold get. destruct (own o k); [reflexivity |].
  destruct (existsb (String.eqb k) inherited) eqn:E; [| reflexivity].
  apply existsb_exists in E. destruct E as (k' & Hin & Heq).
  apply String.eqb_eq in Heq. subst k'. contradiction.
Qed.

Lemma get_inherited {V} (o : Obj V) (k : string) :
  In k inherited -> own o k = None -> get o k = Proto.
Proof.
  intros Hk Ho. unfold get. rewrite Ho.
  assert (E : existsb (String.eqb k) inherited = true).
  { apply existsb_exists. exists k. split; [exact Hk | apply String.eqb_refl]. }
  rewrite E. reflexivity.
Qed.

Lemma rowsOf_app (name : string) (done : list (Row T)) (r : Row T) :
  rowsOf name (done ++ [r])
  = if locationName r =? name
    then Some (match rowsOf name done with Some g => g ++ [r] | None => [r] end)%list
    else rowsOf name done.
Proof.
  unfold rowsOf. rewrite filter_app. cbn [filter].
  destruct (locationName r =? name).
  - destruct (filter (fun r0 => locationName r0 =? name) done); reflexivity.
  - rewrite app_nil_r. reflexivity.
Qed.

Lemma readingsByLocation_reducer (rows : list (Row T)) :
  readingsByLocation rows = fold_left reducer rows (Some []).
Proof. reflexivity. Qed.

Lemma reducer_groups (o : Obj (list (Row T))) (done : list (Row T)) (r : Row T) :
  (forall name, own o name = rowsOf name done) ->
  ~ In (locationName r) inherited ->
  exists o', reducer (Some o) r = Some o' /\
             forall name, own o' name = rowsOf name (done ++ [r]).
Proof.
  intros Inv Hr. unfold reducer. cbv zeta.
  rewrite (get_own o _ Hr).
  destruct (own o (locationName r)) as [g |] eqn:E.
  - rewrite (get_own o _ Hr), E.
    eexists. split; [reflexivity |].
    intro name. rewrite own_assign, rowsOf_app.
    destruct (String.eqb_spec (locationName r) name) as [<- | _];
      [| apply Inv].
    rewrite <- Inv, E. reflexivity.
  - rewrite (get_own _ _ Hr), own_assign, String.eqb_refl.
    eexists. split; [reflexivity |].
    intro name. rewrite !own_assign, rowsOf_app.
    destruct (String.eqb_spec (locationName r) name) as [<- | _];
      [| apply Inv].
    rewrite <- Inv, E. reflexivity.
Qed.

Lemma fold_groups (rows done : list (Row T)) (o : Obj (list (Row T))) :
  (forall name, own o name = rowsOf name done) ->
  Forall (fun r => ~ In (locationName r) inherited) rows ->
  exists o', fold_left reducer rows (Some o) = Some o' /\
             forall name, own o' name = rowsOf name (done ++ rows).
Proof.
  revert done o. induction rows as [| r rows IH]; intros done o Inv Hrows.
  - exists o. rewrite app_nil_r. split; [reflexivity | exact Inv].
  - inversion Hrows as [| ? ? Hr Hrest]; subst.
    destruct (reducer_groups o done r Inv Hr) as (o1 & E1 & Inv1).
    destruct (IH (done ++ [r])%list o1 Inv1 Hrest) as (o' & E' & Inv').
    exists o'. cbn [fold_left]. rewrite E1.
    rewrite <- app_assoc in Inv'. split; [exact E' | exact Inv'].
Qed.

Lemma fold_None (rows : list (Row T)) : fold_left reducer rows None = None.
Proof. induction rows; [reflexivity | exact IHrows]. Qed.

Lemma fold_throws (rows : list (Row T)) (o : Obj (list (Row T))) :
  (forall k, In k inherited -> own o k = None) ->
  Exists (fun r => In (locationName r) inherited) rows ->
  fold_left reducer rows (Some o) = None.
Proof.
  revert o. induction rows as [| r rows IH]; intros o Inv Hex.
  - inversion Hex.
  - cbn [fold_left].
    destruct (in_dec string_dec (locationName r) inherited) as [Hin | Hout].
    + unfold reducer at 2. cbv zeta.
      rewrite (get_inherited o _ Hin (Inv _ Hin)).
      rewrite (get_inherited o _ Hin (Inv _ Hin)). apply fold_None.
    + inversion Hex as [? ? Hhere | ? ? Hlater]; subst; [contradiction |].
      assert (exists o1, reducer (Some o) r = Some o1 /\
                         forall k, In k inherited -> own o1 k = None)
        as (o1 & E1 & Inv1).
      { unfold reducer. cbv zeta. rewrite (get_own o _ Hout).
        destruct (own o (locationName r)) as [g |] eqn:E.
        - rewrite (get_own o _ Hout), E. eexists. split; [reflexivity |].
          intros k Hk. rewrite own_assign.
          destruct (String.eqb_spec (locationName r) k) as [<- | _];
            [contradiction | apply Inv, Hk].
        - rewrite (get_own _ _ Hout), own_assign, String.eqb_refl.
          eexists. split; [reflexivity |].
          intros k Hk. rewrite !own_assign.
          destruct (String.eqb_spec (locationName r) k) as [<- | _];
            [contradiction | apply Inv, Hk]. }
      rewrite E1. apply IH; assumption.
Qed.

Lemma head_filter {A} (f : A -> bool) (l : list A) :
  nth_error (filter f l) 0 = find f l.
Proof.
  induction l as [| a l IH]; [reflexivity |].
  cbn [filter find]. destruct (f a); [reflexivity | exact IH].
Qed.

(** X10.  When no station bears the name of a member of [Object.prototype],
    [readingsByLocation] holds, under each station name, exactly the rows of
    that station in the order they were fetched, and nothing under a name
    without rows. *)
Theorem readingsByLocation_groups (rows : list (Row T)) :
  Forall (fun r => ~ In (locationName r) inherited) rows ->
  exists byLocation,
    readingsByLocation rows = Some byLocation /\
    forall name,
      own byLocation name
      = match filter (fun r => locationName r =? name) rows with
        | [] => None
        | group => Some group
        end.
Proof.
  intro Hrows. rewrite readingsByLocation_reducer.
  destruct (fold_groups rows [] [] (fun _ => eq_refl) Hrows) as (o & E & Inv).
  exists o. split; [exact E | exact Inv].
Qed.

(** X11.  Under the same condition, the reading a station card displays is
    the first fetched row of that station (the query orders rows latest
    first), and none when the station has no row in the range. *)
Theorem lastReading_is_first_row (rows : list (Row T)) :
  Forall (fun r => ~ In (locationName r) inherited) rows ->
  exists byLocation,
    readingsByLocation rows = Some byLocation /\
    forall name,
      lastReading byLocation name
      = find (fun r => locationName r =? name) rows.
Proof.
  intro Hrows. rewrite readingsByLocation_reducer.
  destruct (fold_groups rows [] [] (fun _ => eq_refl) Hrows) as (o & E & Inv).
  exists o. split; [exact E |].
  intro name. unfold lastReading, get. rewrite Inv.
  rewrite <- head_filter. unfold rowsOf. cbn [app].
  destruct (filter (fun r => locationName r =? name) rows) as [| r g];
    [| reflexivity].
  destruct (existsb (String.eqb name) inherited); reflexivity.
Qed.

(** X12.  A single row whose station is named like a member of
    [Object.prototype] ("constructor", "toString", ...) makes the reducer
    throw: [acc[locationName]] is then not an array. *)
Theorem readingsByLocation_throws (rows : list (Row T)) :
  Exists (fun r => In (locationName r) inherited) rows ->
  readingsByLocation rows = None.
Proof.
  intro Hex. rewrite readingsByLocation_reducer.
  apply fold_throws; [reflexivity | exact Hex].
Qed.

End Grouping.

Lemma readingsByLocation_groups_witness :
  exists byLocation,
    readingsByLocation (T := R)
      [ {| reading := Samples.temperatureRow (Some 11%R);
           precipitation_mm := None; locations := Some "Oslo" |};
        {| reading := Samples.temperatureRow (Some 25%R);
           precipitation_mm := None; locations := Some "Cairo" |};
        {| reading := Samples.temperatureRow (Some 9%R);
           precipitation_mm := None; locations := Some "Oslo" |} ]
    = Some byLocation /\
    own byLocation "Oslo"
    = Some [ {| reading := Samples.temperatureRow (Some 11%R);
                precipitation_mm := None; locations := Some "Oslo" |};
             {| reading := Samples.temperatureRow (Some 9%R);
                precipitation_mm := None; locations := Some "Oslo" |} ].
Proof.
  destruct (readingsByLocation_groups (T := R)
              [ {| reading := Samples.temperatureRow (Some 11%R);
                   precipitation_mm := None; locations := Some "Oslo" |};
                {| reading := Samples.temperatureRow (Some 25%R);
                   precipitation_mm := None; locations := Some "Cairo" |};
                {| reading := Samples.temperatureRow (Some 9%R);
                   precipitation_mm := None; locations := Some "Oslo" |} ])
    as (o & E & Inv).
  - repeat constructor; cbn; intuition discriminate.
  - exists o. split; [exact E |]. rewrite Inv. reflexivity.
Defined.

Lemma lastReading_is_first_row_witness :
  exists byLocation,
    readingsByLocation (T := R)
      [ {| reading := Samples.temperatureRow (Some 11%R);
           precipitation_mm := None; locations := Some "Oslo" |};
        {| reading := Samples.temperatureRow (Some 9%R);
           precipitation_mm := None; locations := Some "Oslo" |} ]
    = Some byLocation /\
    lastReading byLocation "Oslo"
    = Some {| reading := Samples.temperatureRow (Some 11%R);
              precipitation_mm := None; locations := Some "Oslo" |} /\
    lastReading byLocation "Lima" = None.
Proof.
  destruct (lastReading_is_first_row (T := R)
              [ {| reading := Samples.temperatureRow (Some 11%R);
                   precipitation_mm := None; locations := Some "Oslo" |};
                {| reading := Samples.temperatureRow (Some 9%R);
                   precipitation_mm := None; locations := Some "Oslo" |} ])
    as (o & E & Inv).
  - repeat constructor; cbn; intuition discriminate.
  - exists o. split; [exact E |]. rewrite !Inv. split; reflexivity.
Defined.

Lemma readingsByLocation_throws_witness :
  readingsByLocation (T := R)
    [ {| reading := Samples.temperatureRow (Some 11%R);
         precipitation_mm := None; locations := Some "Oslo" |};
      {| reading := Samples.temperatureRow (Some 25%R);
         precipitation_mm := None; locations := Some "constructor" |} ]
  = None.
Proof.
  apply readingsByLocation_throws.
  apply Exists_cons_tl, Exists_cons_hd. cbn. tauto.
Defined.

End DashboardViewFacts.

(** ** What the date inputs display *)

Module DatePickerViewFacts.
Import JsDate DateRangePicker RangeSpec DatePickerView PageRanges.
Import JsDateFacts DateRangePickerFacts.
Local Open Scope Z_scope.

(** *** Going back [n] days with [setDate] *)

Lemma setDate_back (tza t n : Z) :
  setDate tza (minus (getDate tza (Some t)) n) (Some t)
  = TimeClip (t - n * msPerDay).
Proof.
  unfold setDate, getDate, minus. cbv zeta.
  replace (DateFromTime (LocalTime tza t) - n)
    with (DateFromTime (LocalTime tza t) + - n) by lia.
  rewrite MakeDay_fields. f_equal.
  unfold UTC, MakeDate, TimeWithinDay, Day, LocalTime.
  generalize (Z.div_mod (t + tza) msPerDay). unfold msPerDay. lia.
Qed.



(** X14.  In a zone with a fixed offset, each option of the "Data Range"
    select of WeatherData (7, 30, 90 or 365) sets the range from exactly
    that many times 24 hours before the reading of the clock taken for the
    start, to the reading taken for the end. *)
Theorem selectDataRange_days (tza nowEnd nowStart : Z) (value : string)
        (n : Z) :
  wallClock nowStart ->
  (value = "7"%string /\ n = 7 \/ value = "30"%string /\ n = 30 \/
   value = "90"%string /\ n = 90 \/ value = "365"%string /\ n = 365) ->
  selectDataRange tza nowEnd nowStart value
  = {| start := Some (nowStart - n * msPerDay); end_ := Some nowEnd |}.
Proof.
  intros Hnow Hv. unfold selectDataRange, Date_now. cbv zeta.
  assert (E : parseInt value = Some n)
    by (destruct Hv as [[-> ->] | [[-> ->] | [[-> ->] | [-> ->]]]]; reflexivity).
  rewrite E.
  assert (R : - maxTime <= nowStart - n * msPerDay <= maxTime).
  { unfold wallClock, maxTime, msPerDay in *.
    destruct Hv as [[_ ->] | [[_ ->] | [[_ ->] | [_ ->]]]]; lia. }
  f_equal.
  exact (eq_trans (setDate_back tza nowStart n) (TimeClip_in_range _ R)).
Qed.

Lemma selectDataRange_days_witness :
  selectDataRange 3600000 1710084600000 1710084600001 "365"
  = {| start := Some (1710084600001 - 365 * msPerDay);
       end_ := Some 1710084600000 |}.
Proof.
  apply selectDataRange_days; [unfold wallClock, maxTime, msPerDay; lia | tauto].
Defined.

(** X15.  In a zone with a fixed offset, the Analytics page queries from
    exactly 7, 30 or 365 times 24 hours (for week, month, year) before the
    reading of the clock taken for the start, to the reading taken for the
    upper bound: "Last Year" is 365 days, whatever the calendar year. *)
Theorem fetchAnalyticsData_days (tza nowStart nowEnd : Z) :
  wallClock nowStart ->
  fetchAnalyticsData tza nowStart nowEnd week
  = {| start := Some (nowStart - 7 * msPerDay); end_ := Some nowEnd |} /\
  fetchAnalyticsData tza nowStart nowEnd month
  = {| start := Some (nowStart - 30 * msPerDay); end_ := Some nowEnd |} /\
  fetchAnalyticsData tza nowStart nowEnd year
  = {| start := Some (nowStart - 365 * msPerDay); end_ := Some nowEnd |}.
Proof.
  intro Hnow. unfold fetchAnalyticsData, Date_now. cbv zeta.
  cbn [isWeek isMonth isYear].
  rewrite !setDate_back.
  unfold wallClock, maxTime, msPerDay in *.
  rewrite !TimeClip_in_range by (unfold maxTime; lia).
  repeat split.
Qed.

Lemma fetchAnalyticsData_days_witness :
  fetchAnalyticsData 0 1710084600000 1710084600250 year
  = {| start := Some (1710084600000 - 365 * msPerDay);
       end_ := Some 1710084600250 |}.
Proof.
  apply (fetchAnalyticsData_days 0 1710084600000 1710084600250).
  unfold wallClock, maxTime, msPerDay. lia.
Defined.


(** *** The value of the date inputs *)

Lemma digitChar_cases (k : Z) :
  0 <= k <= 9 ->
  digit (digitChar k) = Some k /\ Ascii.eqb (digitChar k) "T" = false.
Proof.
  intro Hk.
  assert (C : k = 0 \/ k = 1 \/ k = 2 \/ k = 3 \/ k = 4 \/
              k = 5 \/ k = 6 \/ k = 7 \/ k = 8 \/ k = 9) by lia.
  repeat (destruct C as [-> | C]; [split; reflexivity |]).
  subst k. split; reflexivity.
Qed.

Lemma mod10 (n : Z) : 0 <= n mod 10 <= 9.
Proof. generalize (Z.mod_pos_bound n 10). lia. Qed.

Lemma pad_no_T (w : nat) (n : Z) :
  Forall (fun c => Ascii.eqb c "T" = false) (pad w n).
Proof.
  revert n. induction w as [| w IH]; intro n; cbn [pad]; [constructor |].
  apply Forall_app. split; [apply IH |].
  constructor; [| constructor]. apply digitChar_cases, mod10.
Qed.

Lemma yearDigits_no_T (y : Z) :
  Forall (fun c => Ascii.eqb c "T" = false) (yearDigits y).
Proof.
  unfold yearDigits. destruct ((0 <=? y) && (y <=? 9999)).
  - apply pad_no_T.
  - constructor; [destruct (y <? 0); reflexivity | apply pad_no_T].
Qed.

Lemma beforeT_app (l1 l2 : list ascii) :
  Forall (fun c => Ascii.eqb c "T" = false) l1 ->
  beforeT (string_of_list_ascii (l1 ++ "T"%char :: l2))
  = string_of_list_ascii l1.
Proof.
  induction 1 as [| c l1 Hc _ IH]; cbn [app string_of_list_ascii beforeT].
  - reflexivity.
  - rewrite Hc, IH. reflexivity.
Qed.

Lemma datePart_no_T (t : Z) :
  Forall (fun c => Ascii.eqb c "T" = false) (datePart t).
Proof.
  unfold datePart.
  apply Forall_app; split; [apply yearDigits_no_T |].
  apply Forall_app; split; [constructor; [reflexivity | constructor] |].
  apply Forall_app; split; [apply pad_no_T |].
  apply Forall_app; split; [constructor; [reflexivity | constructor] |].
  apply pad_no_T.
Qed.

Lemma formatDateForInput_datePart (t : Z) :
  formatDateForInput (Some t) = Some (string_of_list_ascii (datePart t)).
Proof.
  unfold formatDateForInput, toISOString. f_equal.
  transitivity
    (beforeT
       (string_of_list_ascii
          (datePart t ++ "T"%char ::
             (pad 2 (HourFromTime t) ++ [":"%char]
              ++ pad 2 (MinFromTime t) ++ [":"%char]
              ++ pad 2 (SecFromTime t) ++ ["."%char]
              ++ pad 3 (msFromTime t) ++ ["Z"%char])))).
  - unfold datePart. rewrite <- !app_assoc. reflexivity.
  - apply beforeT_app, datePart_no_T.
Qed.

(** The displayed date depends on the UTC day only. *)
Lemma formatDateForInput_Day (a b : Z) :
  Day a = Day b ->
  formatDateForInput (Some a) = formatDateForInput (Some b).
Proof.
  intro E. rewrite !formatDateForInput_datePart. unfold datePart.
  rewrite (YearFromTime_Day _ _ E), (MonthFromTime_Day _ _ E),
    (DateFromTime_Day _ _ E). reflexivity.
Qed.

Lemma DaysInYear_cases (y : Z) : DaysInYear y = 365 \/ DaysInYear y = 366.
Proof.
  unfold DaysInYear.
  repeat match goal with
         | |- context [if ?b then _ else _] => destruct b
         end; tauto.
Qed.

Lemma DayWithinYear_range (t : Z) :
  0 <= DayWithinYear t < DaysInYear (YearFromTime t).
Proof.
  unfold DayWithinYear. destruct (YearFromTime_spec t) as [Hlo Hhi].
  rewrite DayFromYear_next in Hhi. lia.
Qed.

(** The date of the month is a day of that month. *)
Lemma DateFromTime_range (t : Z) :
  1 <= DateFromTime t <= DaysInMonth (YearFromTime t) (MonthFromTime t + 1).
Proof.
  generalize (DayWithinYear_range t).
  unfold DateFromTime, MonthFromTime, InLeapYear, DaysInMonth. cbv zeta.
  generalize (DayWithinYear t). intros d Hd.
  destruct (DaysInYear_cases (YearFromTime t)) as [E | E]; rewrite E in *;
    cbn [Z.eqb Pos.eqb];
    repeat match goal with
           | |- context [?a <? ?b] => destruct (Z.ltb_spec a b)
           end; cbn; lia.
Qed.

Lemma number_pad4 (y : Z) :
  0 <= y <= 9999 -> number (pad 4 y) = Some y.
Proof.
  intro Hy. cbn [pad app]. unfold number. cbn [fold_left].
  rewrite !(proj1 (digitChar_cases _ (mod10 _))).
  f_equal. Z.to_euclidean_division_equations; lia.
Qed.

Lemma number_pad2 (n : Z) :
  0 <= n <= 99 -> number (pad 2 n) = Some n.
Proof.
  intro Hn. cbn [pad app]. unfold number. cbn [fold_left].
  rewrite !(proj1 (digitChar_cases _ (mod10 _))).
  f_equal. Z.to_euclidean_division_equations; lia.
Qed.

(** X16.  For a date of the years 0 to 9999, the value shown in a date
    input, read back the way the change handlers read it
    ([new Date(value)]), is the UTC midnight of the date's UTC day. *)
Theorem parse_formatDateForInput (t : Z) :
  0 <= YearFromTime t <= 9999 ->
  exists value,
    formatDateForInput (Some t) = Some value /\
    Date_parse value = Some (MakeDate (Day t) 0).
Proof.
  intro Hy. rewrite formatDateForInput_datePart.
  eexists. split; [reflexivity |].
  unfold Date_parse. rewrite list_ascii_of_string_of_list_ascii.
  unfold datePart, yearDigits.
  destruct (Z.leb_spec 0 (YearFromTime t)); [| lia].
  destruct (Z.leb_spec (YearFromTime t) 9999); [| lia].
  cbn [andb].
  assert (Hm := MonthFromTime_range t).
  assert (Hd := DateFromTime_range t).
  assert (Hd31 := DaysInMonth_le_31 (YearFromTime t) (MonthFromTime t + 1)).
  generalize (number_pad4 (YearFromTime t) Hy).
  generalize (number_pad2 (MonthFromTime t + 1) ltac:(lia)).
  generalize (number_pad2 (DateFromTime t) ltac:(lia)).
  cbn [pad app]. intros -> -> ->.
  cbn [Ascii.eqb Bool.eqb andb].
  destruct (Z.leb_spec 1 (MonthFromTime t + 1)); [| lia].
  destruct (Z.leb_spec (MonthFromTime t + 1) 12); [| lia].
  destruct (Z.leb_spec 1 (DateFromTime t)); [| lia].
  destruct (Z.leb_spec (DateFromTime t)
              (DaysInMonth (YearFromTime t) (MonthFromTime t + 1))); [| lia].
  cbn [andb].
  replace (MonthFromTime t + 1 - 1) with (MonthFromTime t) by lia.
  replace (DateFromTime t) with (DateFromTime t + 0) at 1 by lia.
  rewrite MakeDay_fields, Z.add_0_r.
  change (MakeTime 0 0 0 0) with 0.
  apply TimeClip_in_range.
  destruct (YearFromTime_spec t) as [Hlo Hhi].
  generalize (DayFromYear_mono 0 (YearFromTime t) ltac:(lia)).
  generalize (DayFromYear_mono (YearFromTime t + 1) 10000 ltac:(lia)).
  change (DayFromYear 0) with (-719528).
  change (DayFromYear 10000) with 2932897.
  unfold MakeDate, maxTime, msPerDay. lia.
Qed.

Lemma parse_formatDateForInput_witness :
  exists value,
    formatDateForInput (Some 1710084600000) = Some value /\
    Date_parse value = Some (MakeDate (Day 1710084600000) 0).
Proof.
  apply parse_formatDateForInput. vm_compute. split; discriminate.
Defined.


Lemma digit_inv (c : ascii) (k : Z) : digit c = Some k -> c = digitChar k.
Proof.
  unfold digit, digitChar. cbv zeta.
  destruct (Z.leb_spec 48 (Z.of_nat (nat_of_ascii c)));
    destruct (Z.leb_spec (Z.of_nat (nat_of_ascii c)) 57);
    cbn [andb]; intro E; [| discriminate E ..].
  assert (E' : Z.of_nat (nat_of_ascii c) - 48 = k) by congruence.
  rewrite <- E'.
  replace (48 + (Z.of_nat (nat_of_ascii c) - 48))
    with (Z.of_nat (nat_of_ascii c)) by lia.
  rewrite Nat2Z.id, ascii_nat_embedding. reflexivity.
Qed.

Lemma pad4_number (a b c d : ascii) (y : Z) :
  number [a; b; c; d] = Some y -> pad 4 y = [a; b; c; d].
Proof.
  unfold number. cbn [fold_left].
  destruct (digit a) as [ka |] eqn:Ea; [| discriminate].
  destruct (digit b) as [kb |] eqn:Eb; [| discriminate].
  destruct (digit c) as [kc |] eqn:Ec; [| discriminate].
  destruct (digit d) as [kd |] eqn:Ed; [| discriminate].
  intro E.
  assert (E' : 10 * (10 * (10 * (10 * 0 + ka) + kb) + kc) + kd = y)
    by congruence.
  rewrite (digit_inv _ _ Ea), (digit_inv _ _ Eb), (digit_inv _ _ Ec),
    (digit_inv _ _ Ed).
  apply digit_range in Ea, Eb, Ec, Ed.
  cbn [pad app].
  replace (y / 10 / 10 / 10 mod 10) with ka
    by (Z.to_euclidean_division_equations; lia).
  replace (y / 10 / 10 mod 10) with kb
    by (Z.to_euclidean_division_equations; lia).
  replace (y / 10 mod 10) with kc
    by (Z.to_euclidean_division_equations; lia).
  replace (y mod 10) with kd
    by (Z.to_euclidean_division_equations; lia).
  reflexivity.
Qed.

Lemma pad2_number (a b : ascii) (n : Z) :
  number [a; b] = Some n -> pad 2 n = [a; b].
Proof.
  unfold number. cbn [fold_left].
  destruct (digit a) as [ka |] eqn:Ea; [| discriminate].
  destruct (digit b) as [kb |] eqn:Eb; [| discriminate].
  intro E.
  assert (E' : 10 * (10 * 0 + ka) + kb = n) by congruence.
  rewrite (digit_inv _ _ Ea), (digit_inv _ _ Eb).
  apply digit_range in Ea, Eb.
  cbn [pad app].
  replace (n / 10 mod 10) with ka
    by (Z.to_euclidean_division_equations; lia).
  replace (n mod 10) with kb
    by (Z.to_euclidean_division_equations; lia).
  reflexivity.
Qed.

Ltac month_table :=
  repeat match goal with
         | |- context [Z.pos ?p - 1] =>
             let v := eval vm_compute in (Z.pos p - 1) in
             change (Z.pos p - 1) with v
         end;
  try change (365 =? 366) with false;
  try change (366 =? 366) with true;
  cbv iota.

(** A calendar date is found again in its day number. *)
Lemma fields_MakeDay (y m d : Z) :
  1 <= m <= 12 -> 1 <= d <= DaysInMonth y m ->
  YearFromTime (MakeDate (MakeDay y (m - 1) d) 0) = y /\
  MonthFromTime (MakeDate (MakeDay y (m - 1) d) 0) = m - 1 /\
  DateFromTime (MakeDate (MakeDay y (m - 1) d) 0) = d.
Proof.
  intros Hm Hd.
  assert (Hday : Day (MakeDate (MakeDay y (m - 1) d) 0) = MakeDay y (m - 1) d)
    by (apply Day_MakeDate; vm_compute; split; congruence).
  assert (Hoff : MakeDay y (m - 1) d
                 = DayFromYear y + (firstDayOfMonth y (m - 1) + d - 1)).
  { unfold MakeDay. cbv zeta.
    rewrite (Z.div_small (m - 1) 12), (Z.mod_small (m - 1) 12), Z.add_0_r by lia.
    lia. }
  assert (C : m = 1 \/ m = 2 \/ m = 3 \/ m = 4 \/ m = 5 \/ m = 6 \/
              m = 7 \/ m = 8 \/ m = 9 \/ m = 10 \/ m = 11 \/ m = 12) by lia.
  assert (Hrange : 0 <= firstDayOfMonth y (m - 1) + d - 1 < DaysInYear y).
  { clear Hday Hoff. revert Hd. unfold firstDayOfMonth, DaysInMonth. cbv zeta.
    destruct (DaysInYear_cases y) as [E | E]; rewrite E;
      repeat (destruct C as [-> | C]; [month_table; lia |]);
      subst m; month_table; lia. }
  assert (Hy : YearFromTime (MakeDate (MakeDay y (m - 1) d) 0) = y).
  { apply YearFromTime_unique. rewrite Hday, Hoff, DayFromYear_next. lia. }
  assert (Hw : DayWithinYear (MakeDate (MakeDay y (m - 1) d) 0)
               = firstDayOfMonth y (m - 1) + d - 1).
  { unfold DayWithinYear. rewrite Hy, Hday, Hoff. lia. }
  assert (Hmo : MonthFromTime (MakeDate (MakeDay y (m - 1) d) 0) = m - 1).
  { unfold MonthFromTime, InLeapYear. cbv zeta. rewrite Hw, Hy.
    clear Hday Hoff Hrange Hy Hw. revert Hd.
    unfold firstDayOfMonth, DaysInMonth. cbv zeta.
    destruct (DaysInYear_cases y) as [E | E]; rewrite E;
      repeat (destruct C as [-> | C];
              [month_table; intro Hd;
               repeat match goal with
                      | |- context [?a <? ?b] => destruct (Z.ltb_spec a b)
                      end; lia |]);
      subst m; month_table; intro Hd;
      repeat match goal with
             | |- context [?a <? ?b] => destruct (Z.ltb_spec a b)
             end; lia. }
  split; [exact Hy |]. split; [exact Hmo |].
  unfold DateFromTime, InLeapYear. cbv zeta. rewrite Hmo, Hw, Hy.
  unfold firstDayOfMonth. cbv zeta.
  destruct (DaysInYear_cases y) as [E | E]; rewrite E;
    repeat (destruct C as [-> | C]; [month_table; lia |]);
    subst m; month_table; lia.
Qed.

(** X17.  A valid date string with a four-digit year (the strings
    [Date_parse] reads, on which the engines agree) is displayed unchanged
    when the date it denotes is put back into an input. *)
Theorem formatDateForInput_parse (value : string) (t : Z) :
  Date_parse value = Some t -> formatDateForInput (Some t) = Some value.
Proof.
  unfold Date_parse. intro E.
  rewrite <- (string_of_list_ascii_of_string value).
  destruct (list_ascii_of_string value)
    as [| y1 [| y2 [| y3 [| y4 [| dash1 [| m1 [| m2 [| dash2 [| d1 [| d2 [| x rest]]]]]]]]]]];
    try discriminate.
  destruct (Ascii.eqb_spec dash1 "-"); [subst dash1 | discriminate].
  destruct (Ascii.eqb_spec dash2 "-"); [subst dash2 | discriminate].
  cbn [andb] in E.
  destruct (number [y1; y2; y3; y4]) as [y |] eqn:Ey; [| discriminate].
  destruct (number [m1; m2]) as [m |] eqn:Em; [| discriminate].
  destruct (number [d1; d2]) as [d |] eqn:Ed; [| discriminate].
  destruct (Z.leb_spec 1 m); [| discriminate].
  destruct (Z.leb_spec m 12); [| discriminate].
  destruct (Z.leb_spec 1 d); [| discriminate].
  destruct (Z.leb_spec d (DaysInMonth y m)); [| discriminate].
  cbn [andb] in E. change (MakeTime 0 0 0 0) with 0 in E.
  unfold TimeClip in E.
  destruct (Z.abs (MakeDate (MakeDay y (m - 1) d) 0) <=? maxTime);
    [| discriminate].
  assert (E' : MakeDate (MakeDay y (m - 1) d) 0 = t) by congruence.
  subst t. rewrite formatDateForInput_datePart. f_equal. f_equal.
  destruct (fields_MakeDay y m d ltac:(lia) ltac:(lia)) as (Hy & Hm & Hd).
  unfold datePart. rewrite Hy, Hm, Hd.
  replace (m - 1 + 1) with m by lia.
  assert (Ry := number4_range _ _ _ _ _ Ey).
  unfold yearDigits.
  destruct (Z.leb_spec 0 y); [| lia].
  destruct (Z.leb_spec y 9999); [| lia].
  cbn [andb].
  rewrite (pad4_number _ _ _ _ _ Ey), (pad2_number _ _ _ Em),
    (pad2_number _ _ _ Ed).
  reflexivity.
Qed.

Lemma formatDateForInput_parse_witness :
  formatDateForInput (Some 1709164800000) = Some "2024-02-29"%string.
Proof.
  apply formatDateForInput_parse. reflexivity.
Defined.


(** *** Rendering after an edit *)

Lemma formatDateForInput_Some (t : Z) : formatDateForInput (Some t) <> None.
Proof. rewrite formatDateForInput_datePart. discriminate. Qed.

Lemma render_throws_iff (now : Z) (s : State) :
  render now s = None <-> startDate s = None \/ endDate s = None.
Proof.
  unfold render, Date_now.
  destruct (startDate s) as [a |], (endDate s) as [b |]; cbn [formatDateForInput toISOString].
  - split; [discriminate | intros [E | E]; discriminate E].
  - split; [right; reflexivity | reflexivity].
  - split; [left; reflexivity | reflexivity].
  - split; [left; reflexivity | reflexivity].
Qed.

(** X18.  Clearing a date input (its value becomes the empty string) stores
    an Invalid Date, and the render that follows throws: [toISOString]
    raises a RangeError on it. *)
Theorem cleared_input_breaks_render (tza now : Z) (s : State) :
  startDate (fst (handleStartDateChange tza "" s)) = None /\
  endDate (fst (handleEndDateChange tza "" s)) = None /\
  render now (fst (handleStartDateChange tza "" s)) = None /\
  render now (fst (handleEndDateChange tza "" s)) = None.
Proof.
  split; [reflexivity |]. split; [reflexivity |].
  split; apply render_throws_iff; [left | right]; reflexivity.
Qed.

(** X19.  Wherever local time is not UTC, the start input shows the day
    before the one just picked in it, because the value is read as a UTC
    midnight, moved to the start of the local day and displayed in UTC; the
    end input shows the day picked. *)
Theorem picked_start_shows_day_before (tza : Z) (value : string) (t : Z)
        (s : State) :
  validOffset tza -> Date_parse value = Some t ->
  formatDateForInput (startDate (fst (handleStartDateChange tza value s)))
  = formatDateForInput (Some (if tza =? 0 then t else t - msPerDay)) /\
  formatDateForInput (endDate (fst (handleEndDateChange tza value s)))
  = formatDateForInput (Some t).
Proof.
  intros Htza E.
  destruct (Date_parse_midnight _ _ E) as (d & -> & Hd).
  unfold handleStartDateChange, handleEndDateChange. cbv zeta.
  cbn [fst startDate endDate]. rewrite E.
  assert (S1 : setHours tza 0 0 0 0 (Some (MakeDate d 0))
               = Some (MakeDate (localDay tza (MakeDate d 0)) 0 - tza)).
  { apply (setHours_parsed tza d 0 Hd). vm_compute; split; congruence. }
  assert (S2 : setHours tza 23 59 59 999 (Some (MakeDate d 0))
               = Some (MakeDate (localDay tza (MakeDate d 0))
                                (MakeTime 23 59 59 999) - tza)).
  { apply (setHours_parsed tza d (MakeTime 23 59 59 999) Hd).
    vm_compute; split; congruence. }
  rewrite S1, S2, !localDay_midnight.
  unfold validOffset in Htza.
  split; apply formatDateForInput_Day.
  - destruct (Z.eqb_spec tza 0) as [-> | Hne];
      unfold Day, MakeDate, msPerDay in *;
      Z.to_euclidean_division_equations; lia.
  - unfold Day, MakeDate, MakeTime, msPerHour, msPerMinute, msPerSecond,
      msPerDay in *.
    Z.to_euclidean_division_equations; lia.
Qed.

Lemma picked_start_shows_day_before_witness :
  formatDateForInput
    (startDate (fst (handleStartDateChange 3600000 "2024-03-10"
                       (fst (mount 3600000 1710084600000 "last7days")))))
  = formatDateForInput (Some (1710028800000 - msPerDay)).
Proof.
  apply (picked_start_shows_day_before 3600000 "2024-03-10" 1710028800000).
  - unfold validOffset, msPerDay. lia.
  - reflexivity.
Defined.

(** *** The presets *)

(** X20.  In a zone with a fixed offset, when the two readings of the clock
    fall on the same local day, the three day-count presets end at the same
    instant and are nested: last90days starts 60 times 24 hours before
    last30days, which starts 23 times 24 hours before last7days. *)
Theorem presets_nested (tza nowToday nowStart : Z) (s : State) :
  validOffset tza -> wallClock nowToday ->
  localDay tza nowStart = localDay tza nowToday ->
  exists s7 s30 s90 e,
    ZoneSpec.resolved (TimeZone.fixed tza) nowToday nowStart "last7days" s s7 e /\
    ZoneSpec.resolved (TimeZone.fixed tza) nowToday nowStart "last30days" s s30 e /\
    ZoneSpec.resolved (TimeZone.fixed tza) nowToday nowStart "last90days" s s90 e /\
    s30 = s7 - 23 * msPerDay /\ s90 = s30 - 60 * msPerDay /\ s7 < e.
Proof.
  intros Htza Hnow Hsame. unfold ZoneSpec.resolved.
  rewrite !(ZonedPickerFacts.fixed_applyPreset_sameDay
              tza nowToday nowStart _ s Hsame).
  exists (MakeDate (localDay tza nowToday - 7) 0 - tza),
         (MakeDate (localDay tza nowToday - 30) 0 - tza),
         (MakeDate (localDay tza nowToday - 90) 0 - tza),
         (MakeDate (localDay tza nowToday) (MakeTime 23 59 59 999) - tza).
  split; [apply (applyPreset_days tza Htza nowToday 7); tauto |].
  split; [apply (applyPreset_days tza Htza nowToday 30); tauto |].
  split; [apply (applyPreset_days tza Htza nowToday 90); tauto |].
  unfold MakeDate, MakeTime, msPerHour, msPerMinute, msPerSecond, msPerDay.
  lia.
Qed.

Lemma presets_nested_witness :
  exists s7 s30 s90 e,
    ZoneSpec.resolved (TimeZone.fixed 0) 1710084600000 1710084600001
      "last7days" (initialState 0 1710084600000 "ytd") s7 e /\
    ZoneSpec.resolved (TimeZone.fixed 0) 1710084600000 1710084600001
      "last30days" (initialState 0 1710084600000 "ytd") s30 e /\
    ZoneSpec.resolved (TimeZone.fixed 0) 1710084600000 1710084600001
      "last90days" (initialState 0 1710084600000 "ytd") s90 e /\
    s30 = s7 - 23 * msPerDay /\ s90 = s30 - 60 * msPerDay /\ s7 < e.
Proof.
  apply presets_nested.
  - unfold validOffset, msPerDay. lia.
  - unfold wallClock, maxTime, msPerDay. lia.
  - reflexivity.
Defined.

(** X21.  In a zone with a fixed offset, when the two readings of the clock
    fall on the same local day, the inputs do not always show the local days
    of the range a day-count preset resolved to: east of Greenwich the start
    input shows the day before the range starts, west of Greenwich the end
    input shows tomorrow. *)
Theorem preset_inputs_shifted (tza nowToday nowStart n : Z) (preset : string)
        (s : State) :
  validOffset tza -> wallClock nowToday ->
  localDay tza nowStart = localDay tza nowToday ->
  (preset = "last7days"%string /\ n = 7 \/
   preset = "last30days"%string /\ n = 30 \/
   preset = "last90days"%string /\ n = 90) ->
  exists st e,
    ZoneSpec.resolved (TimeZone.fixed tza) nowToday nowStart preset s st e /\
    formatDateForInput (Some st)
    = formatDateForInput
        (Some (MakeDate
                 (localDay tza nowToday - n - (if 0 <? tza then 1 else 0)) 0)) /\
    formatDateForInput (Some e)
    = formatDateForInput
        (Some (MakeDate
                 (localDay tza nowToday + (if tza <? 0 then 1 else 0)) 0)).
Proof.
  intros Htza Hnow Hsame Hp. unfold ZoneSpec.resolved.
  rewrite (ZonedPickerFacts.fixed_applyPreset_sameDay
             tza nowToday nowStart preset s Hsame).
  eexists; eexists.
  split; [apply (applyPreset_days tza Htza nowToday n); assumption |].
  unfold validOffset in Htza.
  split; apply formatDateForInput_Day;
    rewrite (Day_MakeDate _ 0) by (vm_compute; split; congruence).
  - destruct (Z.ltb_spec 0 tza);
      unfold Day, MakeDate, msPerDay in *;
      Z.to_euclidean_division_equations; lia.
  - destruct (Z.ltb_spec tza 0);
      unfold Day, MakeDate, MakeTime, msPerHour, msPerMinute, msPerSecond,
        msPerDay in *;
      Z.to_euclidean_division_equations; lia.
Qed.

Lemma preset_inputs_shifted_witness :
  exists st e,
    ZoneSpec.resolved (TimeZone.fixed (-18000000)) 1710084600000 1710084600001
      "last7days" (initialState (-18000000) 1710084600000 "last7days") st e /\
    formatDateForInput (Some st)
    = formatDateForInput
        (Some (MakeDate (localDay (-18000000) 1710084600000 - 7 - 0) 0)) /\
    formatDateForInput (Some e)
    = formatDateForInput
        (Some (MakeDate (localDay (-18000000) 1710084600000 + 1) 0)).
Proof.
  apply (preset_inputs_shifted (-18000000) 1710084600000 1710084600001 7
           "last7days").
  - unfold validOffset, msPerDay. lia.
  - unfold wallClock, maxTime, msPerDay. lia.
  - reflexivity.
  - tauto.
Defined.

End DatePickerViewFacts.

(** ** The Tooltip's timers *)

Module TooltipFacts.
Import Tooltip.

Section Timers.
Context {T : Type} `{JsNumber T}.

Lemma remove_single (id : nat) : List.remove Nat.eq_dec id [id] = [].
Proof. cbn. destruct (Nat.eq_dec id id); [reflexivity | congruence]. Qed.

Lemma clearRef_tidy (w : World T) :
  tidy w ->
  clearRef (timeoutRef (state w)) (timers w)
  = {| pending := []; next := next (timers w) |}.
Proof.
  intros [Hn [Hp | (id & Hp & Hr & Hid)]]; unfold clearRef.
  - destruct (timeoutRef (state w)) as [r |].
    + destruct (r =? 0)%nat; unfold clearTimeout; rewrite ?Hp;
        destruct (timers w); cbn in *; subst; reflexivity.
    + destruct (timers w); cbn in *; subst; reflexivity.
  - rewrite Hr. destruct (Nat.eqb_spec id 0); [lia |].
    unfold clearTimeout. rewrite Hp, remove_single. reflexivity.
Qed.

Lemma tidy_initial : tidy initial.
Proof. split; [cbn; lia | left; reflexivity]. Qed.

Lemma tidy_step (w w' : World T) (e : Event T) :
  tidy w -> step w e = Some w' -> tidy w'.
Proof.
  intros Hw. destruct e as [| | id rect |]; cbn [step].
  - intro E. injection E as <-. unfold showTooltip. cbv zeta.
    rewrite (clearRef_tidy w Hw). unfold tidy. cbn.
    destruct Hw as [Hn _]. split; [lia |]. right.
    exists (next (timers w)). repeat split; lia.
  - intro E. injection E as <-. unfold hideTooltip. cbv zeta.
    rewrite (clearRef_tidy w Hw). unfold tidy. cbn.
    destruct Hw as [Hn _]. split; [exact Hn | left; reflexivity].
  - unfold fire.
    destruct (existsb (Nat.eqb id) (pending (timers w))) eqn:Ex;
      [| discriminate].
    destruct Hw as [Hn [Hp | (id' & Hp & Hr & Hid)]].
    + rewrite Hp in Ex. discriminate Ex.
    + rewrite Hp in Ex. cbn in Ex. rewrite orb_false_r in Ex.
      apply Nat.eqb_eq in Ex. subst id'.
      rewrite Hp, remove_single.
      destruct rect as [rect |]; intro E; injection E as <-;
        unfold tidy; cbn; (split; [exact Hn | left; reflexivity]).
  - intro E. injection E as <-. unfold unmount.
    rewrite (clearRef_tidy w Hw). unfold tidy. cbn.
    destruct Hw as [Hn _]. split; [exact Hn | left; reflexivity].
Qed.

Lemma tidy_run (es : list (Event T)) (w w' : World T) :
  tidy w -> run w es = Some w' -> tidy w'.
Proof.
  revert w. induction es as [| e es IH]; intros w Hw; cbn [run].
  - intro E. injection E as <-. exact Hw.
  - destruct (step w e) as [w1 |] eqn:E1; [| discriminate].
    apply IH. exact (tidy_step w w1 e Hw E1).
Qed.

(** X22.  Whatever the user does, the tooltip has at most one timer
    running, and it is the one whose handle [timeoutRef] holds: every
    [showTooltip] cancels the timer set before. *)
Theorem one_timer_at_most (es : list (Event T)) (w : World T) :
  run initial es = Some w ->
  (length (pending (timers w)) <= 1)%nat /\
  forall id, In id (pending (timers w)) -> timeoutRef (state w) = Some id.
Proof.
  intro E. destruct (tidy_run es initial w tidy_initial E)
    as [_ [Hp | (id & Hp & Hr & _)]]; rewrite Hp.
  - split; [cbn; lia | intros id []].
  - split; [cbn; lia |]. intros id' [<- | []]. exact Hr.
Qed.

Lemma quiet_run (es : list (Event T)) (w w' : World T) :
  tidy w -> quiet w -> forallb (fun e => negb (isShow e)) es = true ->
  run w es = Some w' -> quiet w'.
Proof.
  revert w. induction es as [| e es IH]; intros w Hw Hq Hes; cbn [run].
  - intro E. injection E as <-. exact Hq.
  - cbn [forallb] in Hes. apply andb_prop in Hes. destruct Hes as [He Hes].
    destruct (step w e) as [w1 |] eqn:E1; [| discriminate].
    apply IH; [exact (tidy_step w w1 e Hw E1) | | exact Hes].
    destruct Hq as [Hp Hv].
    destruct e as [| | id rect |]; cbn [step isShow negb] in *.
    + discriminate He.
    + injection E1 as <-. unfold hideTooltip. cbv zeta.
      rewrite (clearRef_tidy w Hw). split; reflexivity.
    + unfold fire in E1. rewrite Hp in E1. discriminate E1.
    + injection E1 as <-. unfold unmount.
      rewrite (clearRef_tidy w Hw). split; [reflexivity | exact Hv].
Qed.

(** X23.  Once [hideTooltip] has run, the tooltip stays hidden until the
    next [showTooltip]: the timer that would have shown it is cancelled, so
    no timer callback can run, whatever else happens. *)
Theorem hidden_until_next_show (es es' : list (Event T)) (w w' : World T) :
  run initial es = Some w ->
  forallb (fun e => negb (isShow e)) es' = true ->
  run (hideTooltip w) es' = Some w' ->
  isVisible (state w') = false /\ pending (timers w') = [] /\
  forall id rect, fire id rect w' = None.
Proof.
  intros E Hes E'.
  assert (Hw : tidy w) by exact (tidy_run es initial w tidy_initial E).
  assert (Hh : tidy (hideTooltip w))
    by exact (tidy_step w _ Hide Hw eq_refl).
  assert (Hq : quiet (hideTooltip w)).
  { unfold hideTooltip, quiet. cbv zeta. rewrite (clearRef_tidy w Hw).
    split; reflexivity. }
  destruct (quiet_run es' _ w' Hh Hq Hes E') as [Hp Hv].
  split; [exact Hv |]. split; [exact Hp |].
  intros id rect. unfold fire. rewrite Hp. reflexivity.
Qed.

(** X24.  Unmounting leaves no timer of the tooltip behind. *)
Theorem unmount_clears_timer (es : list (Event T)) (w : World T) :
  run initial es = Some w -> pending (timers (unmount w)) = [].
Proof.
  intro E. unfold unmount. cbn [timers].
  rewrite (clearRef_tidy w (tidy_run es initial w tidy_initial E)).
  reflexivity.
Qed.

End Timers.

Lemma one_timer_at_most_witness :
  (length (pending (timers (showTooltip (showTooltip (@initial R _))))) <= 1)%nat.
Proof.
  apply (one_timer_at_most (T := R) [Show; Show]). reflexivity.
Defined.

Lemma hidden_until_next_show_witness :
  isVisible (state (hideTooltip (showTooltip (@initial R _)))) = false.
Proof.
  apply (hidden_until_next_show (T := R) [Show] []
           (showTooltip initial) (hideTooltip (showTooltip initial)));
    reflexivity.
Defined.

Lemma unmount_clears_timer_witness :
  pending (timers (unmount (showTooltip (@initial R _)))) = [].
Proof.
  apply (unmount_clears_timer (T := R) [Show]). reflexivity.
Defined.

End TooltipFacts.

(** ** The theme across toggles and reloads *)

Module AppFacts.
Import App.
Local Open Scope string_scope.

Lemma mountEffect_load (saved : option string) (prefers : bool) :
  classDark (env (mountEffect (load saved prefers)))
  = isDarkMode (mountEffect (load saved prefers)).
Proof.
  unfold mountEffect, load. cbv zeta. cbn [theme env prefersDark].
  destruct (_ || _); reflexivity.
Qed.

Lemma toggle_settled (w : World) :
  classDark (env w) = isDarkMode w -> settled (toggleDarkMode w).
Proof.
  intros _. unfold toggleDarkMode, settled. cbv zeta.
  destruct (isDarkMode w); cbn; split; reflexivity.
Qed.

Lemma toggles_settled (n : nat) (w : World) :
  settled w -> settled (toggles n w).
Proof.
  revert w. induction n as [| n IH]; intros w Hw; cbn [toggles];
    [exact Hw |].
  apply IH, toggle_settled, Hw.
Qed.

Lemma toggles_class (n : nat) (w : World) :
  classDark (env w) = isDarkMode w ->
  classDark (env (toggles n w)) = isDarkMode (toggles n w).
Proof.
  destruct n as [| n]; intro Hw; cbn [toggles]; [exact Hw |].
  apply toggles_settled, toggle_settled, Hw.
Qed.

(** X25.  From any page load on, whatever is stored and whatever the system
    prefers, the [dark] class of the document agrees with [isDarkMode] after
    the mount effect and any number of toggles; and once the toggle has been
    pressed, the stored theme is "dark" or "light" accordingly. *)
Theorem theme_in_step (saved : option string) (prefers : bool) (n : nat) :
  classDark (env (toggles n (mountEffect (load saved prefers))))
  = isDarkMode (toggles n (mountEffect (load saved prefers))) /\
  (n <> O ->
   theme (env (toggles n (mountEffect (load saved prefers))))
   = Some (if isDarkMode (toggles n (mountEffect (load saved prefers)))
           then "dark" else "light")).
Proof.
  split; [apply toggles_class, mountEffect_load |].
  destruct n as [| n]; [congruence | intros _].
  cbn [toggles].
  apply toggles_settled, toggle_settled, mountEffect_load.
Qed.

Lemma theme_in_step_witness :
  theme (env (toggles 3 (mountEffect (load None true))))
  = Some (if isDarkMode (toggles 3 (mountEffect (load None true)))
          then "dark" else "light").
Proof.
  apply (proj2 (theme_in_step None true 3)). discriminate.
Defined.

(** X26.  The choice survives a reload: once the toggle has been pressed,
    loading the page again with what was stored brings the same mode back,
    whatever the system prefers by then. *)
Theorem theme_survives_reload (saved : option string) (prefers prefers' : bool)
        (n : nat) :
  n <> O ->
  isDarkMode
    (mountEffect
       (load (theme (env (toggles n (mountEffect (load saved prefers)))))
             prefers'))
  = isDarkMode (toggles n (mountEffect (load saved prefers))).
Proof.
  intro Hn. destruct n as [| n]; [congruence |]. cbn [toggles].
  destruct (toggles_settled n _
              (toggle_settled _ (mountEffect_load saved prefers)))
    as [_ Ht].
  rewrite Ht.
  destruct (isDarkMode (toggles n (toggleDarkMode (mountEffect (load saved prefers)))));
    unfold mountEffect, load; cbn; reflexivity.
Qed.

Lemma theme_survives_reload_witness :
  isDarkMode
    (mountEffect
       (load (theme (env (toggles 1 (mountEffect (load (Some "dark") false)))))
             true))
  = isDarkMode (toggles 1 (mountEffect (load (Some "dark") false))).
Proof.
  apply theme_survives_reload. discriminate.
Defined.

End AppFacts.

(** ** The breadcrumb trail *)

Module BreadcrumbsFacts.
Import Breadcrumbs.
Local Open Scope string_scope.

Lemma string_app_assoc (a b c : string) : (a ++ b) ++ c = a ++ b ++ c.
Proof. induction a as [| x a IH]; cbn; [reflexivity | rewrite IH; reflexivity]. Qed.

Lemma string_app_nil_r (a : string) : a ++ "" = a.
Proof. induction a as [| x a IH]; cbn; [reflexivity | rewrite IH; reflexivity]. Qed.

Section Trail.
Variable toUpperCase : string -> string.

(** The loop, from segment number [i] on. *)
Lemma loop_from (count : nat) (rest : list string) (i : nat) (acc : string)
      (crumbs : list BreadcrumbItem) :
  count = (i + length rest)%nat ->
  exists pushed,
    fold_left (pushSegment toUpperCase count)
              (combine rest (seq i (length rest))) (acc, crumbs)
    = (acc ++ normalized rest, (crumbs ++ pushed)%list) /\
    length pushed = length rest /\
    map isCurrent pushed
    = match rest with
      | [] => []
      | _ => (repeat false (length rest - 1) ++ [true])%list
      end /\
    (rest <> [] ->
     href (last pushed {| label := ""; href := ""; isCurrent := false |})
     = acc ++ normalized rest).
Proof.
  revert i acc crumbs. induction rest as [| s rest IH]; intros i acc crumbs Hc.
  - exists []. cbn. rewrite string_app_nil_r, app_nil_r.
    repeat split. congruence.
  - cbn [length seq combine fold_left]. unfold pushSegment at 2. cbv zeta.
    destruct (IH (S i) (acc ++ "/" ++ s)
                 (crumbs ++ [{| label := toUpperCase (charAt0 s)
                                         ++ replaceDashes (slice1 s);
                                href := acc ++ "/" ++ s;
                                isCurrent := (i =? count - 1)%nat |}])%list
                 ltac:(cbn [length] in Hc; lia))
      as (pushed & E & Hlen & Hcur & Hlast).
    eexists (_ :: pushed). rewrite E. split.
    { f_equal.
      - cbn [normalized]. rewrite !string_app_assoc. reflexivity.
      - rewrite <- app_assoc. reflexivity. }
    split; [cbn [length]; rewrite Hlen; reflexivity |].
    split.
    + cbn [map isCurrent]. rewrite Hcur. cbn [length] in Hc.
      destruct rest as [| s' rest'].
      * cbn [length] in *. replace (i =? count - 1)%nat with true
          by (symmetry; apply Nat.eqb_eq; lia). reflexivity.
      * replace (i =? count - 1)%nat with false
          by (symmetry; apply Nat.eqb_neq; cbn [length] in *; lia).
        cbn [length]. replace (S (S (length rest')) - 1)%nat
          with (S (length rest')) by lia.
        replace (S (length rest') - 1)%nat with (length rest') by lia.
        reflexivity.
    + intros _. destruct rest as [| s' rest'].
      * destruct pushed; [| discriminate Hlen].
        cbn [last href normalized]. rewrite string_app_nil_r. reflexivity.
      * destruct pushed as [| p pushed]; [discriminate Hlen |].
        cbn [last]. cbn [last] in Hlast. rewrite Hlast by discriminate.
        cbn [normalized]. rewrite !string_app_assoc. reflexivity.
Qed.

(** X27.  The component renders nothing exactly when the pathname has no
    non-empty segment.  When it renders, there is one crumb per segment
    after Home, Home's link is "/", only the last crumb is marked current,
    and the last link is the pathname with its empty segments dropped. *)
Theorem trail_shape (pathname : string) :
  match render toUpperCase pathname with
  | None => filter nonEmpty (split pathname) = []
  | Some crumbs =>
      filter nonEmpty (split pathname) <> [] /\
      length crumbs = S (length (filter nonEmpty (split pathname))) /\
      map isCurrent crumbs
      = (repeat false (length (filter nonEmpty (split pathname))) ++ [true])%list /\
      option_map href (hd_error crumbs) = Some "/" /\
      href (last crumbs {| label := ""; href := ""; isCurrent := false |})
      = normalized (filter nonEmpty (split pathname))
  end.
Proof.
  unfold render, generateBreadcrumbs. cbv zeta.
  set (segs := filter nonEmpty (split pathname)).
  destruct (loop_from (length segs) segs 0 ""
              [{| label := "Home"; href := "/"; isCurrent := pathname =? "/" |}]
              eq_refl)
    as (pushed & E & Hlen & Hcur & Hlast).
  rewrite E. cbn [snd].
  destruct segs as [| s segs'] eqn:Es.
  - destruct pushed; [| discriminate Hlen]. reflexivity.
  - cbn [app length]. rewrite Hlen. cbn [length Nat.leb].
    split; [discriminate |]. split; [rewrite Hlen; reflexivity |].
    assert (Hhome : (pathname =? "/") = false).
    { destruct (String.eqb_spec pathname "/") as [-> | _]; [| reflexivity].
      discriminate Es. }
    split.
    + cbn [map isCurrent]. rewrite Hcur, Hhome.
      cbn [length].
      replace (S (length segs') - 1)%nat with (length segs') by lia.
      reflexivity.
    + split; [reflexivity |].
      destruct pushed as [| p pushed]; [discriminate Hlen |].
      cbn [last]. cbn [last] in Hlast. rewrite Hlast by discriminate.
      reflexivity.
Qed.

End Trail.

(** The routes of the application. *)
Example trail_of_root (up : string -> string) : render up "/" = None.
Proof. reflexivity. Qed.

Example trail_of_weather_data (up : string -> string) :
  map href (generateBreadcrumbs up "/weather-data/") = ["/"; "/weather-data"].
Proof. reflexivity. Qed.

End BreadcrumbsFacts.

(** ** The Settings page *)

Module SettingsFacts.
Import Settings.

Lemma wellFormed_step (s : SettingsObject) (e : Event) :
  wellFormed s -> wellFormed (step s e).
Proof.
  intros (He & Hv & Hd & Hk & Hu & Hl).
  destruct e; unfold wellFormed, step, handleToggle, handleSelectChange, spread;
    cbn [Key_eqb]; repeat split; eauto.
Qed.

Lemma wellFormed_fold (es : list Event) (s : SettingsObject) :
  wellFormed s -> wellFormed (fold_left step es s).
Proof.
  revert s. induction es as [| e es IH]; intros s Hs; cbn [fold_left];
    [exact Hs | apply IH, wellFormed_step, Hs].
Qed.

Lemma wellFormed_initial : wellFormed initial.
Proof. unfold wellFormed, initial. repeat split; eauto. Qed.

(** X28.  Whatever the user does on the Settings page, the three switches
    keep holding booleans and the two selects strings, [darkMode] is never
    changed, and pressing the same switch twice gives the settings back as
    they were. *)
Theorem switches_are_involutions (es : list Event) :
  wellFormed (run es) /\
  forall key,
    step (step (run es) SwitchEmail) SwitchEmail key = run es key /\
    step (step (run es) SwitchAlerts) SwitchAlerts key = run es key /\
    step (step (run es) SwitchReports) SwitchReports key = run es key.
Proof.
  assert (W : wellFormed (run es))
    by exact (wellFormed_fold es initial wellFormed_initial).
  split; [exact W |].
  destruct W as ((be & He) & (bv & Hv) & (bd & Hd) & _).
  intro key. unfold step, handleToggle, spread.
  cbn [Key_eqb]. rewrite He, Hv, Hd. cbn [not].
  rewrite !negb_involutive.
  destruct key; cbn [Key_eqb]; repeat split; congruence.
Qed.

End SettingsFacts.
